(** * Social-Hunt: scan engine and provider probes

    A shallow embedding of [social_hunt/engine.py] and of the probes under
    [social_hunt/providers/], with the properties of the specification
    stated over it.

    Conventions of the embedding.
    - A Python [str] is a Rocq [string] whose characters are the code
      points U+0000 to U+00FF, one character for one code point (not the
      bytes of an encoding): [str.lower], [str.strip], [str.isspace],
      [str.isdigit] and the class [\d] are Python's on these code points,
      so the no-break space U+00A0 is blank and the superscript two U+00B2
      is a digit for [str.isdigit] though none for [\d] and [int];
      [urllib.parse.quote] encodes a code point above 127 as the two bytes
      of its UTF-8 form.
    - A Python object coming out of [json.loads], or stored in the open
      [evidence] / [profile] mappings, is a [pyval]; a JSON number is an
      integer.
    - A header mapping ([Dict[str, str]]) is a [gmap string string]: equality
      of two Python dicts ignores insertion order, as equality of gmaps does.
    - A coroutine of a probe is a finite tree of effects ([io]); the network,
      the clock and the settings file answer through a handler.
    - A call that can raise returns a [result].  The three breach probes
      classify their term before their [try], and [int] may raise there, so
      their [check] is a coroutine of a [result]; the other probes do
      nothing that raises outside their [try].
    - The engine sees a probe through [BaseProvider]; a call of [check] is
      given by when it completes, what it returns or raises, and the headers
      it leaves ([CheckRun]). *)

From Stdlib Require Import ZArith Ascii String List Bool Lia.
From Stdlib Require Import DecimalString.
From stdpp Require Import base option list gmap strings sorting.

Set Warnings "-register-all".

Local Open Scope string_scope.
Local Open Scope Z_scope.

(** ** Python strings *)

Module PyStr.

Definition code (c : ascii) : N := N_of_ascii c.

Definition in_range (lo hi : N) (c : ascii) : bool :=
  ((lo <=? code c) && (code c <=? hi))%N.

(** The class [[0-9]] of a pattern.  It is also the class [\d], and
    [c.isdecimal()]: the decimal digits (category Nd) below U+0100 are
    these ten. *)
Definition isdecimal (c : ascii) : bool := in_range 48 57 c.

(** [c.isdigit()]: the ten decimal digits and the superscripts two, three
    and one (U+00B2, U+00B3, U+00B9). *)
Definition isdigit (c : ascii) : bool :=
  isdecimal c || (code c =? 178)%N || (code c =? 179)%N || (code c =? 185)%N.

(** The classes [[A-Z]], [[a-z]], [[a-zA-Z]] and [[a-zA-Z0-9]] of a
    pattern. *)
Definition isupper (c : ascii) : bool := in_range 65 90 c.
Definition islower (c : ascii) : bool := in_range 97 122 c.
Definition isalpha (c : ascii) : bool := isupper c || islower c.
Definition isalnum (c : ascii) : bool := isalpha c || isdecimal c.

(** [c.isspace()], the characters [str.strip()] removes: TAB, LF, VT, FF,
    CR, the four separators FS, GS, RS, US, the space, the next-line
    control U+0085 and the no-break space U+00A0. *)
Definition isspace (c : ascii) : bool :=
  in_range 9 13 c || in_range 28 31 c || (code c =? 32)%N
  || (code c =? 133)%N || (code c =? 160)%N.

(** [c.lower()]: the letters A to Z, and the capital letters U+00C0 to
    U+00DE but for the multiplication sign U+00D7, move up by 32. *)
Definition lower_char (c : ascii) : ascii :=
  if in_range 65 90 c || in_range 192 214 c || in_range 216 222 c
  then ascii_of_N (code c + 32) else c.

(** [s.lower()] *)
Fixpoint lower (s : string) : string :=
  match s with
  | EmptyString => EmptyString
  | String c s' => String (lower_char c) (lower s')
  end.

Fixpoint forallb (p : ascii -> bool) (s : string) : bool :=
  match s with
  | EmptyString => true
  | String c s' => p c && forallb p s'
  end.

Fixpoint lstrip (s : string) : string :=
  match s with
  | EmptyString => EmptyString
  | String c s' => if isspace c then lstrip s' else s
  end.

(** [rstrip] walks to the end and drops the blank suffix on the way back. *)
Fixpoint rstrip (s : string) : string :=
  match s with
  | EmptyString => EmptyString
  | String c s' =>
      match rstrip s' with
      | EmptyString => if isspace c then EmptyString else String c EmptyString
      | t => String c t
      end
  end.

(** [s.strip()] *)
Definition strip (s : string) : string := rstrip (lstrip s).

Fixpoint prefixb (p s : string) : bool :=
  match p, s with
  | EmptyString, _ => true
  | String a p', String b s' => if Ascii.eqb a b then prefixb p' s' else false
  | String _ _, EmptyString => false
  end.

(** [sub in s] *)
Fixpoint contains (sub s : string) : bool :=
  prefixb sub s ||
  match s with
  | EmptyString => false
  | String _ s' => contains sub s'
  end.

(** [c in s] for one character. *)
Fixpoint has_char (c : ascii) (s : string) : bool :=
  match s with
  | EmptyString => false
  | String d s' => Ascii.eqb c d || has_char c s'
  end.

(** The characters of [s] that satisfy [p], joined: [str.join] over
    [filter(p, s)] with the empty separator. *)
Fixpoint filter (p : ascii -> bool) (s : string) : string :=
  match s with
  | EmptyString => EmptyString
  | String c s' => if p c then String c (filter p s') else filter p s'
  end.

Definition len (s : string) : Z := Z.of_nat (String.length s).

(** Truth value of a string: [bool(s)]. *)
Definition truthy (s : string) : bool :=
  match s with EmptyString => false | _ => true end.

(** [str(n)] for an [int]. *)
Definition of_Z (n : Z) : string := NilZero.string_of_int (Z.to_int n).

(** Does [s] end with a line feed? *)
Fixpoint ends_with_lf (s : string) : bool :=
  match s with
  | EmptyString => false
  | String c EmptyString => (code c =? 10)%N
  | String _ s' => ends_with_lf s'
  end.

Fixpoint drop_last (s : string) : string :=
  match s with
  | EmptyString => EmptyString
  | String _ EmptyString => EmptyString
  | String c s' => String c (drop_last s')
  end.

(** [re.match(r"^[cls]{lo,hi}$", s)] as a truth value.  [$] matches at the
    end of the string and also just before a final line feed. *)
Definition re_match_class (cls : ascii -> bool) (lo hi : Z) (s : string) : bool :=
  let body := if ends_with_lf s then drop_last s else s in
  forallb cls body && (lo <=? len body) && (len body <=? hi).

(** The double quote, which a string literal cannot hold. *)
Definition dquote : ascii := ascii_of_N 34.

Fixpoint drop (n : nat) (s : string) : string :=
  match n, s with
  | O, _ => s
  | S n', String _ s' => drop n' s'
  | S _, EmptyString => EmptyString
  end.

(** [s.replace(c, empty)] for one character [c]. *)
Definition remove_char (c : ascii) (s : string) : string :=
  filter (fun d => negb (Ascii.eqb c d)) s.

(** [s.count(c)] for one character [c]. *)
Fixpoint count_char (c : ascii) (s : string) : Z :=
  match s with
  | EmptyString => 0
  | String d s' => (if Ascii.eqb c d then 1 else 0) + count_char c s'
  end.

(** [s.isdigit()]: at least one character, all of them digits. *)
Definition all_digits (s : string) : bool := truthy s && forallb isdigit s.

(** [s.split(c)] for one character [c]. *)
Fixpoint split_char (c : ascii) (s : string) : list string :=
  match s with
  | EmptyString => [EmptyString]
  | String d s' =>
      match split_char c s' with
      | [] => [EmptyString]
      | p :: ps =>
          if Ascii.eqb c d then EmptyString :: p :: ps
          else String d p :: ps
      end
  end.

(** The number a string of decimal digits writes. *)
Definition decimal_value (s : string) : Z :=
  let fix go (acc : Z) (s : string) : Z :=
    match s with
    | EmptyString => acc
    | String c s' => go (10 * acc + (Z.of_N (code c) - 48)) s'
    end in
  go 0 s.

Fixpoint take (n : nat) (s : string) : string :=
  match n, s with
  | S n', String c s' => String c (take n' s')
  | _, _ => EmptyString
  end.

Definition hex_digit (n : N) : ascii :=
  if (n <? 10)%N then ascii_of_N (48 + n) else ascii_of_N (55 + n).

(** The characters [urllib.parse.quote] never escapes. *)
Definition unreserved (c : ascii) : bool :=
  isalnum c || has_char c "_.-~".

(** One byte, percent-escaped. *)
Definition percent_byte (n : N) : string :=
  String "%" (String (hex_digit (n / 16))
                (String (hex_digit (n mod 16)) EmptyString)).

(** One character, percent-escaped: a single byte below U+0080, the two
    bytes of its UTF-8 form from there on. *)
Definition percent (c : ascii) : string :=
  if (code c <? 128)%N then percent_byte (code c)
  else percent_byte (192 + code c / 64) ++ percent_byte (128 + code c mod 64).

(** [urllib.parse.quote(s, safe=empty)] *)
Fixpoint quote (s : string) : string :=
  match s with
  | EmptyString => EmptyString
  | String c s' =>
      if unreserved c then String c (quote s') else percent c ++ quote s'
  end.

(** [urllib.parse.quote_plus(s)] *)
Fixpoint quote_plus (s : string) : string :=
  match s with
  | EmptyString => EmptyString
  | String c s' =>
      if unreserved c then String c (quote_plus s')
      else if (code c =? 32)%N then String "+" (quote_plus s')
      else percent c ++ quote_plus s'
  end.

(** The longest run of characters satisfying [p] at the head of [s], and
    what follows it. *)
Fixpoint span (p : ascii -> bool) (s : string) : string * string :=
  match s with
  | EmptyString => (EmptyString, EmptyString)
  | String c s' =>
      if p c then let '(a, b) := span p s' in (String c a, b)
      else (EmptyString, s)
  end.

(** [s.rsplit(c, 1)] when [c] occurs in [s]: what is before the last [c]
    and what is after it. *)
Fixpoint rsplit_char (c : ascii) (s : string) : option (string * string) :=
  match s with
  | EmptyString => None
  | String d s' =>
      match rsplit_char c s' with
      | Some (a, b) => Some (String d a, b)
      | None => if Ascii.eqb c d then Some (EmptyString, s') else None
      end
  end.

End PyStr.

(** ** Python values *)

(** What [json.loads] can return, and what the open mappings of a result
    hold.  A dict keeps its insertion order, so it is an association list. *)
Inductive pyval : Type :=
  | VNone : pyval
  | VBool : bool -> pyval
  | VInt : Z -> pyval
  | VStr : string -> pyval
  | VList : list pyval -> pyval
  | VDict : list (string * pyval) -> pyval.

Abbreviation pydict := (list (string * pyval)).

Module Py.

(** [bool(v)] *)
Definition truthy (v : pyval) : bool :=
  match v with
  | VNone => false
  | VBool b => b
  | VInt n => negb (n =? 0)
  | VStr s => PyStr.truthy s
  | VList l => match l with [] => false | _ => true end
  | VDict d => match d with [] => false | _ => true end
  end.

Definition is_none (v : pyval) : bool :=
  match v with VNone => true | _ => false end.

(** [isinstance(v, str)] *)
Definition is_str (v : pyval) : bool :=
  match v with VStr _ => true | _ => false end.

Fixpoint assoc (k : string) (d : pydict) : option pyval :=
  match d with
  | [] => None
  | (k', v) :: d' => if String.eqb k k' then Some v else assoc k d'
  end.

(** [d[k] = v] on a dict: the value is replaced in place when the key is
    there, and appended otherwise. *)
Fixpoint setitem (k : string) (v : pyval) (d : pydict) : pydict :=
  match d with
  | [] => [(k, v)]
  | (k', v') :: d' =>
      if String.eqb k k' then (k, v) :: d' else (k', v') :: setitem k v d'
  end.

(** [d.get(k, default)] on a dict. *)
Definition dict_get (d : pydict) (k : string) (default : pyval) : pyval :=
  match assoc k d with
  | Some v => v
  | None => default
  end.

(** [d.setdefault(k, v)] on a dict. *)
Definition setdefault (k : string) (v : pyval) (d : pydict) : pydict :=
  match assoc k d with
  | Some _ => d
  | None => (d ++ [(k, v)])%list
  end.

(** [type(v).__name__] *)
Definition type_name (v : pyval) : string :=
  match v with
  | VNone => "NoneType"
  | VBool _ => "bool"
  | VInt _ => "int"
  | VStr _ => "str"
  | VList _ => "list"
  | VDict _ => "dict"
  end.

Definition is_list (v : pyval) : bool :=
  match v with VList _ => true | _ => false end.

Definition is_dict (v : pyval) : bool :=
  match v with VDict _ => true | _ => false end.

End Py.

(** ** Exceptions *)

(** The exceptions of the model are the subclasses of [Exception];
    [TimeoutError] is kept apart because the engine catches it alone.
    Each carries the text [str(e)] returns. *)
Inductive exn : Type :=
  | TimeoutError (msg : string)
  | Exception (cls msg : string).

Definition str_exn (e : exn) : string :=
  match e with
  | TimeoutError m => m
  | Exception _ m => m
  end.

(** A computation that returns or raises. *)
Inductive result (A : Type) : Type :=
  | Ok (a : A)
  | Raise (e : exn).
Arguments Ok {A} a.
Arguments Raise {A} e.

Definition rbind {A B} (r : result A) (f : A -> result B) : result B :=
  match r with
  | Ok a => f a
  | Raise e => Raise e
  end.

Global Instance result_ret : MRet result := fun A a => Ok a.
Global Instance result_mbind : MBind result := fun A B f m => rbind m f.

(** [returns x P]: the computation returned, and [P] holds of what it
    returned.  [whenever x P]: [P] holds of what it returned, if it did. *)
Definition returns {A} (x : result A) (P : A -> Prop) : Prop :=
  match x with
  | Ok a => P a
  | Raise _ => False
  end.

Definition whenever {A} (x : result A) (P : A -> Prop) : Prop :=
  match x with
  | Ok a => P a
  | Raise _ => True
  end.

(** The operations of Python objects the probes apply to decoded JSON,
    with the exception each raises on an object of the wrong type. *)
Module PyOp.

Definition TypeError (msg : string) : exn := Exception "TypeError" msg.
Definition AttributeError (v : pyval) (attr : string) : exn :=
  Exception "AttributeError"
    ("'" +:+ Py.type_name v +:+ "' object has no attribute '" +:+ attr +:+ "'").

Fixpoint chars (s : string) : list pyval :=
  match s with
  | EmptyString => []
  | String c s' => VStr (String c EmptyString) :: chars s'
  end.

(** [len(v)] *)
Definition len (v : pyval) : result Z :=
  match v with
  | VStr s => Ok (PyStr.len s)
  | VList l => Ok (Z.of_nat (length l))
  | VDict d => Ok (Z.of_nat (length d))
  | _ => Raise (TypeError
           ("object of type '" +:+ Py.type_name v +:+ "' has no len()"))
  end.

(** The elements [for x in v] goes through. *)
Definition iter (v : pyval) : result (list pyval) :=
  match v with
  | VStr s => Ok (chars s)
  | VList l => Ok l
  | VDict d => Ok (map (fun kv => VStr kv.1) d)
  | _ => Raise (TypeError
           ("'" +:+ Py.type_name v +:+ "' object is not iterable"))
  end.

(** [v[k]] for a string key [k]. *)
Definition getitem (v : pyval) (k : string) : result pyval :=
  match v with
  | VDict d =>
      match Py.assoc k d with
      | Some x => Ok x
      | None => Raise (Exception "KeyError" ("'" +:+ k +:+ "'"))
      end
  | VList _ => Raise (TypeError "list indices must be integers or slices, not str")
  | VStr _ => Raise (TypeError "string indices must be integers, not 'str'")
  | _ => Raise (TypeError
           ("'" +:+ Py.type_name v +:+ "' object is not subscriptable"))
  end.

(** [v.get(k, default)] *)
Definition get (v : pyval) (k : string) (default : pyval) : result pyval :=
  match v with
  | VDict d => Ok (match Py.assoc k d with Some x => x | None => default end)
  | _ => Raise (AttributeError v "get")
  end.

Definition ValueError (msg : string) : exn := Exception "ValueError" msg.

(** [int(s)] for a string [s] on which [s.isdigit()] holds, so that its
    characters are decimal digits and superscripts.  The decimal digits at
    its head are counted first, and more than 4300 of them are refused (the
    limit [sys.set_int_max_str_digits] has by default); after that a
    superscript, which is no decimal digit, makes the literal invalid.  The
    message of the latter shows the first 200 characters of [repr(s)]. *)
Definition int (s : string) : result Z :=
  let '(lead, rest) := PyStr.span PyStr.isdecimal s in
  if 4300 <? PyStr.len lead then
    Raise (ValueError
             ("Exceeds the limit (4300 digits) for integer string conversion: value has "
              +:+ PyStr.of_Z (PyStr.len lead)
              +:+ " digits; use sys.set_int_max_str_digits() to increase the limit"))
  else if PyStr.truthy rest || negb (PyStr.truthy s) then
    Raise (ValueError
             ("invalid literal for int() with base 10: "
              +:+ PyStr.take 200 ("'" +:+ s +:+ "'")))
  else Ok (PyStr.decimal_value s).

(** [[f(x) for x in l]], stopping at the first exception. *)
Fixpoint mapM {A B} (f : A -> result B) (l : list A) : result (list B) :=
  match l with
  | [] => Ok []
  | x :: l' => rbind (f x) (fun y => rbind (mapM f l') (fun ys => Ok (y :: ys)))
  end.

End PyOp.

(** ** The result taxonomy *)

(** Modelled from the spec: [social_hunt/types.py] is not among the sources;
    the status enumeration has the five values of section 3. *)
Inductive ResultStatus : Type :=
  | FOUND | NOT_FOUND | BLOCKED | ERROR | UNKNOWN.

Global Instance ResultStatus_eq_dec : EqDecision ResultStatus.
Proof. solve_decision. Defined.

(** Modelled from the spec: the record of [social_hunt/types.py], with the
    fields of section 3.  [error] holds whatever object the probe stored
    there: [VNone] when absent, a [VStr] in every path but one. *)
Record ProviderResult : Type := mkProviderResult {
  provider : string;
  username : string;
  url : string;
  status : ResultStatus;
  http_status : option Z;
  elapsed_ms : Z;
  evidence : pydict;
  profile : pydict;
  error : pyval;
  timestamp_iso : string;
}.

(** Modelled from the spec: the values a field takes when the constructor
    call leaves it out (section 4.A). *)
Module Default.
Definition http_status : option Z := None.
Definition elapsed_ms : Z := 0.
Definition evidence : pydict := [].
Definition profile : pydict := [].
Definition error : pyval := VNone.
End Default.

(** ** HTTP and the other effects of a probe *)

(** A header mapping, [Dict[str, str]]. *)
Abbreviation headers := (gmap string string).

(** The HTTP clients a request can go through: the three the engine owns,
    and the private [httpx.AsyncClient(trust_env=False)] some probes open
    for one request. *)
Inductive client : Type :=
  | ClientDirect
  | ClientTor (proxy : string)
  | ClientClearnetProxy (proxy : string)
  | ClientPrivate.

Global Instance client_eq_dec : EqDecision client.
Proof. solve_decision. Defined.

Inductive http_method : Type := GET | POST.

Record request : Type := mkRequest {
  req_method : http_method;
  req_client : client;
  req_url : string;
  req_params : pydict;
  req_headers : headers;
  req_json : option pyval;
  req_timeout : Z;
  req_follow_redirects : bool;
}.

(** What [BeautifulSoup(r.text, "html.parser")] exposes to the one probe
    that parses HTML: the [<a href=...>] elements as pairs of [link["href"]]
    and [link.get_text()], and [soup.title] with its [.string]. *)
Record soup : Type := mkSoup {
  anchors : list (string * string);
  title : option (option string);
}.

(** An [httpx.Response], by what the probes read of it.  [json] is the
    outcome of [response.json()], [html] the parse of the body. *)
Record response : Type := mkResponse {
  status_code : Z;
  text : string;
  json : result pyval;
  resp_url : string;
  resp_url_path : string;
  html : soup;
}.

(** The effects of a probe, each with the type of its answer.
    [Gather2] is [asyncio.gather] of two requests: both responses, or the
    exception of the one that failed first.  The monotonic clock is read
    in milliseconds.  [ReadSetting] is the lookup of a key in
    [data/settings.json], [None] when the file or the key is missing.

    [Enrich] stands for the block in which a breach probe, holding a
    non-empty list of records, fills [profile] with [result_count],
    [breach_sources], [raw_results], [data_types] and the like.  That block
    enumerates a Python [set], whose order is not fixed, and calls the demo
    redactor, which lives outside the sources; it decides no other field of
    the result.  The answer is the profile as the block leaves it and the
    exception it raised, if it raised one. *)
Inductive effect : Type -> Type :=
  | Request (r : request) : effect (result response)
  | Gather2 (r1 r2 : request) : effect (result (response * response))
  | Sleep (ms : Z) : effect unit
  | Monotonic : effect Z
  | UtcNowIso : effect string
  | ReadSetting (key : string) : effect (option string)
  | Enrich (probe : string) (data : list pyval) (profile : pydict)
      : effect (pydict * option exn).

(** A coroutine: a finite tree of effects. *)
Inductive io (A : Type) : Type :=
  | Ret (a : A)
  | Vis (X : Type) (e : effect X) (k : X -> io A).
Arguments Ret {A} a.
Arguments Vis {A X} e k.

Fixpoint io_bind {A B} (m : io A) (f : A -> io B) : io B :=
  match m with
  | Ret a => f a
  | Vis e k => Vis e (fun x => io_bind (k x) f)
  end.

Global Instance io_ret : MRet io := fun A a => Ret a.
Global Instance io_mbind : MBind io := fun A B f m => io_bind m f.

Definition perform {X} (e : effect X) : io X := Vis e Ret.

(** The world answers the effects; it may change as it does. *)
Definition handler (W : Type) : Type := forall X, effect X -> W -> X * W.

(** Run a coroutine against a world: its value, the world after it, and the
    HTTP requests it sent, in order. *)
Definition requests_of {X} (e : effect X) : list request :=
  match e with
  | Request r => [r]
  | Gather2 r1 r2 => [r1; r2]
  | _ => []
  end.

Fixpoint run {W A} (h : handler W) (p : io A) (w : W) : A * W * list request :=
  match p with
  | Ret a => (a, w, [])
  | Vis e k =>
      let '(x, w') := h _ e w in
      let '(a, w'', log) := run h (k x) w' in
      (a, w'', (requests_of e ++ log)%list)
  end.

Definition is_http {X} (e : effect X) : bool :=
  match e with
  | Request _ | Gather2 _ _ => true
  | _ => false
  end.

(** No path of the coroutine reaches an HTTP request. *)
Fixpoint no_http {A} (p : io A) : Prop :=
  match p with
  | Ret _ => True
  | Vis e k => is_http e = false /\ forall x, no_http (k x)
  end.

(** [io_post Q P p]: on every path of [p] along which each answer satisfies
    [Q], the requests sent and the value returned satisfy [P]. *)
Fixpoint io_post {A} (Q : forall X, effect X -> X -> Prop)
    (P : list request -> A -> Prop) (p : io A) : Prop :=
  match p with
  | Ret a => P [] a
  | Vis e k =>
      forall x, Q _ e x -> io_post Q (fun log => P (requests_of e ++ log)%list) (k x)
  end.

(** No assumption on the answers. *)
Definition any_answer : forall X, effect X -> X -> Prop := fun _ _ _ => True.

(** Every world of [h] answers as [Q] asks. *)
Definition answers {W} (h : handler W) (Q : forall X, effect X -> X -> Prop)
    : Prop :=
  forall X (e : effect X) (w : W), Q X e (h X e w).1.

(** A string is made of [lo] to [hi] characters of the class [cls]. *)
Definition in_class (cls : ascii -> bool) (lo hi : Z) (s : string) : Prop :=
  PyStr.forallb cls s = true /\ lo <= PyStr.len s <= hi.

(** ** The probes *)

(** *** discord.py *)
Module Discord.

Definition name : string := "discord".
Definition timeout : Z := 10.
Definition ua_profile : string := "desktop_chrome".

Definition invite_re : string -> bool := PyStr.re_match_class PyStr.isalnum 2 10.
Definition user_id_re : string -> bool := PyStr.re_match_class PyStr.isdecimal 17 20.

Definition build_url (username : string) : string :=
  if invite_re (PyStr.strip username) then "https://discord.gg/" +:+ username
  else if user_id_re (PyStr.strip username) then
    "https://discord.com/users/" +:+ username
  else "https://discord.com/users/" +:+ username.

Definition check (username : string) (c : client) (hd : headers)
    : io (ProviderResult * headers) :=
  let url := build_url username in
  ts ← perform UtcNowIso;
  let clean_user := PyStr.strip username in
  let is_id := user_id_re clean_user in
  let is_invite := negb is_id && invite_re clean_user in
  let '(status, error) :=
    if negb (is_id || is_invite) then
      (NOT_FOUND, "Invalid Discord ID or invite code format.")
    else
      (UNKNOWN, "Verification not possible. Discord profiles are not public.") in
  mret ({| provider := name;
           username := username;
           url := url;
           status := status;
           http_status := None;
           elapsed_ms := 0;
           evidence :=
             [("note", VStr "Link generation only.");
              ("type", VStr (if is_id then "User ID"
                             else if is_invite then "Invite" else "Unknown"))];
           profile := [];
           error := VStr error;
           timestamp_iso := ts |}, hd).

End Discord.

(** [client.get(url, timeout=..., follow_redirects=True, headers=...)] *)
Definition http_get (c : client) (url : string) (timeout : Z) (hd : headers)
    : request :=
  {| req_method := GET; req_client := c; req_url := url; req_params := [];
     req_headers := hd; req_json := None; req_timeout := timeout;
     req_follow_redirects := true |}.

(** [int((time.monotonic() - start) * 1000)], the clock being read in
    milliseconds. *)
Definition elapsed_since (start : Z) : io Z :=
  now ← perform Monotonic; mret (now - start).

(** *** stackoverflow.py *)
Module StackOverflow.

Definition name : string := "stackoverflow".
Definition timeout : Z := 10.
Definition ua_profile : string := "desktop_chrome".

Definition build_url (username : string) : string :=
  let clean_id := PyStr.filter PyStr.isdigit username in
  if PyStr.truthy clean_id then "https://stackoverflow.com/users/" +:+ clean_id
  else "https://stackoverflow.com/".

Definition check (username : string) (c : client) (hd : headers)
    : io (ProviderResult * headers) :=
  let clean_id := PyStr.filter PyStr.isdigit username in
  ts ← perform UtcNowIso;
  if negb (PyStr.truthy clean_id) then
    mret ({| provider := name;
             username := username;
             url := build_url username;
             status := NOT_FOUND;
             error :=
               VStr "Invalid format. Stack Overflow requires a numeric user ID.";
             elapsed_ms := 0;
             profile := [];
             timestamp_iso := ts;
             http_status := Default.http_status;
             evidence := Default.evidence |}, hd)
  else
    let url := build_url username in
    r ← perform (Request (http_get c url timeout hd));
    match r with
    | Ok r =>
        let text := PyStr.lower (text r) in
        let status :=
          if (status_code r =? 200) && PyStr.contains "reputation" text
             && PyStr.contains "profile" text
          then FOUND else NOT_FOUND in
        mret ({| provider := name;
                 username := clean_id;
                 url := resp_url r;
                 status := status;
                 http_status := Some (status_code r);
                 evidence := [("note", VStr "Search by User ID")];
                 profile := [];
                 timestamp_iso := ts;
                 elapsed_ms := Default.elapsed_ms;
                 error := Default.error |}, hd)
    | Raise e =>
        mret ({| provider := name;
                 username := username;
                 url := url;
                 status := ERROR;
                 error := VStr (str_exn e);
                 profile := [];
                 timestamp_iso := ts;
                 http_status := Default.http_status;
                 elapsed_ms := Default.elapsed_ms;
                 evidence := Default.evidence |}, hd)
    end.

End StackOverflow.

(** *** goodreads.py *)
Module Goodreads.

Definition name : string := "goodreads".
Definition timeout : Z := 10.
Definition ua_profile : string := "desktop_chrome".

Definition build_url (username : string) : string :=
  "https://www.goodreads.com/search?q=" +:+ username.

Definition not_dquote (c : ascii) : bool := negb (Ascii.eqb c PyStr.dquote).

(** The literal head of the pattern: [href=], a double quote, [/user/show/]. *)
Definition link_head : string :=
  "href=" +:+ String PyStr.dquote "/user/show/".

(** The pattern of [re.search], tried at the head of [s]: [link_head], then
    one or more characters other than a double quote, then a double quote.
    Group 1 runs from [/user/show/] to the closing quote, which it leaves
    out. *)
Definition link_here (s : string) : option string :=
  if PyStr.prefixb link_head s then
    let '(body, rest) :=
      PyStr.span not_dquote (PyStr.drop (String.length link_head) s) in
    if PyStr.truthy body && PyStr.prefixb (String PyStr.dquote EmptyString) rest
    then Some ("/user/show/" +:+ body) else None
  else None.

(** [re.search] with that pattern: group 1 of the leftmost match. *)
Fixpoint search_link (s : string) : option string :=
  match link_here s with
  | Some g => Some g
  | None =>
      match s with
      | EmptyString => None
      | String _ s' => search_link s'
      end
  end.

Definition check (username : string) (c : client) (hd : headers)
    : io (ProviderResult * headers) :=
  let search_url := build_url username in
  ts ← perform UtcNowIso;
  r ← perform (Request (http_get c search_url timeout hd));
  match r with
  | Ok r =>
      let text := PyStr.lower (text r) in
      let '(profile_url, status) :=
        match search_link text with
        | Some g => ("https://www.goodreads.com" +:+ g, FOUND)
        | None => (search_url, NOT_FOUND)
        end in
      mret ({| provider := name;
               username := username;
               url := profile_url;
               status := status;
               http_status := Some (status_code r);
               evidence := [("note", VStr "Found via user search")];
               profile := [];
               timestamp_iso := ts;
               elapsed_ms := Default.elapsed_ms;
               error := Default.error |}, hd)
  | Raise e =>
      mret ({| provider := name;
               username := username;
               url := search_url;
               status := ERROR;
               error := VStr (str_exn e);
               profile := [];
               timestamp_iso := ts;
               http_status := Default.http_status;
               elapsed_ms := Default.elapsed_ms;
               evidence := Default.evidence |}, hd)
  end.

End Goodreads.

(** *** goyimtv.py *)
Module GoyimTV.

Definition name : string := "goyimtv".
Definition timeout : Z := 25.
Definition ua_profile : string := "desktop_chrome".

Definition build_url (username : string) : string :=
  let q := PyStr.quote_plus username in
  "https://goyimtv.st/search?tf=6&q=" +:+ q.

(** The eight assignments [headers[...] = ...] at the top of [check]: they
    write into the mapping the caller passed. *)
Definition browser_headers (hd : headers) : headers :=
  <["Sec-Fetch-User" := "?1"]>
  (<["Sec-Fetch-Site" := "same-origin"]>
  (<["Sec-Fetch-Mode" := "navigate"]>
  (<["Sec-Fetch-Dest" := "document"]>
  (<["Upgrade-Insecure-Requests" := "1"]>
  (<["Referer" := "https://goyimtv.st/"]>
  (<["Accept-Language" := "en-US,en;q=0.5"]>
  (<["Accept" :=
     "text/html,application/xhtml+xml,application/xml;q=0.9,image/avif,image/webp,*/*;q=0.8"]>
   hd))))))).

Definition not_found_indicators : list string :=
  ["no results found"; "nothing found"; "search returned no results"].

(** [status_code in [403, 503, 429]] *)
Definition soft_block (code : Z) : bool :=
  (code =? 403) || (code =? 503) || (code =? 429).

(** The body of the [try] once the response is there: the status and the
    profile, or the exception raised on the way. *)
Definition verdict (username : string) (r : response)
    : result (ResultStatus * pydict) :=
  let text := PyStr.lower (text r) in
  let soup := html r in
  if existsb (fun x => PyStr.contains x text) not_found_indicators then
    Ok (NOT_FOUND, [])
  else
    let links := anchors soup in
    let found_match :=
      existsb
        (fun link : string * string =>
           let href := PyStr.lower link.1 in
           let link_text := PyStr.lower (PyStr.strip link.2) in
           (PyStr.contains "/channel/" href
            && String.eqb (PyStr.lower username) link_text)
           || PyStr.contains ("/channel/" +:+ PyStr.lower username) href)
        links in
    if found_match then
      match title soup with
      | Some (Some s) => Ok (FOUND, [("page_title", VStr (PyStr.strip s))])
      | Some None => Raise (PyOp.AttributeError VNone "strip")
      | None => Ok (FOUND, [])
      end
    else if PyStr.contains "welcome to goyimtv" text
            && negb (PyStr.contains "search" (resp_url_path r)) then
      Ok (NOT_FOUND, [])
    else if (Z.of_nat (length links) <? 5) then Ok (NOT_FOUND, [])
    else Ok (NOT_FOUND, []).

Definition on_exception (username url ts : string) (start : Z) (e : exn)
    : io ProviderResult :=
  el ← elapsed_since start;
  mret {| provider := name;
          username := username;
          url := url;
          status := ERROR;
          error := VStr (str_exn e);
          elapsed_ms := el;
          profile := [];
          timestamp_iso := ts;
          http_status := Default.http_status;
          evidence := Default.evidence |}.

Definition check (username : string) (c : client) (hd : headers)
    : io (ProviderResult * headers) :=
  let url := build_url username in
  start ← perform Monotonic;
  ts ← perform UtcNowIso;
  let hd := browser_headers hd in
  res ← (r ← perform (Request (http_get c url timeout hd));
         match r with
         | Raise e => on_exception username url ts start e
         | Ok r =>
             r ← (if soft_block (status_code r) then
                    _ ← perform (Sleep 2000);
                    perform (Request (http_get c url timeout hd))
                  else mret (Ok r));
             match r with
             | Raise e => on_exception username url ts start e
             | Ok r =>
                 match verdict username r with
                 | Raise e => on_exception username url ts start e
                 | Ok (status, profile) =>
                     el ← elapsed_since start;
                     mret {| provider := name;
                             username := username;
                             url := url;
                             status := status;
                             http_status := Some (status_code r);
                             elapsed_ms := el;
                             evidence :=
                               [("len", VInt (PyStr.len (PyStr.lower (text r))));
                                ("title",
                                 match title (html r) with
                                 | Some (Some s) => VStr s
                                 | _ => VNone
                                 end)];
                             profile := profile;
                             timestamp_iso := ts;
                             error := Default.error |}
                 end
             end
         end);
  mret (res, hd).

End GoyimTV.

(** Tests on the search term that the breach probes share: each of them
    spells the same expressions out in its own helper. *)
Module Term.

(** [term] without the characters plus, minus, space and the two
    parentheses: the chain of five [replace] calls. *)
Definition clean (term : string) : string :=
  PyStr.remove_char ")" (PyStr.remove_char "("
    (PyStr.remove_char " " (PyStr.remove_char "-"
       (PyStr.remove_char "+" term)))).

(** [clean.isdigit() and 7 <= len(clean) <= 15] *)
Definition phone_like (term : string) : bool :=
  PyStr.all_digits (clean term)
  && (7 <=? PyStr.len (clean term)) && (PyStr.len (clean term) <=? 15).

(** [all(p.isdigit() and 0 <= int(p) <= 255 for p in parts)]: the parts
    are tested from the left, the first that fails ends the test, and
    [int] may raise on a part that passed [isdigit]. *)
Fixpoint octets (parts : list string) : result bool :=
  match parts with
  | [] => Ok true
  | p :: parts' =>
      if PyStr.all_digits p then
        n ← PyOp.int p;
        if (0 <=? n) && (n <=? 255) then octets parts' else Ok false
      else Ok false
  end.

(** ["." in term and term.count(".") == 3], then the test of the parts of
    [term.split(".")].  None of the callers guards it, so what [int]
    raises leaves the helper that tests, and [check] with it. *)
Definition ipv4_like (term : string) : result bool :=
  if PyStr.has_char "." term && (PyStr.count_char "." term =? 3)
  then octets (PyStr.split_char "." term)
  else Ok false.

(** ["@" in term and "." in term] *)
Definition email_like (term : string) : bool :=
  PyStr.has_char "@" term && PyStr.has_char "." term.

End Term.

(** An optional string as a condition ([if api_key], [if tor_proxy_url]):
    [None] and the empty string both count as false. *)
Definition nonempty (k : option string) : option string :=
  match k with
  | Some s => if PyStr.truthy s then Some s else None
  | None => None
  end.

(** *** hibp.py *)
Module HIBP.

Definition name : string := "hibp".
Definition timeout : Z := 15.
Definition ua_profile : string := "desktop_chrome".

(** [__init__]: the key given to the constructor, else the one of the
    settings file.  The instance keeps it in [self.api_key]. *)
Definition init (api_key : option string) : io (option string) :=
  match nonempty api_key with
  | Some k => mret (Some k)
  | None => perform (ReadSetting "hibp_api_key")
  end.

Definition build_url (username : string) : string :=
  "https://haveibeenpwned.com/api/v3/breachedaccount/" +:+ username.

Definition local_class (c : ascii) : bool :=
  PyStr.isalnum c || PyStr.has_char c "._%+-".
Definition domain_class (c : ascii) : bool :=
  PyStr.isalnum c || PyStr.has_char c ".-".

(** [re.match] with the e-mail pattern of [check]: one or more characters
    of [local_class], an at sign, one or more characters of [domain_class],
    a dot, two or more letters, and the end of the string (or the line feed
    that ends it). *)
Definition email_re (s : string) : bool :=
  let body := if PyStr.ends_with_lf s then PyStr.drop_last s else s in
  let '(loc, rest) := PyStr.span local_class body in
  PyStr.truthy loc &&
  match rest with
  | String "@" dom =>
      match PyStr.rsplit_char "." dom with
      | Some (host, tld) =>
          PyStr.truthy host && PyStr.forallb domain_class host
          && PyStr.forallb PyStr.isalpha tld && (2 <=? PyStr.len tld)
      | None => false
      end
  | _ => false
  end.

(** The two mappings [profile] and [evidence], as [check] fills them. *)
Definition process_breach (breach_res : response) (st : pydict * pydict)
    : result (pydict * pydict) :=
  let '(profile, evidence) := st in
  if status_code breach_res =? 200 then
    breaches ← json breach_res;
    n ← PyOp.len breaches;
    items ← PyOp.iter breaches;
    names ← PyOp.mapM (fun b => PyOp.getitem b "Name") items;
    mret (Py.setitem "breaches" (VList names)
            (Py.setitem "breach_count" (VInt n) profile),
          Py.setitem "breaches_found" (VBool true) evidence)
  else if status_code breach_res =? 429 then
    mret (Py.setitem "breach_error" (VStr "Rate limited") profile, evidence)
  else if negb (status_code breach_res =? 404) then
    mret (Py.setitem "breach_error"
            (VStr ("Unexpected status: " +:+ PyStr.of_Z (status_code breach_res)))
            profile, evidence)
  else mret (profile, evidence).

Definition process_paste (paste_res : response) (st : pydict * pydict)
    : result (pydict * pydict) :=
  let '(profile, evidence) := st in
  if status_code paste_res =? 200 then
    pastes ← json paste_res;
    n ← PyOp.len pastes;
    mret (Py.setitem "paste_count" (VInt n) profile,
          Py.setitem "pastes_found" (VBool true) evidence)
  else if status_code paste_res =? 429 then
    mret (Py.setitem "paste_error" (VStr "Rate limited") profile, evidence)
  else if negb (status_code paste_res =? 404) then
    mret (Py.setitem "paste_error"
            (VStr ("Unexpected status: " +:+ PyStr.of_Z (status_code paste_res)))
            profile, evidence)
  else mret (profile, evidence).

(** [evidence.get(k)] as a truth value. *)
Definition flag (k : string) (evidence : pydict) : bool :=
  match Py.assoc k evidence with
  | Some v => Py.truthy v
  | None => false
  end.

(** "Determine overall status". *)
Definition overall_status (breach_res paste_res : response) (evidence : pydict)
    : ResultStatus :=
  if flag "breaches_found" evidence || flag "pastes_found" evidence then FOUND
  else if (status_code breach_res =? 429) || (status_code paste_res =? 429)
  then BLOCKED
  else if (status_code breach_res =? 404) && (status_code paste_res =? 404)
  then NOT_FOUND
  else if (500 <=? status_code breach_res) || (500 <=? status_code paste_res)
  then ERROR
  else UNKNOWN.

Definition error_msg (status : ResultStatus) (breach_res paste_res : response)
    : pyval :=
  match status with
  | BLOCKED => VStr "HIBP API Rate Limit Exceeded (429)."
  | ERROR =>
      VStr ("HIBP API Error (Breach: " +:+ PyStr.of_Z (status_code breach_res)
            +:+ ", Paste: " +:+ PyStr.of_Z (status_code paste_res) +:+ ")")
  | _ => VNone
  end.

(** A result that sets only [status] and [error]. *)
Definition early (username url ts : string) (st : ResultStatus) (msg : string)
    : ProviderResult :=
  {| provider := name;
     username := username;
     url := url;
     status := st;
     error := VStr msg;
     timestamp_iso := ts;
     http_status := Default.http_status;
     elapsed_ms := Default.elapsed_ms;
     evidence := Default.evidence;
     profile := Default.profile |}.

Definition check (api_key : option string) (username : string) (c : client)
    (hd : headers) : io (ProviderResult * headers) :=
  start ← perform Monotonic;
  ts ← perform UtcNowIso;
  let url := build_url username in
  match nonempty api_key with
  | None =>
      mret (early username url ts UNKNOWN
              "Skipped: HIBP API key not set in Settings (hibp_api_key).", hd)
  | Some key =>
      if PyStr.has_char "*" username then
        mret (early username url ts ERROR
                "HIBP does not support wildcard searches.", hd)
      else if negb (email_re username) then
        mret (early username url ts NOT_FOUND
                "Invalid format: HIBP requires an email address.", hd)
      else
        let hibp_headers :=
          <["user-agent" := "Social-Hunt"]> (<["hibp-api-key" := key]> hd) in
        let breach_url :=
          "https://haveibeenpwned.com/api/v3/breachedaccount/" +:+ username in
        let paste_url :=
          "https://haveibeenpwned.com/api/v3/pasteaccount/" +:+ username in
        both ← perform (Gather2 (http_get c breach_url timeout hibp_headers)
                                (http_get c paste_url timeout hibp_headers));
        match
          '(breach_res, paste_res) ← both;
          st ← process_breach breach_res ([], []);
          st ← process_paste paste_res st;
          mret (breach_res, paste_res, st)
        with
        | Ok (breach_res, paste_res, (profile, evidence)) =>
            let status := overall_status breach_res paste_res evidence in
            el ← elapsed_since start;
            mret ({| provider := name;
                     username := username;
                     url := url;
                     status := status;
                     error := error_msg status breach_res paste_res;
                     http_status := Some (status_code breach_res);
                     elapsed_ms := el;
                     evidence := evidence;
                     profile := profile;
                     timestamp_iso := ts |}, hd)
        | Raise e => mret (early username url ts ERROR (str_exn e), hd)
        end
  end.

End HIBP.

(** What the body of a [try] comes to: the result it returns, or the
    exception it raises, with [profile] as it is at that moment (the
    handler reports it). *)
Inductive attempt : Type :=
  | Returned (r : ProviderResult)
  | Failed (e : exn) (profile : pydict).

(** *** leakcheck.py *)
Module LeakCheck.

Definition name : string := "leakcheck".
Definition timeout : Z := 15.
Definition ua_profile : string := "desktop_chrome".
Definition API_BASE : string := "https://leakcheck.io/api/v2/query".

(** [_get_api_key]: the key given to the constructor, else the one read
    from the settings file at each call. *)
Definition get_api_key (static_api_key : option string) : io (option string) :=
  match nonempty static_api_key with
  | Some k => mret (Some k)
  | None => perform (ReadSetting "leakcheck_api_key")
  end.

Definition build_url (username : string) : string :=
  API_BASE +:+ "/" +:+ username.

Definition determine_query_type (term : string) : result string :=
  if Term.email_like term then Ok "email"
  else if Term.phone_like term then Ok "phone"
  else
    ip ← Term.ipv4_like term;
    if ip : bool then Ok "auto" else Ok "auto".

(** The chain of tests on [response.status_code], inside the [try]. *)
Definition respond (username url ts : string) (profile evidence : pydict)
    (response : response) (elapsed : Z) : io attempt :=
  let answer (st : ResultStatus) (prof : pydict) (err : pyval) :=
    {| provider := name;
       username := username;
       url := url;
       status := st;
       http_status := Some (status_code response);
       elapsed_ms := elapsed;
       evidence := evidence;
       profile := prof;
       error := err;
       timestamp_iso := ts |} in
  if status_code response =? 200 then
    match (if PyStr.truthy (text response) then json response
           else Ok (VDict [])) with
    | Raise e => mret (Failed e profile)
    | Ok (VDict raw) =>
        let success := Py.dict_get raw "success" (VBool false) in
        let data := Py.dict_get raw "result" (VList []) in
        if negb (Py.truthy success) then
          mret (Returned
                  (answer ERROR profile
                     (Py.dict_get raw "message"
                        (VStr "LeakCheck returned success=false."))))
        else if Py.truthy data then
          match PyOp.len data, PyOp.iter data with
          | Ok _, Ok records =>
              '(prof, raised) ← perform (Enrich name records profile);
              match raised with
              | Some e => mret (Failed e prof)
              | None => mret (Returned (answer FOUND prof Default.error))
              end
          | Raise e, _ | _, Raise e => mret (Failed e profile)
          end
        else mret (Returned (answer NOT_FOUND profile Default.error))
    | Ok v => mret (Failed (PyOp.AttributeError v "get") profile)
    end
  else if status_code response =? 401 then
    mret (Returned
            (answer ERROR profile
               (VStr "Invalid API key (401) — check leakcheck_api_key in Settings.")))
  else if status_code response =? 429 then
    mret (Returned
            (answer BLOCKED profile
               (VStr "Rate limited (429) — LeakCheck limit is 3 req/sec.")))
  else if status_code response =? 503 then
    mret (Returned
            (answer BLOCKED profile
               (VStr "LeakCheck service unavailable (503).")))
  else
    mret (Returned
            (answer UNKNOWN profile
               (VStr ("Unexpected response ("
                      +:+ PyStr.of_Z (status_code response) +:+ ")."))))
  .

(** [_determine_query_type] is called before the [try]: what it raises
    leaves [check]. *)
Definition check (static_api_key : option string) (username : string)
    (c : client) (hd : headers) : io (result (ProviderResult * headers)) :=
  start ← perform Monotonic;
  ts ← perform UtcNowIso;
  api_key ← get_api_key static_api_key;
  let search_term := PyStr.strip username in
  let url :=
    if PyStr.truthy search_term then API_BASE +:+ "/" +:+ search_term
    else API_BASE in
  let early (st : ResultStatus) (msg : string) :=
    {| provider := name;
       username := username;
       url := url;
       status := st;
       http_status := None;
       elapsed_ms := 0;
       evidence := [];
       profile := [];
       error := VStr msg;
       timestamp_iso := ts |} in
  match nonempty api_key with
  | None =>
      mret (Ok (early UNKNOWN
                  "Skipped: LeakCheck API key not set in Settings (leakcheck_api_key).",
                hd))
  | Some api_key =>
      if negb (PyStr.truthy search_term)
      then mret (Ok (early ERROR "Empty input.", hd))
      else
        match determine_query_type search_term with
        | Raise e => mret (Raise e)
        | Ok query_type =>
        let profile :=
          [("account", VStr search_term); ("query_type", VStr query_type)] in
        let evidence := [("leakcheck", VBool true)] in
        let params :=
          ([("limit", VInt 100)] ++
           (if negb (String.eqb query_type "auto")
            then [("type", VStr query_type)] else []))%list in
        let encoded_term := PyStr.quote search_term in
        let request_url := API_BASE +:+ "/" +:+ encoded_term in
        r ← perform (Request
               {| req_method := GET;
                  req_client := ClientPrivate;
                  req_url := request_url;
                  req_params := params;
                  req_headers :=
                    <["User-Agent" := "Social-Hunt"]>
                    (<["Accept" := "application/json"]>
                    (<["X-API-Key" := api_key]> ∅));
                  req_json := None;
                  req_timeout := timeout;
                  req_follow_redirects := false |});
        att ← match r with
              | Raise e => mret (Failed e profile)
              | Ok response =>
                  elapsed ← elapsed_since start;
                  respond username url ts profile evidence response elapsed
              end;
        match att with
        | Returned res => mret (Ok (res, hd))
        | Failed e prof =>
            elapsed ← elapsed_since start;
            mret (Ok ({| provider := name;
                         username := username;
                         url := url;
                         status := ERROR;
                         http_status := None;
                         elapsed_ms := elapsed;
                         evidence := evidence;
                         profile := prof;
                         error := VStr (str_exn e);
                         timestamp_iso := ts |}, hd))
        end
        end
  end.

End LeakCheck.

(** *** breach_vip.py *)
Module BreachVIP.

Definition name : string := "breachvip".
Definition timeout : Z := 15.
Definition ua_profile : string := "desktop_chrome".

Definition build_url (username : string) : string :=
  "https://breach.vip/api/search".

(** [list(dict.fromkeys(l))]: the first occurrence of each name, in order. *)
Fixpoint dedup (seen l : list string) : list string :=
  match l with
  | [] => []
  | x :: l' =>
      if bool_decide (x ∈ seen) then dedup seen l'
      else x :: dedup (x :: seen) l'
  end.

Definition determine_search_fields (search_term : string)
    : result (list string) :=
  let fields :=
    if Term.email_like search_term then ["email"; "username"; "name"]
    else if PyStr.has_char "." search_term
            && negb (PyStr.has_char "@" search_term)
    then ["username"; "email"; "name"; "domain"]
    else ["username"; "email"; "name"] in
  let fields :=
    if Term.phone_like search_term then (fields ++ ["phone"])%list else fields in
  let fields :=
    if PyStr.all_digits search_term
       && (17 <=? PyStr.len search_term) && (PyStr.len search_term <=? 20)
    then (fields ++ ["discordid"])%list else fields in
  let fields :=
    if (PyStr.len search_term =? 36) && PyStr.has_char "-" search_term
    then (fields ++ ["uuid"])%list else fields in
  ip ← Term.ipv4_like search_term;
  let fields := if ip : bool then (fields ++ ["ip"])%list else fields in
  let fields := (fields ++ ["password"])%list in
  Ok (take 10 (dedup [] fields)).

Definition quoted (s : string) : string :=
  String PyStr.dquote (s +:+ String PyStr.dquote EmptyString).

(** [breachvip_headers = dict(headers)] followed by [update]: a copy. *)
Definition breachvip_headers (hd : headers) : headers :=
  <["X-Requested-With" := "XMLHttpRequest"]>
  (<["Sec-Fetch-Site" := "same-origin"]>
  (<["Sec-Fetch-Mode" := "cors"]>
  (<["Sec-Fetch-Dest" := "empty"]>
  (<["Sec-Ch-Ua-Platform" := quoted "Windows"]>
  (<["Sec-Ch-Ua-Mobile" := "?0"]>
  (<["Sec-Ch-Ua" :=
     quoted "Not_A Brand" +:+ ";v=" +:+ quoted "8" +:+ ", "
     +:+ quoted "Chromium" +:+ ";v=" +:+ quoted "120" +:+ ", "
     +:+ quoted "Google Chrome" +:+ ";v=" +:+ quoted "120"]>
  (<["Referer" := "https://breach.vip/"]>
  (<["Pragma" := "no-cache"]>
  (<["Origin" := "https://breach.vip"]>
  (<["Host" := "breach.vip"]>
  (<["DNT" := "1"]>
  (<["Content-Type" := "application/json"]>
  (<["Connection" := "keep-alive"]>
  (<["Cache-Control" := "no-cache"]>
  (<["Accept-Language" := "en-US,en;q=0.9"]>
  (<["Accept-Encoding" := "gzip, deflate, br"]>
  (<["Accept" := "application/json, text/plain, */*"]>
   hd))))))))))))))))).

(** The list under [results], else the list under [data]. *)
Definition listed (d : pydict) : option (list pyval) :=
  match Py.assoc "results" d with
  | Some (VList l) => Some l
  | _ =>
      match Py.assoc "data" d with
      | Some (VList l) => Some l
      | _ => None
      end
  end.

(** The records [check] extracts from the decoded body. *)
Definition records_of (raw_json : pyval) : list pyval :=
  let data :=
    match raw_json with
    | VDict d =>
        match listed d with
        | Some l => l
        | None => [raw_json]
        end
    | VList l => l
    | _ => []
    end in
  match data with
  | [VDict inner] =>
      match listed inner with
      | Some l => l
      | None => data
      end
  | _ => data
  end.

Definition respond (username ts : string) (profile evidence : pydict)
    (response : response) (elapsed : Z) : io attempt :=
  let answer (st : ResultStatus) (prof : pydict) (err : pyval) :=
    {| provider := name;
       username := username;
       url := build_url username;
       status := st;
       http_status := Some (status_code response);
       elapsed_ms := elapsed;
       evidence := evidence;
       profile := prof;
       error := err;
       timestamp_iso := ts |} in
  if status_code response =? 200 then
    match (if PyStr.truthy (text response) then json response
           else Ok (VList [])) with
    | Raise e => mret (Failed e profile)
    | Ok raw_json =>
        match records_of raw_json with
        | [] => mret (Returned (answer NOT_FOUND profile Default.error))
        | data =>
            '(prof, raised) ← perform (Enrich name data profile);
            match raised with
            | Some e => mret (Failed e prof)
            | None => mret (Returned (answer FOUND prof Default.error))
            end
        end
    end
  else if status_code response =? 400 then
    mret (Returned (answer ERROR profile
                      (VStr "Bad request - check search parameters")))
  else if status_code response =? 403 then
    mret (Returned (answer BLOCKED profile
      (VStr "Access Denied (Cloudflare). Your server IP might be flagged. Try searching manually at breach.vip.")))
  else if status_code response =? 405 then
    mret (Returned (answer ERROR profile (VStr "Method not allowed")))
  else if status_code response =? 429 then
    mret (Returned (answer BLOCKED profile
                      (VStr "Rate limited (15 requests/minute) - wait 1 minute")))
  else if status_code response =? 503 then
    mret (Returned (answer BLOCKED profile
      (VStr "Service unavailable (503) - breach.vip may be down or blocking requests")))
  else if status_code response =? 500 then
    mret (Returned (answer ERROR profile (VStr "Internal server error")))
  else
    mret (Returned (answer UNKNOWN profile
                      (VStr ("Unexpected response ("
                             +:+ PyStr.of_Z (status_code response) +:+ ")")))).

(** [_determine_search_fields] is called before the [try]: what it raises
    leaves [check]. *)
Definition check (username : string) (c : client) (hd : headers)
    : io (result (ProviderResult * headers)) :=
  start ← perform Monotonic;
  ts ← perform UtcNowIso;
  let search_term := PyStr.strip username in
  if negb (PyStr.truthy search_term) then
    mret (Ok ({| provider := name;
                 username := username;
                 url := build_url username;
                 status := ERROR;
                 http_status := None;
                 elapsed_ms := 0;
                 evidence := [("breachvip", VBool true)];
                 profile := [];
                 error := VStr "empty input";
                 timestamp_iso := ts |}, hd))
  else
    let headers' := breachvip_headers hd in
    match determine_search_fields search_term with
    | Raise e => mret (Raise e)
    | Ok fields_to_search =>
    let is_wildcard := PyStr.has_char "*" search_term in
    let request_body :=
      VDict [("term", VStr search_term);
             ("fields", VList (map VStr fields_to_search));
             ("categories", VList []);
             ("wildcard", VBool is_wildcard);
             ("case_sensitive", VBool false)] in
    let profile :=
      [("account", VStr search_term);
       ("fields_searched", VList (map VStr fields_to_search))] in
    let evidence := [("breachvip", VBool true)] in
    r ← perform (Request
           {| req_method := POST;
              req_client := ClientPrivate;
              req_url := build_url username;
              req_params := [];
              req_headers := headers';
              req_json := Some request_body;
              req_timeout := timeout;
              req_follow_redirects := false |});
    att ← match r with
          | Raise e => mret (Failed e profile)
          | Ok response =>
              elapsed ← elapsed_since start;
              respond username ts profile evidence response elapsed
          end;
    match att with
    | Returned res => mret (Ok (res, hd))
    | Failed e prof =>
        elapsed ← elapsed_since start;
        mret (Ok ({| provider := name;
                     username := username;
                     url := build_url username;
                     status := ERROR;
                     http_status := None;
                     elapsed_ms := elapsed;
                     evidence := evidence;
                     profile := prof;
                     error := VStr (str_exn e);
                     timestamp_iso := ts |}, hd))
    end
    end.

End BreachVIP.

(** *** snusbase.py *)
Module Snusbase.

Definition name : string := "snusbase".
Definition timeout : Z := 15.
Definition ua_profile : string := "desktop_chrome".
Definition API_URL : string := "https://api.snusbase.com/data/search".

Definition get_api_key (static_api_key : option string) : io (option string) :=
  match nonempty static_api_key with
  | Some k => mret (Some k)
  | None => perform (ReadSetting "snusbase_api_key")
  end.

Definition build_url (username : string) : string := API_URL.

Definition determine_types (term : string) : result (list string) :=
  if Term.email_like term then Ok ["email"]
  else if Term.phone_like term then Ok ["username"; "email"]
  else
    ip ← Term.ipv4_like term;
    if ip : bool then Ok ["lastip"] else Ok ["email"; "username"].

(** "Flatten results from all databases into a single list": the dict
    records of every list, each tagged with its database under [_db]
    unless it has that key already. *)
Definition flatten (results_by_db : pydict) : list pyval :=
  flat_map
    (fun entry : string * pyval =>
       match entry.2 with
       | VList records =>
           omap (fun rec =>
                   match rec with
                   | VDict d => Some (VDict (Py.setdefault "_db" (VStr entry.1) d))
                   | _ => None
                   end) records
       | _ => []
       end)
    results_by_db.

Definition respond (username url ts : string) (profile evidence : pydict)
    (response : response) (elapsed : Z) : io attempt :=
  let answer (st : ResultStatus) (prof : pydict) (err : pyval) :=
    {| provider := name;
       username := username;
       url := url;
       status := st;
       http_status := Some (status_code response);
       elapsed_ms := elapsed;
       evidence := evidence;
       profile := prof;
       error := err;
       timestamp_iso := ts |} in
  if status_code response =? 200 then
    match (if PyStr.truthy (text response) then json response
           else Ok (VDict [])) with
    | Raise e => mret (Failed e profile)
    | Ok (VDict raw) =>
        match Py.dict_get raw "results" (VDict []) with
        | VDict results_by_db =>
            match flatten results_by_db with
            | [] => mret (Returned (answer NOT_FOUND profile Default.error))
            | data =>
                '(prof, raised) ← perform (Enrich name data profile);
                match raised with
                | Some e => mret (Failed e prof)
                | None => mret (Returned (answer FOUND prof Default.error))
                end
            end
        | v => mret (Failed (PyOp.AttributeError v "items") profile)
        end
    | Ok v => mret (Failed (PyOp.AttributeError v "get") profile)
    end
  else if status_code response =? 401 then
    mret (Returned (answer ERROR profile
      (VStr "Invalid API key (401) - check snusbase_api_key in Settings.")))
  else if status_code response =? 429 then
    mret (Returned (answer BLOCKED profile
                      (VStr "Rate limited (2048 req/day exceeded).")))
  else if status_code response =? 503 then
    mret (Returned (answer BLOCKED profile
                      (VStr "Snusbase service unavailable (503).")))
  else
    mret (Returned (answer UNKNOWN profile
                      (VStr ("Unexpected response ("
                             +:+ PyStr.of_Z (status_code response) +:+ ").")))).

(** [_determine_types] is called before the [try]: what it raises leaves
    [check]. *)
Definition check (static_api_key : option string) (username : string)
    (c : client) (hd : headers) : io (result (ProviderResult * headers)) :=
  start ← perform Monotonic;
  ts ← perform UtcNowIso;
  let url := API_URL in
  api_key ← get_api_key static_api_key;
  let early (st : ResultStatus) (msg : string) :=
    {| provider := name;
       username := username;
       url := url;
       status := st;
       http_status := None;
       elapsed_ms := 0;
       evidence := [];
       profile := [];
       error := VStr msg;
       timestamp_iso := ts |} in
  match nonempty api_key with
  | None =>
      mret (Ok (early UNKNOWN
                  "Skipped: Snusbase API key not set in Settings (snusbase_api_key).",
                hd))
  | Some api_key =>
      let search_term := PyStr.strip username in
      if negb (PyStr.truthy search_term)
      then mret (Ok (early ERROR "Empty input.", hd))
      else
        match determine_types search_term with
        | Raise e => mret (Raise e)
        | Ok types =>
        let profile :=
          [("account", VStr search_term);
           ("types_searched", VList (map VStr types))] in
        let evidence := [("snusbase", VBool true)] in
        r ← perform (Request
               {| req_method := POST;
                  req_client := ClientPrivate;
                  req_url := url;
                  req_params := [];
                  req_headers :=
                    <["Content-Type" := "application/json"]>
                    (<["Auth" := api_key]> ∅);
                  req_json :=
                    Some (VDict [("terms", VList [VStr search_term]);
                                 ("types", VList (map VStr types))]);
                  req_timeout := timeout;
                  req_follow_redirects := false |});
        att ← match r with
              | Raise e => mret (Failed e profile)
              | Ok response =>
                  elapsed ← elapsed_since start;
                  respond username url ts profile evidence response elapsed
              end;
        match att with
        | Returned res => mret (Ok (res, hd))
        | Failed e prof =>
            elapsed ← elapsed_since start;
            mret (Ok ({| provider := name;
                         username := username;
                         url := url;
                         status := ERROR;
                         http_status := None;
                         elapsed_ms := elapsed;
                         evidence := evidence;
                         profile := prof;
                         error := VStr (str_exn e);
                         timestamp_iso := ts |}, hd))
        end
        end
  end.

End Snusbase.

(** ** engine.py *)
Module Engine.

(** One invocation of [prov.check(username, client, headers)] as the engine
    sees it: when it completes, in milliseconds after it was started
    ([None]: it never does), what it returns or raises, and the header
    mapping as the call leaves it. *)
Record CheckRun : Type := mkCheckRun {
  finishes_after : option Z;
  outcome : result ProviderResult;
  headers_after : headers;
}.

(** providers_base.py: the attributes and the two abstract methods.  Every
    probe inherits [timeout], [ua_profile] and [use_proxy] from the base
    class, so the defaults the engine gives to [getattr] are never used. *)
Record BaseProvider : Type := mkBaseProvider {
  name : string;
  timeout : Z;
  ua_profile : string;
  use_proxy : bool;
  build_url : string -> string;
  check : string -> client -> headers -> CheckRun;
}.

(** [meta] *)
Definition meta (prov : BaseProvider) : pydict :=
  [("name", VStr (name prov));
   ("timeout", VInt (timeout prov));
   ("ua_profile", VStr (ua_profile prov))].

(** A probe written as a coroutine, run in a world [w] in which it takes
    [duration] to complete. *)
Definition probe_of {W} (h : handler W) (w : W) (duration : option Z)
    (name ua_profile : string) (timeout : Z) (use_proxy : bool)
    (build_url : string -> string)
    (check : string -> client -> headers -> io (ProviderResult * headers))
    : BaseProvider :=
  {| name := name;
     timeout := timeout;
     ua_profile := ua_profile;
     use_proxy := use_proxy;
     build_url := build_url;
     check := fun username c hd =>
       let out := (run h (check username c hd) w).1.1 in
       {| finishes_after := duration;
          outcome := Ok out.1;
          headers_after := out.2 |} |}.

(** Modelled from the spec: [social_hunt/addons_base.py] is not among the
    sources.  An addon is a post-processor [run(identifier, results, client,
    limiter)] that may augment [results] in place: the list as the call
    leaves it, and the exception it raised, if it raised one. *)
Record BaseAddon : Type := mkBaseAddon {
  run : string -> list ProviderResult -> client
        -> list ProviderResult * option exn;
}.

Record SocialHuntEngine : Type := mkEngine {
  registry : list (string * BaseProvider);
  max_concurrency : Z;
  addon_registry : list (string * BaseAddon);
  enabled_addon_names : list string;
}.

(** What [os.getenv] and [is_demo_mode()] read, and the httpx that is
    installed: [proxy_error url] is the exception
    [httpx.AsyncClient(proxy=url)] raises for the URL, if it raises one
    (httpx is not among the sources; it refuses, with a [ValueError], a URL
    whose scheme it does not know). *)
Record Env : Type := mkEnv {
  SOCIAL_HUNT_PROXY : option string;
  SOCIAL_HUNT_CLEARNET_PROXY : option string;
  demo_mode : bool;
  proxy_error : string -> option exn;
}.

(** How a call of [scan_username] ends. *)
Inductive ending (A : Type) : Type :=
  | Returns (a : A)
  | Raises (e : exn)
  | Hangs.
Arguments Returns {A} a.
Arguments Raises {A} e.
Arguments Hangs {A}.

(** [d[k]] and [k in d] on a dict keyed by strings, kept in insertion
    order. *)
Fixpoint lookup {A} (k : string) (d : list (string * A)) : option A :=
  match d with
  | [] => None
  | (k', v) :: d' => if String.eqb k k' then Some v else lookup k d'
  end.

Definition has_key {A} (d : list (string * A)) (k : string) : bool :=
  match lookup k d with Some _ => true | None => false end.

(** [list(d.keys())] *)
Definition keys {A} (d : list (string * A)) : list string := map fst d.

(** The first lines of [scan_username]: the names to probe.  An empty
    filter list is false, like no filter at all. *)
Definition choose (E : SocialHuntEngine) (providers : option (list string))
    : list string :=
  match providers with
  | Some (p :: ps) => List.filter (has_key (registry E)) (p :: ps)
  | _ => keys (registry E)
  end.

(** The three HTTP clients of one scan, as the tasks see them once the
    [async with] block has opened them. *)
Record Clients : Type := mkClients {
  client_direct : client;
  client_tor : option client;
  client_clearnet_proxy : option client;
}.

Definition open_clients (env : Env) : Clients :=
  {| client_direct := ClientDirect;
     client_tor := ClientTor <$> nonempty (SOCIAL_HUNT_PROXY env);
     client_clearnet_proxy :=
       ClientClearnetProxy <$> nonempty (SOCIAL_HUNT_CLEARNET_PROXY env) |}.

(** Opening them: the direct client first, then the Tor client when
    SOCIAL_HUNT_PROXY is set, then the clearnet-proxy client when
    SOCIAL_HUNT_CLEARNET_PROXY is set.  The constructor of a proxied client
    may raise, nothing in [scan_username] catches that, and no task has
    been started by then. *)
Definition enter_clients (env : Env) : result Clients :=
  match nonempty (SOCIAL_HUNT_PROXY env) ≫= proxy_error env with
  | Some e => Raise e
  | None =>
      match nonempty (SOCIAL_HUNT_CLEARNET_PROXY env) ≫= proxy_error env with
      | Some e => Raise e
      | None => Ok (open_clients env)
      end
  end.

(** "Client selection" in [run_one]. *)
Definition select_client (cl : Clients) (prov : BaseProvider) (url : string)
    : client :=
  match PyStr.contains ".onion" url, client_tor cl with
  | true, Some tor => tor
  | _, _ =>
      match use_proxy prov, client_clearnet_proxy cl with
      | true, Some proxy => proxy
      | _, _ => client_direct cl
      end
  end.

(** [asyncio.wait_for(coro, timeout)]: the outcome of the coroutine when it
    completes in time, [TimeoutError] otherwise.  With a timeout that is
    not positive the coroutine gets no chance to complete. *)
Definition wait_for (c : CheckRun) (timeout : Z) : result ProviderResult :=
  match finishes_after c with
  | Some d =>
      if (0 <? timeout) && (d <=? timeout * 1000) then outcome c
      else Raise (TimeoutError "")
  | None => Raise (TimeoutError "")
  end.

(** Modelled from the spec: [merge_headers] of [social_hunt/ua.py], which is
    not among the sources: a new mapping, [base] overlaid by [override]. *)
Definition merge_headers (base override : headers) : headers :=
  override ∪ base.

(** [sorted(l, key=key)] for string keys: a stable sort; insertion from the
    right keeps equal keys in their order. *)
Fixpoint insert_sorted {A} (key : A -> string) (x : A) (l : list A) : list A :=
  match l with
  | [] => [x]
  | y :: l' =>
      if String.leb (key x) (key y) then x :: y :: l'
      else y :: insert_sorted key x l'
  end.

Definition sorted {A} (l : list A) (key : A -> string) : list A :=
  foldr (insert_sorted key) [] l.

(** The first exception of a list of outcomes. *)
Fixpoint first_raised {A} (outs : list (result A)) : option exn :=
  match outs with
  | [] => None
  | Raise e :: _ => Some e
  | Ok _ :: outs' => first_raised outs'
  end.

Definition returned {A} (r : result A) : option A :=
  match r with Ok a => Some a | Raise _ => None end.

(** [await asyncio.gather] over the tasks, once every task has finished: the values
    in the order of the tasks, or the exception of the task that raised
    first.  [completion] lists the indices of the tasks in the order in
    which they finished. *)
Definition gather {A} (completion : list nat) (outs : list (result A))
    : result (list A) :=
  match first_raised (omap (fun i => outs !! i) completion ++ outs)%list with
  | Some e => Raise e
  | None => Ok (omap returned outs)
  end.

Section Scan.

(** The user-agent catalogue of [ua.py] and the two entry points of the
    redactor of [demo.py], neither among the sources; the UTC clock, read
    in the task of the provider named. *)
Variable UA_PROFILES : gmap string headers.
Variable censor_value : pyval -> string -> pyval.
Variable censor_breach_data : list pyval -> pyval.
Variable utcnow_iso : string -> string.

Definition censor_nested (v : pyval) (k : string) : pyval :=
  match v with
  | VDict d => VDict (map (fun kv => (kv.1, censor_value kv.2 kv.1)) d)
  | _ => censor_value v k
  end.

(** "Demo mode censorship". *)
Definition censor_profile (profile : pydict) : pydict :=
  match profile with
  | [] => profile
  | _ =>
      map (fun kv : string * pyval =>
             (kv.1,
              match String.eqb kv.1 "raw_results", kv.2 with
              | true, VList l => censor_breach_data l
              | _, v => censor_nested v kv.1
              end)) profile
  end.

Definition censor_evidence (evidence : pydict) : pydict :=
  match evidence with
  | [] => evidence
  | _ => map (fun kv : string * pyval => (kv.1, censor_nested kv.2 kv.1)) evidence
  end.

Definition censor (res : ProviderResult) : ProviderResult :=
  {| provider := provider res;
     username := username res;
     url := url res;
     status := status res;
     http_status := http_status res;
     elapsed_ms := elapsed_ms res;
     evidence := censor_evidence (evidence res);
     profile := censor_profile (profile res);
     error := error res;
     timestamp_iso := timestamp_iso res |}.

(** The result [run_one] builds in its [except asyncio.TimeoutError]. *)
Definition timed_out (prov : BaseProvider) (username : string)
    (provider_timeout : Z) (ts : string) : ProviderResult :=
  {| provider := name prov;
     username := username;
     url := build_url prov username;
     status := ERROR;
     http_status := None;
     elapsed_ms := provider_timeout * 1000;
     evidence := [];
     profile := [];
     error := VStr ("Timed out after " +:+ PyStr.of_Z provider_timeout +:+ "s");
     timestamp_iso := ts |}.

Variable E : SocialHuntEngine.
Variable env : Env.
Variable username : string.
Variable progress_callback : option (ProviderResult -> option exn).

(** One task of [run_one]: what it hands to the probe ([d_url] is also what
    it gives the host limiter), the result it has after the [try] and the
    demo-mode step, which is the one the progress callback receives
    ([d_emitted]), and what the task itself comes to ([d_result]). *)
Record Dispatch : Type := mkDispatch {
  d_url : string;
  d_headers : headers;
  d_client : client;
  d_timeout : Z;
  d_emitted : result ProviderResult;
  d_result : result ProviderResult;
}.

Definition dispatch (prov : BaseProvider) (key : string) : Dispatch :=
  let url := build_url prov username in
  let base_headers := default ∅ (UA_PROFILES !! "desktop_chrome") in
  let prof_headers := default ∅ (UA_PROFILES !! ua_profile prov) in
  let headers := merge_headers base_headers prof_headers in
  let use_client := select_client (open_clients env) prov url in
  let provider_timeout := timeout prov + 5 in
  let res :=
    match wait_for (check prov username use_client headers) provider_timeout with
    | Ok res => Ok res
    | Raise (TimeoutError _) =>
        Ok (timed_out prov username provider_timeout (utcnow_iso key))
    | Raise e => Raise e
    end in
  let res :=
    res ← res; mret (if demo_mode env then censor res else res) in
  {| d_url := url;
     d_headers := headers;
     d_client := use_client;
     d_timeout := provider_timeout;
     d_emitted := res;
     d_result :=
       res ← res;
       match progress_callback with
       | Some callback =>
           match callback res with
           | Some e => Raise e
           | None => Ok res
           end
       | None => Ok res
       end |}.

(** [run_one(name)], once the task holds a slot of the semaphore.  The wait
    on the host limiter, [rate_limit.py], delays the task and is not part of
    the model. *)
Definition run_one (key : string) : result ProviderResult :=
  match lookup key (registry E) with
  | Some prov => d_result (dispatch prov key)
  | None => Raise (Exception "KeyError" ("'" +:+ key +:+ "'"))
  end.

(** "Addon Processing" *)
Definition addons_to_run (dynamic_addons : option (list BaseAddon))
    : list BaseAddon :=
  (omap (fun name => lookup name (addon_registry E)) (enabled_addon_names E)
   ++ match dynamic_addons with
      | Some l => l
      | None => []
      end)%list.

(** The addon tasks, each run to its end in the order of the tasks, on the
    list the previous ones left. *)
Fixpoint run_addons (addons : list BaseAddon) (results : list ProviderResult)
    : result (list ProviderResult) :=
  match addons with
  | [] => Ok results
  | addon :: addons' =>
      match run addon username results (client_direct (open_clients env)) with
      | (results', None) => run_addons addons' results'
      | (_, Some e) => Raise e
      end
  end.

Definition scan_username (completion : list nat)
    (providers : option (list string))
    (dynamic_addons : option (list BaseAddon))
    : ending (list ProviderResult) :=
  let chosen := choose E providers in
  if max_concurrency E <? 0 then
    Raises (Exception "ValueError" "Semaphore initial value must be >= 0")
  else
    match enter_clients env with
    | Raise e => Raises e
    | Ok _ =>
        match chosen, max_concurrency E with
        | _ :: _, 0 => Hangs
        | _, _ =>
            match gather completion (map run_one chosen) with
            | Raise e => Raises e
            | Ok results =>
                match run_addons (addons_to_run dynamic_addons) results with
                | Raise e => Raises e
                | Ok results =>
                    Returns (sorted results (fun r => PyStr.lower (provider r)))
                end
            end
        end
    end.

End Scan.

End Engine.

(** ** Notions of the specification *)

(** The order a list sorted by [key] is in. *)
Definition key_le {A} (key : A -> string) (a b : A) : Prop :=
  String.leb (key a) (key b) = true.

(** The working probe set as the specification words it: the names of the
    registry, in the order of the registry, that the filter lists. *)
Definition registry_order_intersection (E : Engine.SocialHuntEngine)
    (providers : option (list string)) : list string :=
  match providers with
  | Some names =>
      List.filter (fun k => bool_decide (k ∈ names)) (Engine.keys (Engine.registry E))
  | None => Engine.keys (Engine.registry E)
  end.

(** The answers of a world in which every response satisfies [ok], and every
    pair of responses gathered satisfies [ok2]. *)
Definition responses (ok : response -> Prop) (ok2 : response -> response -> Prop)
    : forall X, effect X -> X -> Prop :=
  fun X e =>
    match e in effect X return X -> Prop with
    | Request _ => fun x => exists r, x = Ok r /\ ok r
    | Gather2 _ _ => fun x => exists b p, x = Ok (b, p) /\ ok2 b p
    | _ => fun _ => True
    end.

(** The invariant the specification gives for [error]: there is one when
    the status is ERROR, BLOCKED or UNKNOWN, and none when it is FOUND
    (NOT_FOUND may have one or not). *)
Definition error_matches_status (r : ProviderResult) : Prop :=
  (status r = ERROR \/ status r = BLOCKED \/ status r = UNKNOWN ->
   error r <> VNone) /\
  (status r = FOUND -> error r = VNone).

(** ** Worlds, probes and engines to run the model on *)
Module Sample.

Definition ts0 : string := "2026-01-01T00:00:00+00:00".

(** A response with the given status code and body; the body is not JSON
    and holds no link and no title. *)
Definition page (code : Z) (body : string) : response :=
  {| status_code := code;
     text := body;
     json := Raise (Exception "JSONDecodeError"
                      "Expecting value: line 1 column 1 (char 0)");
     resp_url := "https://example.test/landing";
     resp_url_path := "/landing";
     html := {| anchors := []; title := None |} |}.

(** A world without state: every request gets [resp], the clock stands
    still, every key of the settings file holds [setting], and the
    enrichment block adds nothing to the profile. *)
Definition quiet_world (resp : response) (setting : option string)
    : handler unit :=
  fun X e w =>
    match e in effect X return X * unit with
    | Request _ => (Ok resp, w)
    | Gather2 _ _ => (Ok (resp, resp), w)
    | Sleep _ => (tt, w)
    | Monotonic => (0, w)
    | UtcNowIso => (ts0, w)
    | ReadSetting _ => (setting, w)
    | Enrich _ _ profile => ((profile, None), w)
    end.

(** The value and the request log of a probe run in a quiet world. *)
Definition probe {A} (resp : response) (setting : option string) (p : io A)
    : A * list request :=
  let out := run (quiet_world resp setting) p tt in
  (out.1.1, out.2).

Definition hit (name username : string) : ProviderResult :=
  {| provider := name;
     username := username;
     url := "https://" +:+ name +:+ ".test/" +:+ username;
     status := FOUND;
     http_status := Some 200;
     elapsed_ms := 12;
     evidence := [];
     profile := [];
     error := VNone;
     timestamp_iso := ts0 |}.

(** A probe that answers a hit after [ms] milliseconds, or never. *)
Definition stub (name : string) (ms : option Z) : Engine.BaseProvider :=
  {| Engine.name := name;
     Engine.timeout := 10;
     Engine.ua_profile := "desktop_chrome";
     Engine.use_proxy := false;
     Engine.build_url := fun u => "https://" +:+ name +:+ ".test/" +:+ u;
     Engine.check := fun u _ hd =>
       {| Engine.finishes_after := ms;
          Engine.outcome := Ok (hit name u);
          Engine.headers_after := hd |} |}.

(** A hidden service. *)
Definition onion : Engine.BaseProvider :=
  {| Engine.name := "onion";
     Engine.timeout := 10;
     Engine.ua_profile := "desktop_chrome";
     Engine.use_proxy := false;
     Engine.build_url := fun _ => "http://abc.onion/";
     Engine.check := fun u _ hd =>
       {| Engine.finishes_after := Some 40;
          Engine.outcome := Ok (hit "onion" u);
          Engine.headers_after := hd |} |}.

(** The Discord probe of the repository, in a quiet world. *)
Definition discord : Engine.BaseProvider :=
  Engine.probe_of (quiet_world (page 200 "") None) tt (Some 1)
    Discord.name Discord.ua_profile Discord.timeout false
    Discord.build_url Discord.check.

Definition UA_PROFILES : gmap string headers :=
  {[ "desktop_chrome" := {[ "User-Agent" := "Mozilla/5.0" ]} ]}.

Definition censor_value (v : pyval) (k : string) : pyval := VStr "***".
Definition censor_breach_data (l : list pyval) : pyval := VList [].
Definition utcnow_iso (key : string) : string := ts0.

(** An addon that appends one inferred record, and one that fails. *)
Definition appending : Engine.BaseAddon :=
  {| Engine.run := fun u results _ =>
       ((results ++ [hit "inferred" u])%list, None) |}.

Definition engine (registry : list (string * Engine.BaseProvider))
    : Engine.SocialHuntEngine :=
  {| Engine.registry := registry;
     Engine.max_concurrency := 6;
     Engine.addon_registry := [("appending", appending)];
     Engine.enabled_addon_names := [] |}.

Definition env : Engine.Env :=
  {| Engine.SOCIAL_HUNT_PROXY := None;
     Engine.SOCIAL_HUNT_CLEARNET_PROXY := None;
     Engine.demo_mode := false;
     Engine.proxy_error := fun _ => None |}.

Definition tor_env : Engine.Env :=
  {| Engine.SOCIAL_HUNT_PROXY := Some "socks5h://127.0.0.1:9050";
     Engine.SOCIAL_HUNT_CLEARNET_PROXY := None;
     Engine.demo_mode := true;
     Engine.proxy_error := fun _ => None |}.

(** [scan_username] on the sample catalogue, without progress callback. *)
Definition scan (E : Engine.SocialHuntEngine) (env : Engine.Env)
    (username : string) :=
  Engine.scan_username UA_PROFILES censor_value censor_breach_data utcnow_iso
    E env username None.

Definition dispatch (env : Engine.Env) (username : string) :=
  Engine.dispatch UA_PROFILES censor_value censor_breach_data utcnow_iso
    env username None.

End Sample.

(** ** Further worlds and fixtures *)

(** The answers of a world whose requests, gathered pairs and settings
    lookups satisfy the given conditions. *)
Definition replies (on_request : result response -> Prop)
    (on_pair : result (response * response) -> Prop)
    (on_setting : option string -> Prop) : forall X, effect X -> X -> Prop :=
  fun X e =>
    match e in effect X return X -> Prop with
    | Request _ => on_request
    | Gather2 _ _ => on_pair
    | ReadSetting _ => on_setting
    | _ => fun _ => True
    end.

Definition anything {A} : A -> Prop := fun _ => True.

(** A term on which [int] cannot fail, whatever part of it is converted:
    at most 4300 characters, and none of the digits that are no decimal
    digits. *)
Definition int_safe (term : string) : Prop :=
  PyStr.len term <= 4300 /\
  PyStr.forallb (fun c => negb (PyStr.isdigit c) || PyStr.isdecimal c) term
  = true.

(** The characters a percent-encoded query value is made of. *)
Definition query_safe (c : ascii) : bool :=
  PyStr.unreserved c || Ascii.eqb c "+" || Ascii.eqb c "%".

(** A record of [results], as [flatten] tags it with its database. *)
Definition tagged (db : string) (record : pydict) : pyval :=
  VDict (Py.setdefault "_db" (VStr db) record).

(** Two results agree on every field the demo-mode step does not touch, and
    their two mappings have the same keys in the same order. *)
Definition same_but_redacted (r r' : ProviderResult) : Prop :=
  provider r' = provider r /\ username r' = username r /\ url r' = url r /\
  status r' = status r /\ http_status r' = http_status r /\
  elapsed_ms r' = elapsed_ms r /\ error r' = error r /\
  timestamp_iso r' = timestamp_iso r /\
  map fst (evidence r') = map fst (evidence r) /\
  map fst (profile r') = map fst (profile r).

Module Fixture.

(** A probe whose [check] raises after [ms] milliseconds. *)
Definition broken (name : string) (ms : Z) (e : exn) : Engine.BaseProvider :=
  {| Engine.name := name;
     Engine.timeout := 10;
     Engine.ua_profile := "desktop_chrome";
     Engine.use_proxy := false;
     Engine.build_url := fun u => "https://" +:+ name +:+ ".test/" +:+ u;
     Engine.check := fun u _ hd =>
       {| Engine.finishes_after := Some ms;
          Engine.outcome := Raise e;
          Engine.headers_after := hd |} |}.

(** An environment whose SOCIAL_HUNT_PROXY is a URL httpx refuses. *)
Definition bad_proxy_env : Engine.Env :=
  {| Engine.SOCIAL_HUNT_PROXY := Some "x";
     Engine.SOCIAL_HUNT_CLEARNET_PROXY := None;
     Engine.demo_mode := false;
     Engine.proxy_error := fun url =>
       if String.eqb url "x"
       then Some (Exception "ValueError" "Unknown scheme for proxy URL URL('x')")
       else None |}.

(** [n] times the digit nine. *)
Fixpoint nines (n : nat) : string :=
  match n with
  | O => EmptyString
  | S n' => String "9" (nines n')
  end.

(** A progress callback that raises. *)
Definition angry_callback (r : ProviderResult) : option exn :=
  Some (Exception "ValueError" "callback failed").

(** A result with something to redact. *)
Definition leak (name username : string) : ProviderResult :=
  {| provider := name;
     username := username;
     url := "https://" +:+ name +:+ ".test/" +:+ username;
     status := FOUND;
     http_status := Some 200;
     elapsed_ms := 7;
     evidence := [("marker", VBool true)];
     profile := [("raw_results", VList [VDict [("password", VStr "hunter2")]]);
                 ("account", VStr username)];
     error := VNone;
     timestamp_iso := Sample.ts0 |}.

Definition leaky (name : string) : Engine.BaseProvider :=
  {| Engine.name := name;
     Engine.timeout := 10;
     Engine.ua_profile := "desktop_chrome";
     Engine.use_proxy := false;
     Engine.build_url := fun u => "https://" +:+ name +:+ ".test/" +:+ u;
     Engine.check := fun u _ hd =>
       {| Engine.finishes_after := Some 7;
          Engine.outcome := Ok (leak name u);
          Engine.headers_after := hd |} |}.

Definition scan_with (callback : option (ProviderResult -> option exn))
    (E : Engine.SocialHuntEngine) (env : Engine.Env) (username : string) :=
  Engine.scan_username Sample.UA_PROFILES Sample.censor_value
    Sample.censor_breach_data Sample.utcnow_iso E env username callback.

(** A response that decodes to [body]. *)
Definition json_page (code : Z) (body : pyval) : response :=
  {| status_code := code;
     text := "{...}";
     json := Ok body;
     resp_url := "https://example.test/api";
     resp_url_path := "/api";
     html := {| anchors := []; title := None |} |}.

(** A search page that lists one channel and has a title tag without
    text. *)
Definition untitled : response :=
  {| status_code := 200;
     text := "<title></title><a href=/channel/alice>Alice</a>";
     json := Raise (Exception "JSONDecodeError"
                      "Expecting value: line 1 column 1 (char 0)");
     resp_url := "https://goyimtv.st/search?tf=6&q=alice";
     resp_url_path := "/search";
     html := {| anchors := [("/channel/alice", "Alice")];
                title := Some None |} |}.

End Fixture.

(** * Properties *)

(** ** Effect trees *)

Lemma io_post_mono {A} Q (P P' : list request -> A -> Prop) (p : io A) :
  (forall log a, P log a -> P' log a) -> io_post Q P p -> io_post Q P' p.
Proof.
  revert P P'. induction p as [a | X e k IH]; intros P P' Himp; simpl.
  - apply Himp.
  - intros Hp x Hx. eapply IH; [| exact (Hp x Hx)].
    intros log a. apply Himp.
Qed.

Lemma io_post_bind {A B} Q (P : list request -> B -> Prop) (m : io A)
    (f : A -> io B) :
  io_post Q (fun l1 a => io_post Q (fun l2 => P (l1 ++ l2)%list) (f a)) m ->
  io_post Q P (io_bind m f).
Proof.
  revert P. induction m as [a | X e k IH]; intros P; simpl.
  - intros H. exact H.
  - intros H x Hx. apply IH. eapply io_post_mono; [| exact (H x Hx)].
    intros l1 a Ha. simpl in Ha. eapply io_post_mono; [| exact Ha].
    intros l2 b Hb. simpl in Hb. rewrite <- app_assoc in Hb. exact Hb.
Qed.

(** What holds on every path holds of every run. *)
Lemma io_post_run {W A} (h : handler W) Q (P : list request -> A -> Prop)
    (p : io A) (w : W) :
  answers h Q -> io_post Q P p -> P (run h p w).2 (run h p w).1.1.
Proof.
  intros HQ. revert P w. induction p as [a | X e k IH]; intros P w Hall; simpl in *.
  - exact Hall.
  - pose proof (HQ X e w) as Hx. destruct (h X e w) as [x w'].
    specialize (IH x _ w' (Hall x Hx)).
    destruct (run h (k x) w') as [[a w''] log]. exact IH.
Qed.

Lemma answers_any {W} (h : handler W) : answers h any_answer.
Proof. intros X e w. exact I. Qed.

Lemma no_http_run {W A} (h : handler W) (p : io A) (w : W) :
  no_http p -> (run h p w).2 = [].
Proof.
  revert w. induction p as [a | X e k IH]; intros w Hno; simpl in *.
  - reflexivity.
  - destruct Hno as [He Hk]. destruct (h X e w) as [x w'].
    specialize (IH x w' (Hk x)).
    destruct (run h (k x) w') as [[a w''] log]. simpl in *. subst log.
    destruct e; simpl in He; try discriminate; reflexivity.
Qed.

(** ** Strings *)

Lemma rstrip_no_final_lf s : PyStr.ends_with_lf (PyStr.rstrip s) = false.
Proof.
  induction s as [| c s IH]; simpl; [reflexivity |].
  destruct (PyStr.rstrip s) as [| d r] eqn:Hr.
  - destruct (PyStr.isspace c) eqn:Hc; simpl; [reflexivity |].
    apply N.eqb_neq. intros Heq.
    unfold PyStr.isspace, PyStr.in_range in Hc. rewrite Heq in Hc. discriminate.
  - exact IH.
Qed.

Lemma strip_no_final_lf s : PyStr.ends_with_lf (PyStr.strip s) = false.
Proof. apply rstrip_no_final_lf. Qed.

Lemma re_match_class_strip cls lo hi s :
  PyStr.re_match_class cls lo hi (PyStr.strip s) = true <->
  in_class cls lo hi (PyStr.strip s).
Proof.
  unfold PyStr.re_match_class, in_class. rewrite strip_no_final_lf.
  rewrite !andb_true_iff, !Z.leb_le. tauto.
Qed.

(** ** discord.py *)

(** C10.  [DiscordProvider.check] sends no HTTP request, whatever the
    identifier; its result has no [http_status] and [elapsed_ms = 0]; the
    status is [NOT_FOUND], with the error "Invalid Discord ID or invite code
    format.", exactly when the stripped identifier is neither 17 to 20
    decimal digits (the class [\d]) nor 2 to 10 ASCII letters and digits,
    and [UNKNOWN], with the error "Verification not possible. Discord
    profiles are not public.", otherwise.  Stripping is [str.strip]: the
    no-break space and the next-line control go with the ASCII blanks. *)
Theorem discord_check_verdict {W} (h : handler W) (w : W)
    (username : string) (c : client) (hd : headers) :
  let out := run h (Discord.check username c hd) w in
  let r := out.1.1.1 in
  let rejected :=
    ~ in_class PyStr.isdecimal 17 20 (PyStr.strip username) /\
    ~ in_class PyStr.isalnum 2 10 (PyStr.strip username) in
  out.2 = [] /\
  no_http (Discord.check username c hd) /\
  http_status r = None /\
  elapsed_ms r = 0 /\
  (status r = NOT_FOUND <-> rejected) /\
  (status r = UNKNOWN <-> ~ rejected) /\
  (status r = NOT_FOUND ->
     error r = VStr "Invalid Discord ID or invite code format.") /\
  (status r = UNKNOWN ->
     error r =
     VStr "Verification not possible. Discord profiles are not public.").
Proof.
  cbv zeta.
  assert (Hno : no_http (Discord.check username c hd)).
  { unfold Discord.check; simpl. split; [reflexivity | intros ts].
    destruct (negb _); exact I. }
  split; [apply no_http_run, Hno |]. split; [exact Hno |].
  pose proof (re_match_class_strip PyStr.isdecimal 17 20 username) as Hid.
  pose proof (re_match_class_strip PyStr.isalnum 2 10 username) as Hinv.
  unfold Discord.check; simpl.
  destruct (h string UtcNowIso w) as [ts w']. simpl.
  unfold Discord.user_id_re, Discord.invite_re.
  destruct (PyStr.re_match_class PyStr.isdecimal 17 20 (PyStr.strip username));
    destruct (PyStr.re_match_class PyStr.isalnum 2 10 (PyStr.strip username));
    simpl; repeat split; try congruence; try tauto; intros; try discriminate;
    intuition congruence.
Qed.

(** ** The probes, one by one *)

(** Symbolic execution of a coroutine under [io_post]. *)
Ltac io_go :=
  repeat first
    [ progress cbn [io_post mbind mret io_mbind io_ret io_bind perform
                    elapsed_since requests_of app]
    | progress unfold mbind, io_mbind, mret, io_ret
    | match goal with
      | |- forall _, _ => intro
      | |- io_post _ _ ?p =>
          match p with
          | context [match ?x with _ => _ end] =>
              lazymatch x with
              | context [match _ with _ => _ end] => fail
              | _ => destruct x eqn:?
              end
          end
      end ].

(** ** Sorting *)

Section Sorting.
Context {A : Type} (key : A -> string).
Local Abbreviation key_le := (key_le key).

Lemma key_le_total a b : key_le a b \/ key_le b a.
Proof. apply String.leb_total. Qed.

Lemma key_le_trans a b c : key_le a b -> key_le b c -> key_le a c.
Proof.
  unfold key_le. intros Hab Hbc.
  apply Is_true_true. apply Is_true_true in Hab, Hbc.
  exact (transitivity (R := String.le) Hab Hbc).
Qed.

Lemma insert_sorted_perm x l : Engine.insert_sorted key x l ≡ₚ x :: l.
Proof.
  induction l as [| y l IH]; simpl; [reflexivity |].
  destruct (String.leb (key x) (key y)); [reflexivity |].
  rewrite IH. apply Permutation_swap.
Qed.

Lemma sorted_perm l : Engine.sorted l key ≡ₚ l.
Proof.
  unfold Engine.sorted. induction l as [| x l IH]; simpl; [reflexivity |].
  rewrite insert_sorted_perm. by rewrite IH.
Qed.

Lemma insert_sorted_hd x y l :
  key_le y x -> HdRel key_le y l -> HdRel key_le y (Engine.insert_sorted key x l).
Proof.
  intros Hyx Hhd. destruct l as [| z l]; simpl.
  - by constructor.
  - destruct (String.leb (key x) (key z)); constructor; [done |].
    by inversion Hhd.
Qed.

Lemma insert_sorted_Sorted x l :
  Sorted key_le l -> Sorted key_le (Engine.insert_sorted key x l).
Proof.
  induction 1 as [| y l Hs IH Hhd]; simpl.
  - by repeat constructor.
  - destruct (String.leb (key x) (key y)) eqn:Hxy.
    + constructor; [by constructor |]. by constructor.
    + constructor; [exact IH |]. apply insert_sorted_hd; [| done].
      destruct (key_le_total x y) as [H | H]; [| done].
      unfold key_le in H. congruence.
Qed.

Lemma sorted_Sorted l : Sorted key_le (Engine.sorted l key).
Proof.
  unfold Engine.sorted. induction l as [| x l IH]; simpl; [constructor |].
  by apply insert_sorted_Sorted.
Qed.

Lemma sorted_StronglySorted l : StronglySorted key_le (Engine.sorted l key).
Proof.
  apply Sorted_StronglySorted; [| apply sorted_Sorted].
  intros a b c. apply key_le_trans.
Qed.

End Sorting.

(** ** The engine *)

Lemma first_raised_None {A} (outs : list (result A)) :
  Engine.first_raised outs = None <-> Forall (fun o => exists a, o = Ok a) outs.
Proof.
  induction outs as [| [a | e] outs IH]; simpl.
  - split; [constructor | done].
  - rewrite IH. split.
    + intros H. constructor; [by exists a | done].
    + by inversion 1.
  - split; [done |]. inversion 1 as [| ? ? [a Ha]]. discriminate.
Qed.

Lemma gather_Ok {A} completion (outs : list (result A)) rs :
  Engine.gather completion outs = Ok rs -> Forall2 (fun o r => o = Ok r) outs rs.
Proof.
  unfold Engine.gather.
  destruct (Engine.first_raised _) eqn:Hfr; [done |].
  intros [= <-]. apply first_raised_None in Hfr.
  apply Forall_app in Hfr as [_ Hall].
  induction Hall as [| o outs [a ->] _ IH]; simpl; by constructor.
Qed.

Lemma gather_all_Ok {A} completion (outs : list (result A)) :
  Forall (fun o => exists a, o = Ok a) outs ->
  exists rs, Engine.gather completion outs = Ok rs.
Proof.
  intros Hall. unfold Engine.gather.
  assert (Hfr : Engine.first_raised
                  (omap (fun i => outs !! i) completion ++ outs)%list = None).
  { apply first_raised_None, Forall_app. split; [| done].
    apply Forall_forall. intros o [i [_ Ho]]%list_elem_of_omap.
    rewrite Forall_forall in Hall. apply Hall.
    by eapply list_elem_of_lookup_2. }
  rewrite Hfr. eauto.
Qed.

Lemma lookup_has_key {A} (d : list (string * A)) k :
  Engine.has_key d k = true <-> k ∈ Engine.keys d.
Proof.
  unfold Engine.has_key, Engine.keys.
  induction d as [| [k' v] d IH]; simpl.
  - split; [done | by intros ?%elem_of_nil].
  - destruct (String.eqb k k') eqn:Hk.
    + apply String.eqb_eq in Hk as ->. split; [intros _; left | done].
    + apply String.eqb_neq in Hk. rewrite IH, elem_of_cons. tauto.
Qed.

Lemma has_key_lookup {A} (d : list (string * A)) k :
  Engine.has_key d k = true -> exists v, Engine.lookup k d = Some v.
Proof. unfold Engine.has_key. destruct (Engine.lookup k d); [eauto | done]. Qed.


Lemma nonempty_Some o p : nonempty o = Some p <-> o = Some p /\ p <> "".
Proof.
  unfold nonempty. destruct o as [[| a s] |]; simpl; split;
    try done; try (by intros [? ?]).
  - intros [[= <-] ?]. done.
  - by intros [= <-].
Qed.

Section EngineProperties.

Variable UA_PROFILES : gmap string headers.
Variable censor_value : pyval -> string -> pyval.
Variable censor_breach_data : list pyval -> pyval.
Variable utcnow_iso : string -> string.
Variable E : Engine.SocialHuntEngine.
Variable env : Engine.Env.
Variable identifier : string.
Variable progress_callback : option (ProviderResult -> option exn).

Local Abbreviation dispatch :=
  (Engine.dispatch UA_PROFILES censor_value censor_breach_data utcnow_iso env
     identifier progress_callback).
Local Abbreviation run_one :=
  (Engine.run_one UA_PROFILES censor_value censor_breach_data utcnow_iso E env
     identifier progress_callback).
Local Abbreviation run_addons := (Engine.run_addons env identifier).
Local Abbreviation scan_username :=
  (Engine.scan_username UA_PROFILES censor_value censor_breach_data utcnow_iso
     E env identifier progress_callback).

(** The demo-mode step rewrites [evidence] and [profile] only. *)
Lemma censor_frame res :
  let res' := Engine.censor censor_value censor_breach_data res in
  provider res' = provider res /\ username res' = username res /\
  url res' = url res /\ status res' = status res /\
  http_status res' = http_status res /\ elapsed_ms res' = elapsed_ms res /\
  error res' = error res /\ timestamp_iso res' = timestamp_iso res.
Proof. simpl. repeat split. Qed.

(** An empty mapping is false: the demo-mode step leaves it alone. *)
Lemma censor_timed_out prov N ts :
  Engine.censor censor_value censor_breach_data
    (Engine.timed_out prov identifier N ts)
  = Engine.timed_out prov identifier N ts.
Proof. reflexivity. Qed.

Lemma run_one_dispatch key prov :
  Engine.lookup key (Engine.registry E) = Some prov ->
  run_one key = Engine.d_result (dispatch prov key).
Proof. unfold Engine.run_one. by intros ->. Qed.


(** C3.  Whatever the order in which the probe tasks complete, the list
    [scan_username] returns is in non-decreasing order of
    [provider.lower()]. *)
Theorem scan_sorted_by_provider (completion : list nat)
    (providers : option (list string))
    (dynamic_addons : option (list Engine.BaseAddon))
    (results : list ProviderResult) :
  scan_username completion providers dynamic_addons = Engine.Returns results ->
  StronglySorted (key_le (fun r => PyStr.lower (provider r))) results.
Proof.
  unfold Engine.scan_username.
  destruct (Engine.max_concurrency E <? 0); [done |].
  destruct (Engine.enter_clients env); [| done].
  intros H.
  assert (exists l, results = Engine.sorted l (fun r => PyStr.lower (provider r)))
    as [l ->]; [| apply sorted_StronglySorted].
  destruct (Engine.choose E providers), (Engine.max_concurrency E);
    try discriminate;
    destruct (Engine.gather _ _); try discriminate;
    destruct (Engine.run_addons _ _ _ _); try discriminate;
    injection H as <-; eauto.
Qed.

(** C5.  The client a task hands to the probe follows the first rule that
    applies: the Tor client when the URL contains ".onion" and that client
    exists; else the clearnet-proxy client when the probe has [use_proxy]
    and that client exists; else the direct client.  Each proxied client
    exists exactly when its environment variable holds a non-empty string,
    and the probe is invoked with the selected client and no other. *)
Theorem client_selection (prov : Engine.BaseProvider) (key : string) :
  let url := Engine.build_url prov identifier in
  let cl := Engine.open_clients env in
  let d := dispatch prov key in
  let onion := PyStr.contains ".onion" url = true /\ is_Some (Engine.client_tor cl) in
  let opted :=
    Engine.use_proxy prov = true /\ is_Some (Engine.client_clearnet_proxy cl) in
  (forall tor, PyStr.contains ".onion" url = true ->
     Engine.client_tor cl = Some tor -> Engine.d_client d = tor) /\
  (forall proxy, ~ onion -> Engine.use_proxy prov = true ->
     Engine.client_clearnet_proxy cl = Some proxy -> Engine.d_client d = proxy) /\
  (~ onion -> ~ opted -> Engine.d_client d = Engine.client_direct cl) /\
  (forall c, Engine.client_tor cl = Some c <->
     exists p, Engine.SOCIAL_HUNT_PROXY env = Some p /\ p <> "" /\ c = ClientTor p) /\
  (forall c, Engine.client_clearnet_proxy cl = Some c <->
     exists p, Engine.SOCIAL_HUNT_CLEARNET_PROXY env = Some p /\ p <> ""
               /\ c = ClientClearnetProxy p) /\
  (forall check',
     check' identifier (Engine.d_client d) (Engine.d_headers d)
     = Engine.check prov identifier (Engine.d_client d) (Engine.d_headers d) ->
     Engine.d_result
       (dispatch
          (Engine.mkBaseProvider (Engine.name prov) (Engine.timeout prov)
             (Engine.ua_profile prov) (Engine.use_proxy prov)
             (Engine.build_url prov) check') key)
     = Engine.d_result d).
Proof.
  intros url cl d onion opted.
  assert (Hsel : Engine.d_client d = Engine.select_client cl prov url) by done.
  unfold Engine.select_client in Hsel.
  repeat split.
  - intros tor Hon Htor. rewrite Hsel, Hon, Htor. done.
  - intros proxy Hno Hu Hpx. rewrite Hsel, Hu, Hpx.
    destruct (PyStr.contains ".onion" url) eqn:Hon; [| done].
    destruct (Engine.client_tor cl) eqn:Htor; [| done].
    exfalso. apply Hno. split; [done | by eexists].
  - intros Hno Hnp. rewrite Hsel.
    destruct (PyStr.contains ".onion" url) eqn:Hon,
      (Engine.client_tor cl) eqn:Htor;
      try (exfalso; apply Hno; split; [done | by eexists]);
      destruct (Engine.use_proxy prov) eqn:Hu,
        (Engine.client_clearnet_proxy cl) eqn:Hpx;
      try done; exfalso; apply Hnp; (split; [done | by eexists]).
  - subst cl. cbn [Engine.open_clients Engine.client_tor].
    rewrite fmap_Some. intros (p & Hp & ->). exists p.
    by apply nonempty_Some in Hp as [-> ?].
  - intros (p & Hp & Hne & ->). subst cl.
    cbn [Engine.open_clients Engine.client_tor]. rewrite fmap_Some.
    exists p. split; [| done]. by apply nonempty_Some.
  - subst cl. cbn [Engine.open_clients Engine.client_clearnet_proxy].
    rewrite fmap_Some. intros (p & Hp & ->). exists p.
    by apply nonempty_Some in Hp as [-> ?].
  - intros (p & Hp & Hne & ->). subst cl.
    cbn [Engine.open_clients Engine.client_clearnet_proxy]. rewrite fmap_Some.
    exists p. split; [| done]. by apply nonempty_Some.
  - intros check' Hsame. subst d. unfold Engine.dispatch in *.
    cbn [Engine.d_result Engine.d_client Engine.d_headers Engine.name
         Engine.timeout Engine.ua_profile Engine.use_proxy Engine.build_url
         Engine.check] in *.
    assert (Hc : Engine.select_client (Engine.open_clients env)
                   (Engine.mkBaseProvider (Engine.name prov) (Engine.timeout prov)
                      (Engine.ua_profile prov) (Engine.use_proxy prov)
                      (Engine.build_url prov) check')
                   (Engine.build_url prov identifier)
                 = Engine.select_client (Engine.open_clients env) prov
                     (Engine.build_url prov identifier)) by done.
    rewrite Hc. rewrite Hsame. reflexivity.
Qed.

Lemma choose_has_key providers p :
  p ∈ Engine.choose E providers -> Engine.has_key (Engine.registry E) p = true.
Proof.
  assert (Hkeys : p ∈ Engine.keys (Engine.registry E) ->
                  Engine.has_key (Engine.registry E) p = true)
    by apply lookup_has_key.
  unfold Engine.choose. destruct providers as [[| q names] |]; try exact Hkeys.
  rewrite list_elem_of_In, filter_In. tauto.
Qed.

Lemma choose_filter names :
  names <> [] ->
  Engine.choose E (Some names)
  = List.filter (Engine.has_key (Engine.registry E)) names.
Proof. by destruct names. Qed.

(** C4, as the code has it.  A non-empty filter gives the names of the
    filter that the registry has, in the order of the filter and as many
    times as the filter lists them; names the registry lacks are left out,
    and a scan without addons returns one result per name kept and nothing
    else.  Without a filter, or with an empty one, the names are those of
    the registry, in its order. *)
Theorem working_set_in_filter_order (providers : option (list string)) :
  (forall names, providers = Some names -> names <> [] ->
     Engine.choose E providers
     = List.filter
         (fun p => bool_decide (p ∈ Engine.keys (Engine.registry E))) names /\
     sublist (Engine.choose E providers) names /\
     (forall p, p ∈ Engine.choose E providers <->
                p ∈ names /\ p ∈ Engine.keys (Engine.registry E))) /\
  (providers = None \/ providers = Some [] ->
     Engine.choose E providers = Engine.keys (Engine.registry E)) /\
  (forall completion results,
     Engine.enabled_addon_names E = [] ->
     scan_username completion providers None = Engine.Returns results ->
     exists rs,
       Forall2 (fun key r => run_one key = Ok r) (Engine.choose E providers) rs /\
       results ≡ₚ rs).
Proof.
  split; [| split].
  - intros names -> Hne. rewrite (choose_filter _ Hne).
    assert (Heq : List.filter (Engine.has_key (Engine.registry E)) names
                  = List.filter
                      (fun p => bool_decide (p ∈ Engine.keys (Engine.registry E)))
                      names).
    { apply filter_ext. intros p.
      destruct (Engine.has_key (Engine.registry E) p) eqn:Hp.
      - symmetry. apply bool_decide_eq_true. by apply lookup_has_key.
      - symmetry. apply bool_decide_eq_false. rewrite <- lookup_has_key. congruence. }
    split; [exact Heq |]. split.
    + clear. induction names as [| q names IH]; simpl; [constructor |].
      destruct (Engine.has_key _ q); by constructor.
    + intros p. rewrite list_elem_of_In, filter_In, <- list_elem_of_In.
      by rewrite lookup_has_key.
  - by intros [-> | ->].
  - intros completion results Hen. unfold Engine.scan_username.
    destruct (Engine.max_concurrency E <? 0); [done |].
    destruct (Engine.enter_clients env); [| done].
    unfold Engine.addons_to_run. rewrite Hen. simpl.
    intros H.
    assert (exists rs,
              Engine.gather completion (map run_one (Engine.choose E providers))
              = Ok rs /\
              results = Engine.sorted rs (fun r => PyStr.lower (provider r)))
      as (rs & Hg & ->).
    { destruct (Engine.choose E providers), (Engine.max_concurrency E);
        try discriminate;
        destruct (Engine.gather _ _); try discriminate;
        injection H as <-; eauto. }
    exists rs. split; [| apply sorted_perm].
    apply gather_Ok in Hg. by apply Forall2_fmap_l in Hg.
Qed.







End EngineProperties.


Ltac io_done :=
  repeat match goal with
    | H : exists _, _ |- _ => destruct H
    | H : _ /\ _ |- _ => destruct H
    | H : responses _ _ _ _ _ |- _ => simpl in H
    end;
  simplify_eq/=;
  repeat match goal with
    | |- context [match ?x with _ => _ end] => destruct x eqn:?; simplify_eq/=
    end;
  repeat match goal with
    | H : (_ =? _) = true |- _ => apply Z.eqb_eq in H
    | H : (_ =? _) = false |- _ => apply Z.eqb_neq in H
    end;
  try done; try lia; try (intuition (try done; try lia)).

(** *** When a probe reports BLOCKED *)

Lemma breachvip_blocked code u c hd :
  code = 403 \/ code = 429 \/ code = 503 ->
  io_post (responses (fun r => status_code r = code) (fun _ _ => True))
    (fun log out =>
       log <> [] -> returns out (fun out => status out.1 = BLOCKED))
    (BreachVIP.check u c hd).
Proof.
  intros Hcode. unfold BreachVIP.check, BreachVIP.respond. io_go; io_done.
Qed.

Lemma leakcheck_blocked code key u c hd :
  code = 429 \/ code = 503 ->
  io_post (responses (fun r => status_code r = code) (fun _ _ => True))
    (fun log out =>
       log <> [] -> returns out (fun out => status out.1 = BLOCKED))
    (LeakCheck.check key u c hd).
Proof.
  intros Hcode.
  unfold LeakCheck.check, LeakCheck.respond, LeakCheck.get_api_key.
  io_go; io_done.
Qed.

Lemma snusbase_blocked code key u c hd :
  code = 429 \/ code = 503 ->
  io_post (responses (fun r => status_code r = code) (fun _ _ => True))
    (fun log out =>
       log <> [] -> returns out (fun out => status out.1 = BLOCKED))
    (Snusbase.check key u c hd).
Proof.
  intros Hcode.
  unfold Snusbase.check, Snusbase.respond, Snusbase.get_api_key.
  io_go; io_done.
Qed.


(** Without a 200 on either lookup, HIBP decodes no body and sets no
    evidence flag. *)
Lemma hibp_no_hit b p :
  status_code b <> 200 -> status_code p <> 200 ->
  exists profile,
    (st ← HIBP.process_breach b ([], []);
     st ← HIBP.process_paste p st;
     mret (b, p, st)) = Ok (b, p, (profile, [])).
Proof.
  intros Hb Hp. unfold HIBP.process_breach, HIBP.process_paste.
  apply Z.eqb_neq in Hb, Hp. rewrite Hb.
  destruct (status_code b =? 429), (negb (status_code b =? 404));
    cbn; rewrite Hp;
    destruct (status_code p =? 429), (negb (status_code p =? 404));
    cbn; eauto.
Qed.

Lemma hibp_blocked key u c hd :
  io_post
    (responses (fun _ => True)
       (fun b p => (status_code b = 429 \/ status_code p = 429)
                   /\ status_code b <> 200 /\ status_code p <> 200))
    (fun log out => log <> [] -> status out.1 = BLOCKED)
    (HIBP.check key u c hd).
Proof.
  unfold HIBP.check. cbn [io_post mbind io_mbind io_bind perform].
  intros start _ ts _.
  destruct (nonempty key) as [k |]; [| by cbn].
  destruct (PyStr.has_char "*" u); [by cbn |].
  destruct (negb (HIBP.email_re u)); [by cbn |].
  cbn [io_post]. intros both (b & p & -> & Hcode & Hb & Hp).
  destruct (hibp_no_hit b p Hb Hp) as [profile Hpipe].
  cbn [mbind result_mbind rbind] in Hpipe |- *. rewrite Hpipe.
  cbn. intros el _ _. unfold HIBP.overall_status. cbn.
  destruct Hcode as [-> | ->]; cbn; [done |].
  by destruct (status_code b =? 429).
Qed.

(** The probes that read the page, and Discord, never report BLOCKED. *)
Lemma discord_never_blocked u c hd :
  io_post any_answer (fun _ out => status out.1 <> BLOCKED) (Discord.check u c hd).
Proof. unfold Discord.check. io_go; io_done. Qed.

Lemma stackoverflow_never_blocked u c hd :
  io_post any_answer (fun _ out => status out.1 <> BLOCKED)
    (StackOverflow.check u c hd).
Proof. unfold StackOverflow.check. io_go; io_done. Qed.

Lemma goodreads_never_blocked u c hd :
  io_post any_answer (fun _ out => status out.1 <> BLOCKED)
    (Goodreads.check u c hd).
Proof. unfold Goodreads.check. io_go; io_done. Qed.

Lemma goyimtv_verdict_status u r st prof :
  GoyimTV.verdict u r = Ok (st, prof) -> st = FOUND \/ st = NOT_FOUND.
Proof.
  unfold GoyimTV.verdict.
  repeat match goal with
         | |- context [match ?x with _ => _ end] => destruct x
         end; intros [= <- <-]; auto.
Qed.

Lemma goyimtv_never_blocked u c hd :
  io_post any_answer (fun _ out => status out.1 <> BLOCKED) (GoyimTV.check u c hd).
Proof.
  unfold GoyimTV.check, GoyimTV.on_exception. io_go; simpl; try done.
  all: match goal with
       | H : GoyimTV.verdict _ _ = Ok _ |- _ =>
           apply goyimtv_verdict_status in H as [-> | ->]; done
       end.
Qed.


(** *** The identifier echoed, and the caller's headers *)

(** Seven probes return the identifier as they got it, whenever they
    return. *)
Lemma discord_echo u c hd :
  io_post any_answer (fun _ out => username out.1 = u /\ out.2 = hd)
    (Discord.check u c hd).
Proof. unfold Discord.check. io_go; io_done. Qed.

Lemma goodreads_echo u c hd :
  io_post any_answer (fun _ out => username out.1 = u /\ out.2 = hd)
    (Goodreads.check u c hd).
Proof. unfold Goodreads.check. io_go; io_done. Qed.

Lemma hibp_echo key u c hd :
  io_post any_answer (fun _ out => username out.1 = u /\ out.2 = hd)
    (HIBP.check key u c hd).
Proof. unfold HIBP.check. io_go; io_done. Qed.

Lemma leakcheck_echo key u c hd :
  io_post any_answer
    (fun _ out => whenever out (fun out => username out.1 = u /\ out.2 = hd))
    (LeakCheck.check key u c hd).
Proof.
  unfold LeakCheck.check, LeakCheck.respond, LeakCheck.get_api_key.
  io_go; io_done.
Qed.

Lemma breachvip_echo u c hd :
  io_post any_answer
    (fun _ out => whenever out (fun out => username out.1 = u /\ out.2 = hd))
    (BreachVIP.check u c hd).
Proof. unfold BreachVIP.check, BreachVIP.respond. io_go; io_done. Qed.

Lemma snusbase_echo key u c hd :
  io_post any_answer
    (fun _ out => whenever out (fun out => username out.1 = u /\ out.2 = hd))
    (Snusbase.check key u c hd).
Proof.
  unfold Snusbase.check, Snusbase.respond, Snusbase.get_api_key.
  io_go; io_done.
Qed.

(** GoyimTV echoes the identifier too, and hands back the caller's mapping
    with its eight browser headers written into it. *)
Lemma goyimtv_echo u c hd :
  io_post any_answer
    (fun _ out => username out.1 = u /\ out.2 = GoyimTV.browser_headers hd)
    (GoyimTV.check u c hd).
Proof. unfold GoyimTV.check, GoyimTV.on_exception. io_go; io_done. Qed.

(** StackOverflow echoes the identifier when it sends no request and when
    the request fails; once a response is there it reports the digits of
    the identifier instead. *)
Lemma stackoverflow_echo u c hd :
  io_post (responses (fun _ => True) (fun _ _ => True))
    (fun log out =>
       (log = [] -> username out.1 = u) /\
       (log <> [] -> username out.1 = PyStr.filter PyStr.isdigit u) /\
       out.2 = hd)
    (StackOverflow.check u c hd).
Proof. unfold StackOverflow.check. io_go; io_done. Qed.

Lemma stackoverflow_echo_on_failure u c hd :
  io_post
    (fun X e =>
       match e in effect X return X -> Prop with
       | Request _ => fun x => exists e, x = Raise e
       | _ => fun _ => True
       end)
    (fun _ out => username out.1 = u /\ status out.1 <> FOUND)
    (StackOverflow.check u c hd).
Proof. unfold StackOverflow.check. io_go; io_done. Qed.

(** *** The error field against the status *)

Lemma discord_error_matches u c hd :
  io_post any_answer (fun _ out => error_matches_status out.1)
    (Discord.check u c hd).
Proof. unfold Discord.check, error_matches_status. io_go; io_done. Qed.

Lemma stackoverflow_error_matches u c hd :
  io_post any_answer (fun _ out => error_matches_status out.1)
    (StackOverflow.check u c hd).
Proof. unfold StackOverflow.check, error_matches_status. io_go; io_done. Qed.

Lemma goodreads_error_matches u c hd :
  io_post any_answer (fun _ out => error_matches_status out.1)
    (Goodreads.check u c hd).
Proof. unfold Goodreads.check, error_matches_status. io_go; io_done. Qed.

Lemma goyimtv_error_matches u c hd :
  io_post any_answer (fun _ out => error_matches_status out.1)
    (GoyimTV.check u c hd).
Proof.
  unfold GoyimTV.check, GoyimTV.on_exception, error_matches_status.
  io_go; simpl; try (split; [done | done]).
  all: match goal with
       | H : GoyimTV.verdict _ _ = Ok _ |- _ =>
           apply goyimtv_verdict_status in H as [-> | ->]
       end; split; intros; intuition congruence.
Qed.

Lemma breachvip_error_matches u c hd :
  io_post any_answer
    (fun _ out => whenever out (fun out => error_matches_status out.1))
    (BreachVIP.check u c hd).
Proof.
  unfold BreachVIP.check, BreachVIP.respond, error_matches_status.
  io_go; io_done.
Qed.

Lemma snusbase_error_matches key u c hd :
  io_post any_answer
    (fun _ out => whenever out (fun out => error_matches_status out.1))
    (Snusbase.check key u c hd).
Proof.
  unfold Snusbase.check, Snusbase.respond, Snusbase.get_api_key,
    error_matches_status.
  io_go; io_done.
Qed.


(** ** The claims about the probes *)

(** C6, as the code has it.  Of a response with status 403, 429 or 503:
    BreachVIP reports BLOCKED for each of the three; LeakCheck and Snusbase
    report BLOCKED for 429 and 503; HIBP reports BLOCKED when one of its two
    lookups answers 429 and neither answers 200.  StackOverflow, Goodreads
    and GoyimTV read their status off the page and never report BLOCKED,
    and Discord sends no request.  (BreachVIP, LeakCheck and Snusbase may
    raise before they send anything; once the request is out they return.) *)
Theorem blocked_by_probe {W} (h : handler W) (w : W) (key : option string)
    (u : string) (c : client) (hd : headers) :
  let verdict (p : io (ProviderResult * headers)) := status (run h p w).1.1.1 in
  let sent (p : io (ProviderResult * headers)) := (run h p w).2 <> [] in
  let blocked_once_sent (p : io (result (ProviderResult * headers))) :=
    (run h p w).2 <> [] ->
    returns (run h p w).1.1 (fun out => status out.1 = BLOCKED) in
  let all_respond (code : Z) :=
    answers h (responses (fun r => status_code r = code) (fun _ _ => True)) in
  (forall code, code = 403 \/ code = 429 \/ code = 503 -> all_respond code ->
     blocked_once_sent (BreachVIP.check u c hd)) /\
  (forall code, code = 429 \/ code = 503 -> all_respond code ->
     blocked_once_sent (LeakCheck.check key u c hd)) /\
  (forall code, code = 429 \/ code = 503 -> all_respond code ->
     blocked_once_sent (Snusbase.check key u c hd)) /\
  (answers h
     (responses (fun _ => True)
        (fun b p => (status_code b = 429 \/ status_code p = 429)
                    /\ status_code b <> 200 /\ status_code p <> 200)) ->
   sent (HIBP.check key u c hd) -> verdict (HIBP.check key u c hd) = BLOCKED) /\
  verdict (StackOverflow.check u c hd) <> BLOCKED /\
  verdict (Goodreads.check u c hd) <> BLOCKED /\
  verdict (GoyimTV.check u c hd) <> BLOCKED /\
  verdict (Discord.check u c hd) <> BLOCKED /\
  (run h (Discord.check u c hd) w).2 = [].
Proof.
  cbv zeta. repeat split.
  - intros code Hcode Hh.
    exact (io_post_run h _ _ _ w Hh (breachvip_blocked code u c hd Hcode)).
  - intros code Hcode Hh.
    exact (io_post_run h _ _ _ w Hh (leakcheck_blocked code key u c hd Hcode)).
  - intros code Hcode Hh.
    exact (io_post_run h _ _ _ w Hh (snusbase_blocked code key u c hd Hcode)).
  - intros Hh. exact (io_post_run h _ _ _ w Hh (hibp_blocked key u c hd)).
  - exact (io_post_run h _ _ _ w (answers_any h) (stackoverflow_never_blocked u c hd)).
  - exact (io_post_run h _ _ _ w (answers_any h) (goodreads_never_blocked u c hd)).
  - exact (io_post_run h _ _ _ w (answers_any h) (goyimtv_never_blocked u c hd)).
  - exact (io_post_run h _ _ _ w (answers_any h) (discord_never_blocked u c hd)).
  - apply no_http_run. unfold Discord.check; simpl.
    split; [reflexivity | intros ts]. destruct (negb _); exact I.
Qed.

Lemma quiet_world_answers code setting :
  answers (Sample.quiet_world (Sample.page code "") setting)
    (responses (fun r => status_code r = code) (fun _ _ => True)).
Proof. intros X e w. destruct e; simpl; eauto. Qed.

(** BreachVIP, rate limited. *)
Lemma blocked_by_probe_witness :
  let out :=
    Sample.probe (Sample.page 429 "") None
      (BreachVIP.check "alice" ClientDirect ∅) in
  out.2 <> [] /\ returns out.1 (fun out => status out.1 = BLOCKED).
Proof.
  cbv zeta. split; [vm_compute; discriminate |].
  refine (proj1 (blocked_by_probe (Sample.quiet_world (Sample.page 429 "") None)
                   tt None "alice" ClientDirect ∅) 429 _ _ _).
  - right. left. reflexivity.
  - apply quiet_world_answers.
  - vm_compute. discriminate.
Defined.

(** LeakCheck, with a key and a search term, answered 403: the request goes
    out and the result is UNKNOWN. *)
Lemma leakcheck_403_not_blocked :
  let out :=
    Sample.probe (Sample.page 403 "") None
      (LeakCheck.check (Some "k") "alice" ClientDirect ∅) in
  length out.2 = 1%nat /\
  returns out.1
    (fun out =>
       http_status out.1 = Some 403 /\
       status out.1 = UNKNOWN /\
       status out.1 <> BLOCKED).
Proof. vm_compute. repeat split; discriminate. Qed.

(** C7, at the input on which the code breaks it.  HIBP, with a key and a
    well-formed address, both lookups answered 403: the result is UNKNOWN
    and carries no error. *)
Theorem hibp_unknown_without_error :
  let out :=
    Sample.probe (Sample.page 403 "") None
      (HIBP.check (Some "k") "a@b.co" ClientDirect ∅) in
  length out.2 = 2%nat /\
  status out.1.1 = UNKNOWN /\
  error out.1.1 = VNone /\
  ~ error_matches_status out.1.1.
Proof.
  vm_compute. repeat split; try discriminate.
  intros [H _]. apply H; auto.
Qed.

(** LeakCheck, told [success: false] with a null [message]: the result is
    ERROR and its error is the null. *)
Lemma leakcheck_error_null_message :
  let body :=
    {| status_code := 200;
       text := "{...}";
       json := Ok (VDict [("success", VBool false); ("message", VNone)]);
       resp_url := "https://leakcheck.io/api/v2/query/alice";
       resp_url_path := "/api/v2/query/alice";
       html := {| anchors := []; title := None |} |} in
  let out :=
    Sample.probe body None (LeakCheck.check (Some "k") "alice" ClientDirect ∅) in
  returns out.1 (fun out => status out.1 = ERROR /\ error out.1 = VNone).
Proof. vm_compute. split; reflexivity. Qed.

(** C8, at the input on which the code breaks it.  StackOverflow, asked
    for "user123" and answered 200: the result names "123". *)
Theorem stackoverflow_username_is_clean_id :
  let out :=
    Sample.probe (Sample.page 200 "Reputation and Profile") None
      (StackOverflow.check "user123" ClientDirect ∅) in
  length out.2 = 1%nat /\
  status out.1.1 = FOUND /\
  username out.1.1 = "123" /\
  username out.1.1 <> "user123".
Proof. vm_compute. repeat split; discriminate. Qed.

(** C9, at the input on which the code breaks it.  GoyimTV, given a mapping
    with one header: after the call the mapping holds nine. *)
Theorem goyimtv_writes_caller_headers :
  let hd : headers := {[ "User-Agent" := "Mozilla/5.0" ]} in
  let out :=
    Sample.probe (Sample.page 200 "") None (GoyimTV.check "alice" ClientDirect hd) in
  hd !! "Referer" = None /\
  out.1.2 !! "Referer" = Some "https://goyimtv.st/" /\
  size hd = 1%nat /\
  size out.1.2 = 9%nat /\
  out.1.2 <> hd.
Proof.
  cbv zeta. repeat split; try (vm_compute; reflexivity).
  intros Heq.
  assert (H : ({[ "User-Agent" := "Mozilla/5.0" ]} : headers) !! "Referer"
              = Some "https://goyimtv.st/").
  { rewrite <- Heq. vm_compute. reflexivity. }
  vm_compute in H. discriminate.
Qed.

(** Every probe but GoyimTV leaves the mapping it is given as it was; every
    probe but StackOverflow returns the identifier as it was. *)
Lemma probes_frame {W} (h : handler W) (w : W) (key : option string)
    (u : string) (c : client) (hd : headers) :
  let after (p : io (ProviderResult * headers)) := (run h p w).1.1.2 in
  let echoed (p : io (ProviderResult * headers)) := username (run h p w).1.1.1 in
  let framed (p : io (result (ProviderResult * headers))) :=
    whenever (run h p w).1.1 (fun out => out.2 = hd /\ username out.1 = u) in
  (after (Discord.check u c hd) = hd /\ echoed (Discord.check u c hd) = u) /\
  (after (Goodreads.check u c hd) = hd /\ echoed (Goodreads.check u c hd) = u) /\
  (after (HIBP.check key u c hd) = hd /\ echoed (HIBP.check key u c hd) = u) /\
  framed (LeakCheck.check key u c hd) /\
  framed (BreachVIP.check u c hd) /\
  framed (Snusbase.check key u c hd) /\
  (after (GoyimTV.check u c hd) = GoyimTV.browser_headers hd /\
   echoed (GoyimTV.check u c hd) = u) /\
  after (StackOverflow.check u c hd) = hd.
Proof.
  cbv zeta.
  pose proof (io_post_run h _ _ _ w (answers_any h) (discord_echo u c hd)).
  pose proof (io_post_run h _ _ _ w (answers_any h) (goodreads_echo u c hd)).
  pose proof (io_post_run h _ _ _ w (answers_any h) (hibp_echo key u c hd)).
  pose proof (io_post_run h _ _ _ w (answers_any h) (leakcheck_echo key u c hd)).
  pose proof (io_post_run h _ _ _ w (answers_any h) (breachvip_echo u c hd)).
  pose proof (io_post_run h _ _ _ w (answers_any h) (snusbase_echo key u c hd)).
  pose proof (io_post_run h _ _ _ w (answers_any h) (goyimtv_echo u c hd)).
  assert (Hso : io_post any_answer (fun _ out => out.2 = hd)
                  (StackOverflow.check u c hd)).
  { unfold StackOverflow.check. io_go; io_done. }
  pose proof (io_post_run h _ _ _ w (answers_any h) Hso).
  simpl in *.
  repeat match goal with
         | H : whenever ?x _ |- _ => destruct x; simpl in H
         end;
    simpl; intuition.
Qed.


(** ** The claims about the engine, on the sample catalogue *)


(** A proxy URL httpx refuses ends the scan before any probe is asked. *)
Lemma proxy_failure_propagates :
  Sample.scan (Sample.engine [("discord", Sample.discord)])
    Fixture.bad_proxy_env "bob" [0%nat] None None
  = Engine.Raises
      (Exception "ValueError" "Unknown scheme for proxy URL URL('x')").
Proof. vm_compute. reflexivity. Qed.



(** Three probes finishing in the order Beta, zeta, alpha, and an addon that
    appends a record: the list comes back by lower-cased provider name. *)
Lemma scan_sorted_by_provider_witness :
  exists results,
    Sample.scan
      (Sample.engine [("zeta", Sample.stub "Zeta" (Some 5));
                      ("alpha", Sample.stub "alpha" None);
                      ("Beta", Sample.stub "Beta" (Some 40))])
      Sample.env "bob" [2%nat; 0%nat; 1%nat] None (Some [Sample.appending])
    = Engine.Returns results /\
    map provider results = ["alpha"; "Beta"; "inferred"; "Zeta"] /\
    StronglySorted (key_le (fun r => PyStr.lower (provider r))) results.
Proof.
  eexists. split; [vm_compute; reflexivity |]. split; [reflexivity |].
  eapply (scan_sorted_by_provider Sample.UA_PROFILES Sample.censor_value
            Sample.censor_breach_data Sample.utcnow_iso
            (Sample.engine [("zeta", Sample.stub "Zeta" (Some 5));
                            ("alpha", Sample.stub "alpha" None);
                            ("Beta", Sample.stub "Beta" (Some 40))])
            Sample.env "bob" None [2%nat; 0%nat; 1%nat] None
            (Some [Sample.appending])).
  vm_compute. reflexivity.
Defined.

(** The filter lists b before a, the registry a before b: the names come
    out in the order of the filter. *)
Lemma filter_order_not_registry_order :
  let E := Sample.engine [("a", Sample.stub "a" (Some 5));
                          ("b", Sample.stub "b" (Some 5))] in
  Engine.choose E (Some ["b"; "a"]) = ["b"; "a"] /\
  registry_order_intersection E (Some ["b"; "a"]) = ["a"; "b"] /\
  Engine.choose E (Some ["b"; "a"])
  <> registry_order_intersection E (Some ["b"; "a"]).
Proof. vm_compute. repeat split; discriminate. Qed.

(** The scenario of the specification: registry p1, filter p1 and ghost. *)
Lemma working_set_in_filter_order_witness :
  let E := Sample.engine [("p1", Sample.stub "p1" (Some 5))] in
  Engine.choose E (Some ["p1"; "ghost"]) = ["p1"] /\
  exists results,
    Sample.scan E Sample.env "bob" [0%nat] (Some ["p1"; "ghost"]) None
    = Engine.Returns results /\
    map provider results = ["p1"].
Proof.
  cbv zeta. split.
  - rewrite (proj1 (proj1 (working_set_in_filter_order Sample.UA_PROFILES
                             Sample.censor_value Sample.censor_breach_data
                             Sample.utcnow_iso
                             (Sample.engine [("p1", Sample.stub "p1" (Some 5))])
                             Sample.env "bob" None (Some ["p1"; "ghost"]))
                      ["p1"; "ghost"] eq_refl ltac:(discriminate))).
    vm_compute. reflexivity.
  - eexists. split; vm_compute; reflexivity.
Defined.

(** The scenario of the specification: the Tor proxy is set and the URL is
    a hidden service. *)
Lemma client_selection_witness :
  Engine.d_client (Sample.dispatch Sample.tor_env "bob" Sample.onion "onion")
  = ClientTor "socks5h://127.0.0.1:9050".
Proof.
  refine (proj1 (client_selection Sample.UA_PROFILES Sample.censor_value
                   Sample.censor_breach_data Sample.utcnow_iso Sample.tor_env
                   "bob" None Sample.onion "onion") _ _ _); reflexivity.
Defined.


(** An invite code followed by a no-break space (U+00A0): [strip] removes
    the blank, and what is left matches the invite pattern. *)
Lemma discord_check_verdict_witness :
  let u := "ab" +:+ String (ascii_of_N 160) "" in
  let out :=
    Sample.probe (Sample.page 200 "") None (Discord.check u ClientDirect ∅) in
  PyStr.strip u = "ab" /\ out.2 = [] /\ status out.1.1 = UNKNOWN.
Proof.
  cbv zeta. split; [vm_compute; reflexivity |].
  destruct (discord_check_verdict
              (Sample.quiet_world (Sample.page 200 "") None) tt
              ("ab" +:+ String (ascii_of_N 160) "") ClientDirect ∅)
    as (Hlog & _ & _ & _ & _ & Hunknown & _).
  split; [exact Hlog |]. apply Hunknown. intros [_ Hinvite]. apply Hinvite.
  vm_compute. repeat split; discriminate.
Defined.
(** * Further properties of the code *)

(** ** engine.py *)

Section SortedStable.
Context {A : Type} (key : A -> string).

Lemma leb_refl_key (x : A) : String.leb (key x) (key x) = true.
Proof.
  destruct (String.leb_total (key x) (key x)); assumption.
Qed.

Lemma insert_sorted_keeps_class (k : string) x l :
  List.filter (fun y => String.eqb (key y) k) (Engine.insert_sorted key x l)
  = List.filter (fun y => String.eqb (key y) k) (x :: l).
Proof.
  induction l as [| y l IH]; [reflexivity |].
  cbn [Engine.insert_sorted].
  destruct (String.leb (key x) (key y)) eqn:Hxy; [reflexivity |].
  cbn [List.filter] in *. rewrite IH.
  destruct (String.eqb (key x) k) eqn:Hx; [| reflexivity].
  destruct (String.eqb (key y) k) eqn:Hy; [| reflexivity].
  apply String.eqb_eq in Hx, Hy. rewrite Hx, <- Hy in Hxy.
  rewrite leb_refl_key in Hxy. discriminate.
Qed.

(** The final [sorted(results, key=...)] is a stable sort: it returns the
    same results, each as often as before, and the results that share a key
    stay in the order they had. *)
Theorem sorted_is_stable (l : list A) :
  Engine.sorted l key ≡ₚ l /\
  length (Engine.sorted l key) = length l /\
  forall k,
    List.filter (fun y => String.eqb (key y) k) (Engine.sorted l key)
    = List.filter (fun y => String.eqb (key y) k) l.
Proof.
  split; [apply sorted_perm |]. split; [by rewrite sorted_perm |].
  intros k. unfold Engine.sorted.
  induction l as [| x l IH]; [reflexivity |].
  cbn [foldr]. rewrite insert_sorted_keeps_class. cbn [List.filter].
  by rewrite IH.
Qed.

End SortedStable.

Lemma gather_raises {A} completion (outs : list (result A)) e :
  Raise e ∈ outs -> exists e', Engine.gather completion outs = Raise e'.
Proof.
  intros Hin. unfold Engine.gather.
  destruct (Engine.first_raised _) eqn:Hfr; [eauto |].
  apply first_raised_None, Forall_app in Hfr as [_ Hall].
  rewrite Forall_forall in Hall. destruct (Hall _ Hin) as [a Ha]. discriminate.
Qed.

Lemma gather_any_order {A} c1 c2 (outs : list (result A)) rs :
  Engine.gather c1 outs = Ok rs -> Engine.gather c2 outs = Ok rs.
Proof.
  intros H1. pose proof (gather_Ok _ _ _ H1) as Hall.
  destruct (gather_all_Ok c2 outs) as [rs' H2].
  { clear -Hall. induction Hall; constructor; eauto. }
  rewrite H2. f_equal. apply gather_Ok in H2.
  clear -Hall H2. revert rs' H2.
  induction Hall as [| o r outs rs Ho _ IH]; intros rs' H2;
    inversion H2; subst; [done |].
  f_equal; [congruence | by apply IH].
Qed.

Lemma censor_keys_profile cv cbd (p : pydict) :
  map fst (Engine.censor_profile cv cbd p) = map fst p.
Proof.
  unfold Engine.censor_profile. destruct p as [| kv p]; [done |].
  rewrite map_map. reflexivity.
Qed.

Lemma censor_keys_evidence cv (p : pydict) :
  map fst (Engine.censor_evidence cv p) = map fst p.
Proof.
  unfold Engine.censor_evidence. destruct p as [| kv p]; [done |].
  rewrite map_map. reflexivity.
Qed.

Section EngineFurther.

Variable UA_PROFILES : gmap string headers.
Variable censor_value : pyval -> string -> pyval.
Variable censor_breach_data : list pyval -> pyval.
Variable utcnow_iso : string -> string.
Variable E : Engine.SocialHuntEngine.
Variable env : Engine.Env.
Variable identifier : string.
Variable progress_callback : option (ProviderResult -> option exn).

Local Abbreviation dispatch :=
  (Engine.dispatch UA_PROFILES censor_value censor_breach_data utcnow_iso env
     identifier progress_callback).
Local Abbreviation run_one :=
  (Engine.run_one UA_PROFILES censor_value censor_breach_data utcnow_iso E env
     identifier progress_callback).
Local Abbreviation scan_username :=
  (Engine.scan_username UA_PROFILES censor_value censor_breach_data utcnow_iso
     E env identifier progress_callback).

(** A probe that answers in time: the engine hands on what [check] returned.
    Outside demo mode the result is untouched; in demo mode only the values
    inside [evidence] and [profile] change, their keys and every other field
    (the status among them) stay.  That result, redacted in demo mode, is
    the one the progress callback is called with, and the one the task
    returns when the callback returns or when there is none; what the
    callback raises leaves the task. *)
Theorem result_in_time_is_passed_on (prov : Engine.BaseProvider) (key : string)
    (t : Z) (r : ProviderResult) :
  let d := dispatch prov key in
  let c := Engine.check prov identifier (Engine.d_client d) (Engine.d_headers d) in
  Engine.finishes_after c = Some t ->
  t <= (Engine.timeout prov + 5) * 1000 ->
  0 < Engine.timeout prov + 5 ->
  Engine.outcome c = Ok r ->
  exists res,
    Engine.d_emitted d = Ok res /\
    same_but_redacted r res /\
    (Engine.demo_mode env = false -> res = r) /\
    (Engine.demo_mode env = true -> res = Engine.censor censor_value censor_breach_data r) /\
    (progress_callback = None -> Engine.d_result d = Ok res) /\
    (forall callback,
       progress_callback = Some callback ->
       Engine.d_result d
       = match callback res with
         | Some e => Raise e
         | None => Ok res
         end).
Proof.
  intros d c Hfin Ht Hpos Hout.
  assert (Hw : Engine.wait_for c (Engine.timeout prov + 5) = Ok r).
  { unfold Engine.wait_for. rewrite Hfin.
    destruct (Z.ltb_spec 0 (Engine.timeout prov + 5)); [| lia].
    destruct (Z.leb_spec t ((Engine.timeout prov + 5) * 1000)); [| lia].
    exact Hout. }
  subst d. unfold Engine.dispatch in *.
  cbn [Engine.d_emitted Engine.d_result Engine.d_client Engine.d_headers] in *.
  subst c. rewrite Hw. cbn.
  destruct (Engine.demo_mode env).
  - eexists. split; [reflexivity |]. split; [| split; [discriminate |]].
    + unfold same_but_redacted. cbn.
      rewrite censor_keys_evidence, censor_keys_profile. repeat split.
    + split; [reflexivity |]. split; [by intros -> | by intros callback ->].
  - exists r. split; [reflexivity |]. split; [| split; [done |]].
    + unfold same_but_redacted. repeat split.
    + split; [discriminate |]. split; [by intros -> | by intros callback ->].
Qed.

(** The engine catches the timeout of a probe and nothing else: when the
    [check] of a chosen probe raises another exception in time,
    [scan_username] ends with an exception. *)
Theorem probe_exception_ends_scan (completion : list nat)
    (providers : option (list string))
    (dynamic_addons : option (list Engine.BaseAddon))
    (key : string) (prov : Engine.BaseProvider) (t : Z) (cls msg : string) :
  0 < Engine.max_concurrency E ->
  key ∈ Engine.choose E providers ->
  Engine.lookup key (Engine.registry E) = Some prov ->
  (forall c hd,
     Engine.finishes_after (Engine.check prov identifier c hd) = Some t /\
     Engine.outcome (Engine.check prov identifier c hd)
     = Raise (Exception cls msg)) ->
  0 < Engine.timeout prov + 5 ->
  t <= (Engine.timeout prov + 5) * 1000 ->
  exists e, scan_username completion providers dynamic_addons = Engine.Raises e.
Proof.
  intros Hmc Hkey Hprov Hcheck Hpos Ht.
  assert (Hone : run_one key = Raise (Exception cls msg)).
  { rewrite (run_one_dispatch UA_PROFILES censor_value censor_breach_data
               utcnow_iso E env identifier progress_callback _ _ Hprov).
    unfold Engine.dispatch. cbn [Engine.d_result].
    match goal with
    | |- context [Engine.wait_for (Engine.check prov identifier ?c ?hd) _] =>
        destruct (Hcheck c hd) as [Hfin Hout];
        assert (Hw : Engine.wait_for (Engine.check prov identifier c hd)
                       (Engine.timeout prov + 5) = Raise (Exception cls msg))
    end.
    { unfold Engine.wait_for. rewrite Hfin.
      destruct (Z.ltb_spec 0 (Engine.timeout prov + 5)); [| lia].
      destruct (Z.leb_spec t ((Engine.timeout prov + 5) * 1000)); [| lia].
      exact Hout. }
    rewrite Hw. reflexivity. }
  unfold Engine.scan_username.
  destruct (Z.ltb_spec (Engine.max_concurrency E) 0) as [? | _]; [lia |].
  destruct (Engine.enter_clients env); [| eauto].
  destruct (gather_raises completion (map run_one (Engine.choose E providers))
              (Exception cls msg)) as [e' Hg].
  { rewrite <- Hone. by apply list_elem_of_fmap_2. }
  destruct (Engine.choose E providers) as [| k ks]; [by apply elem_of_nil in Hkey |].
  destruct (Engine.max_concurrency E); [lia | | lia].
  rewrite Hg. eauto.
Qed.

(** The engine does not shield the scan from the progress callback: with at
    least one probe chosen, a callback that raises ends [scan_username] with
    an exception. *)
Theorem callback_exception_ends_scan (completion : list nat)
    (providers : option (list string))
    (dynamic_addons : option (list Engine.BaseAddon))
    (callback : ProviderResult -> option exn) :
  0 < Engine.max_concurrency E ->
  Engine.choose E providers <> [] ->
  progress_callback = Some callback ->
  (forall r, exists e, callback r = Some e) ->
  exists e, scan_username completion providers dynamic_addons = Engine.Raises e.
Proof.
  intros Hmc Hne Hcb Hraise.
  destruct (Engine.choose E providers) as [| key ks] eqn:Hch; [done |].
  assert (Hkey : key ∈ Engine.choose E providers) by (rewrite Hch; left).
  apply choose_has_key, has_key_lookup in Hkey as [prov Hprov].
  assert (Hone : exists e, run_one key = Raise e).
  { rewrite (run_one_dispatch UA_PROFILES censor_value censor_breach_data
               utcnow_iso E env identifier progress_callback _ _ Hprov).
    unfold Engine.dispatch. cbn [Engine.d_result]. rewrite Hcb.
    destruct (Engine.wait_for _ _) as [res | [m | cls msg]]; cbn;
      try match goal with
          | |- context [callback ?x] => destruct (Hraise x) as [e ->]
          end.
    all: eauto. }
  destruct Hone as [e Hone].
  unfold Engine.scan_username.
  destruct (Z.ltb_spec (Engine.max_concurrency E) 0) as [? | _]; [lia |].
  destruct (Engine.enter_clients env); [| eauto].
  rewrite Hch.
  destruct (gather_raises completion (map run_one (key :: ks)) e) as [e' Hg].
  { rewrite <- Hone. apply list_elem_of_fmap_2. left. }
  destruct (Engine.max_concurrency E); [lia | | lia].
  rewrite Hg. eauto.
  Unshelve. all: first [exact utcnow_iso | exact identifier].
Qed.

(** What [scan_username] returns does not depend on the order in which the
    probe tasks complete. *)
Theorem returned_list_ignores_completion_order (c1 c2 : list nat)
    (providers : option (list string))
    (dynamic_addons : option (list Engine.BaseAddon))
    (results : list ProviderResult) :
  scan_username c1 providers dynamic_addons = Engine.Returns results ->
  scan_username c2 providers dynamic_addons = Engine.Returns results.
Proof.
  unfold Engine.scan_username.
  destruct (Engine.max_concurrency E <? 0); [done |].
  destruct (Engine.enter_clients env); [| done].
  assert (Hg : forall rs,
            Engine.gather c1 (map run_one (Engine.choose E providers)) = Ok rs ->
            Engine.gather c2 (map run_one (Engine.choose E providers)) = Ok rs)
    by (intros rs; apply gather_any_order).
  destruct (Engine.choose E providers), (Engine.max_concurrency E);
    try done;
    destruct (Engine.gather c1 _) as [rs |]; try done;
    rewrite (Hg rs eq_refl); done.
Qed.

End EngineFurther.

Lemma result_in_time_is_passed_on_witness :
  exists res,
    Engine.d_emitted
      (Sample.dispatch Sample.tor_env "alice" (Fixture.leaky "leaky") "leaky")
    = Ok res /\
    same_but_redacted (Fixture.leak "leaky" "alice") res.
Proof.
  destruct (result_in_time_is_passed_on Sample.UA_PROFILES Sample.censor_value
              Sample.censor_breach_data Sample.utcnow_iso Sample.tor_env
              "alice" None (Fixture.leaky "leaky") "leaky" 7
              (Fixture.leak "leaky" "alice"))
    as (res & Hres & Hsame & _);
    [reflexivity | cbn; lia | cbn; lia | reflexivity |].
  exists res. split; [exact Hres | exact Hsame].
Defined.

Lemma probe_exception_ends_scan_witness :
  exists e,
    Sample.scan
      (Sample.engine
         [("steady", Sample.stub "steady" (Some 5));
          ("broken", Fixture.broken "broken" 3 (Exception "KeyError" "id"))])
      Sample.env "alice" [0; 1]%nat None None
    = Engine.Raises e.
Proof.
  apply (probe_exception_ends_scan Sample.UA_PROFILES Sample.censor_value
           Sample.censor_breach_data Sample.utcnow_iso _ Sample.env "alice"
           None [0; 1]%nat None None "broken"
           (Fixture.broken "broken" 3 (Exception "KeyError" "id")) 3
           "KeyError" "id").
  - cbn. lia.
  - compute_done.
  - reflexivity.
  - intros c hd. split; reflexivity.
  - cbn. lia.
  - cbn. lia.
Defined.

Lemma callback_exception_ends_scan_witness :
  exists e,
    Fixture.scan_with (Some Fixture.angry_callback)
      (Sample.engine [("steady", Sample.stub "steady" (Some 5))])
      Sample.env "alice" [0]%nat None None
    = Engine.Raises e.
Proof.
  apply (callback_exception_ends_scan Sample.UA_PROFILES Sample.censor_value
           Sample.censor_breach_data Sample.utcnow_iso _ Sample.env "alice"
           (Some Fixture.angry_callback) [0]%nat None None
           Fixture.angry_callback).
  - cbn. lia.
  - discriminate.
  - reflexivity.
  - intros r. eexists. reflexivity.
Defined.

Lemma returned_list_ignores_completion_order_witness :
  Sample.scan
    (Sample.engine
       [("zeta", Sample.stub "zeta" (Some 5));
        ("alpha", Sample.stub "alpha" (Some 9))])
    Sample.env "alice" [1; 0]%nat None None
  = Engine.Returns [Sample.hit "alpha" "alice"; Sample.hit "zeta" "alice"].
Proof.
  apply (returned_list_ignores_completion_order Sample.UA_PROFILES
           Sample.censor_value Sample.censor_breach_data Sample.utcnow_iso _
           Sample.env "alice" None [0; 1]%nat [1; 0]%nat None None).
  vm_compute. reflexivity.
Defined.

(** ** The probes: credentials and blank input *)

Ltac io_done' := io_done; try congruence.

Lemma leakcheck_skips key u c hd :
  nonempty key = None ->
  io_post (replies anything anything (fun s => nonempty s = None))
    (fun log out =>
       log = [] /\
       returns out
         (fun out =>
            out.2 = hd /\ username out.1 = u /\
            status out.1 = UNKNOWN /\ http_status out.1 = None /\
            elapsed_ms out.1 = 0 /\
            exists msg, error out.1 = VStr msg
                        /\ PyStr.prefixb "Skipped:" msg = true))
    (LeakCheck.check key u c hd).
Proof.
  intros Hkey. unfold LeakCheck.check, LeakCheck.get_api_key. rewrite Hkey.
  io_go; try (simpl in *; congruence).
  simpl. repeat split. eexists. split; reflexivity.
Qed.

Lemma snusbase_skips key u c hd :
  nonempty key = None ->
  io_post (replies anything anything (fun s => nonempty s = None))
    (fun log out =>
       log = [] /\
       returns out
         (fun out =>
            out.2 = hd /\ username out.1 = u /\
            status out.1 = UNKNOWN /\ http_status out.1 = None /\
            elapsed_ms out.1 = 0 /\
            exists msg, error out.1 = VStr msg
                        /\ PyStr.prefixb "Skipped:" msg = true))
    (Snusbase.check key u c hd).
Proof.
  intros Hkey. unfold Snusbase.check, Snusbase.get_api_key. rewrite Hkey.
  io_go; try (simpl in *; congruence).
  simpl. repeat split. eexists. split; reflexivity.
Qed.

Lemma hibp_skips key u c hd :
  nonempty key = None ->
  io_post (replies anything anything (fun s => nonempty s = None))
    (fun log out =>
       log = [] /\ out.2 = hd /\ username out.1 = u /\
       status out.1 = UNKNOWN /\ http_status out.1 = None /\
       elapsed_ms out.1 = 0 /\
       exists msg, error out.1 = VStr msg /\ PyStr.prefixb "Skipped:" msg = true)
    (HIBP.check key u c hd).
Proof.
  intros Hkey. unfold HIBP.check. rewrite Hkey.
  io_go. simpl. repeat split. eexists. split; reflexivity.
Qed.

(** A probe that needs an API key and finds none, neither from its
    constructor nor in the settings file, sends no request: it returns
    UNKNOWN with an error that starts with "Skipped:", no HTTP status and
    no elapsed time. *)
Theorem missing_key_is_skipped {W} (h : handler W) (w : W)
    (key : option string) (u : string) (c : client) (hd : headers) :
  nonempty key = None ->
  answers h (replies anything anything (fun s => nonempty s = None)) ->
  let skipped (out : ProviderResult * headers) :=
    out.2 = hd /\ username out.1 = u /\
    status out.1 = UNKNOWN /\ http_status out.1 = None /\
    elapsed_ms out.1 = 0 /\
    exists msg, error out.1 = VStr msg /\ PyStr.prefixb "Skipped:" msg = true in
  let hibp := run h (HIBP.check key u c hd) w in
  let lc := run h (LeakCheck.check key u c hd) w in
  let sb := run h (Snusbase.check key u c hd) w in
  (hibp.2 = [] /\ skipped hibp.1.1) /\
  (lc.2 = [] /\ returns lc.1.1 skipped) /\
  (sb.2 = [] /\ returns sb.1.1 skipped).
Proof.
  intros Hkey Hh. cbv zeta. split; [| split].
  - exact (io_post_run h _ _ _ w Hh (hibp_skips key u c hd Hkey)).
  - exact (io_post_run h _ _ _ w Hh (leakcheck_skips key u c hd Hkey)).
  - exact (io_post_run h _ _ _ w Hh (snusbase_skips key u c hd Hkey)).
Qed.

Lemma quiet_world_no_setting resp :
  answers (Sample.quiet_world resp None)
    (replies anything anything (fun s => nonempty s = None)).
Proof. intros X e w. destruct e; simpl; done. Qed.

Lemma missing_key_is_skipped_witness :
  let out :=
    Sample.probe (Sample.page 200 "") None
      (LeakCheck.check None "alice" ClientDirect ∅) in
  out.2 = [] /\
  returns out.1
    (fun out =>
       status out.1 = UNKNOWN /\
       error out.1
       = VStr "Skipped: LeakCheck API key not set in Settings (leakcheck_api_key).").
Proof.
  pose proof (missing_key_is_skipped (Sample.quiet_world (Sample.page 200 "") None)
                tt None "alice" ClientDirect ∅ eq_refl
                (quiet_world_no_setting _)) as H.
  cbv zeta in *. destruct H as (_ & (Hlog & _) & _).
  split; [exact Hlog |]. vm_compute. split; reflexivity.
Defined.

Lemma nonempty_idem key k : nonempty key = Some k -> nonempty (Some k) = Some k.
Proof.
  intros [-> Hk]%nonempty_Some. apply nonempty_Some. done.
Qed.

Lemma leakcheck_blank key k u c hd :
  nonempty key = Some k -> PyStr.strip u = "" ->
  io_post any_answer
    (fun log out =>
       log = [] /\
       returns out
         (fun out =>
            out.2 = hd /\ username out.1 = u /\ status out.1 = ERROR /\
            http_status out.1 = None /\ elapsed_ms out.1 = 0 /\
            error out.1 = VStr "Empty input."))
    (LeakCheck.check key u c hd).
Proof.
  intros Hkey Hu. unfold LeakCheck.check, LeakCheck.get_api_key.
  rewrite Hkey, Hu. pose proof (nonempty_idem _ _ Hkey) as Hk.
  io_go; try congruence; try (simpl in *; congruence); simpl; repeat split.
Qed.

Lemma snusbase_blank key k u c hd :
  nonempty key = Some k -> PyStr.strip u = "" ->
  io_post any_answer
    (fun log out =>
       log = [] /\
       returns out
         (fun out =>
            out.2 = hd /\ username out.1 = u /\ status out.1 = ERROR /\
            http_status out.1 = None /\ elapsed_ms out.1 = 0 /\
            error out.1 = VStr "Empty input."))
    (Snusbase.check key u c hd).
Proof.
  intros Hkey Hu. unfold Snusbase.check, Snusbase.get_api_key.
  rewrite Hkey, Hu. pose proof (nonempty_idem _ _ Hkey) as Hk.
  io_go; try congruence; try (simpl in *; congruence); simpl; repeat split.
Qed.

Lemma breachvip_blank u c hd :
  PyStr.strip u = "" ->
  io_post any_answer
    (fun log out =>
       log = [] /\
       returns out
         (fun out =>
            out.2 = hd /\ username out.1 = u /\ status out.1 = ERROR /\
            http_status out.1 = None /\ elapsed_ms out.1 = 0 /\
            error out.1 = VStr "empty input"))
    (BreachVIP.check u c hd).
Proof.
  intros Hu. unfold BreachVIP.check. rewrite Hu.
  io_go; try (simpl in *; congruence); simpl; repeat split.
Qed.

(** An identifier that is empty once stripped is never sent anywhere: the
    three breach probes return ERROR ("Empty input.", and "empty input" for
    BreachVIP) without a request. *)
Theorem blank_identifier_is_rejected {W} (h : handler W) (w : W)
    (key : option string) (k u : string) (c : client) (hd : headers) :
  nonempty key = Some k ->
  PyStr.strip u = "" ->
  let rejected (msg : string) (out : ProviderResult * headers) :=
    status out.1 = ERROR /\ error out.1 = VStr msg /\
    http_status out.1 = None /\ username out.1 = u in
  let lc := run h (LeakCheck.check key u c hd) w in
  let sb := run h (Snusbase.check key u c hd) w in
  let bv := run h (BreachVIP.check u c hd) w in
  (lc.2 = [] /\ returns lc.1.1 (rejected "Empty input.")) /\
  (sb.2 = [] /\ returns sb.1.1 (rejected "Empty input.")) /\
  (bv.2 = [] /\ returns bv.1.1 (rejected "empty input")).
Proof.
  intros Hkey Hu.
  pose proof (io_post_run h _ _ _ w (answers_any h)
                (leakcheck_blank key k u c hd Hkey Hu)) as Hlc.
  pose proof (io_post_run h _ _ _ w (answers_any h)
                (snusbase_blank key k u c hd Hkey Hu)) as Hsb.
  pose proof (io_post_run h _ _ _ w (answers_any h)
                (breachvip_blank u c hd Hu)) as Hbv.
  cbv zeta. cbv beta in Hlc, Hsb, Hbv.
  split; [| split];
    [destruct Hlc as [Hl Hr] | destruct Hsb as [Hl Hr] | destruct Hbv as [Hl Hr]];
    (split; [exact Hl |]);
    match goal with
    | |- returns ?x _ => destruct x; simpl in *; [tauto | done]
    end.
Qed.

Lemma blank_identifier_is_rejected_witness :
  let out :=
    Sample.probe (Sample.page 200 "") None
      (BreachVIP.check "   " ClientDirect ∅) in
  out.2 = [] /\
  returns out.1
    (fun out => status out.1 = ERROR /\ error out.1 = VStr "empty input").
Proof.
  destruct (blank_identifier_is_rejected
              (Sample.quiet_world (Sample.page 200 "") None) tt (Some "k") "k"
              "   " ClientDirect ∅ eq_refl eq_refl)
    as (_ & _ & Hlog & _).
  split; [exact Hlog |]. vm_compute. split; reflexivity.
Defined.

(** ** The probes: what is sent *)

Lemma hibp_requests key k u c hd :
  nonempty key = Some k ->
  io_post any_answer
    (fun log out =>
       out.2 = hd /\
       (PyStr.has_char "*" u = true ->
        log = [] /\ status out.1 = ERROR /\
        error out.1 = VStr "HIBP does not support wildcard searches.") /\
       (PyStr.has_char "*" u = false -> HIBP.email_re u = false ->
        log = [] /\ status out.1 = NOT_FOUND /\
        error out.1 = VStr "Invalid format: HIBP requires an email address.") /\
       (PyStr.has_char "*" u = false -> HIBP.email_re u = true ->
        log =
        [http_get c ("https://haveibeenpwned.com/api/v3/breachedaccount/" +:+ u)
           15 (<["user-agent" := "Social-Hunt"]> (<["hibp-api-key" := k]> hd));
         http_get c ("https://haveibeenpwned.com/api/v3/pasteaccount/" +:+ u)
           15 (<["user-agent" := "Social-Hunt"]> (<["hibp-api-key" := k]> hd))]))
    (HIBP.check key u c hd).
Proof.
  intros Hkey. unfold HIBP.check. rewrite Hkey.
  cbn [io_post mbind io_mbind io_bind perform]. intros start _ ts _.
  destruct (PyStr.has_char "*" u) eqn:Hstar; [cbn; intuition congruence |].
  destruct (HIBP.email_re u) eqn:Hmail; [| cbn; intuition congruence].
  cbn [negb io_post requests_of]. intros both _.
  match goal with
  | |- io_post _ _ (match ?x with _ => _ end) => destruct x as [[[b p] [pr ev]] | e]
  end; io_go; cbn; intuition congruence.
Qed.

(** HIBP sends nothing for an identifier with a wildcard (ERROR) or one that
    is not shaped like an e-mail address (NOT_FOUND).  Otherwise it sends
    exactly two GETs through the client it was given, to the breached-account
    and the paste-account URL of the identifier, with the caller's headers
    plus [hibp-api-key] and [user-agent]; the caller's mapping is left as it
    was. *)
Theorem hibp_validates_then_asks_twice {W} (h : handler W) (w : W)
    (key : option string) (k u : string) (c : client) (hd : headers) :
  nonempty key = Some k ->
  let out := run h (HIBP.check key u c hd) w in
  let sent := <["user-agent" := "Social-Hunt"]> (<["hibp-api-key" := k]> hd) in
  out.1.1.2 = hd /\
  (PyStr.has_char "*" u = true ->
   out.2 = [] /\ status out.1.1.1 = ERROR /\
   error out.1.1.1 = VStr "HIBP does not support wildcard searches.") /\
  (PyStr.has_char "*" u = false -> HIBP.email_re u = false ->
   out.2 = [] /\ status out.1.1.1 = NOT_FOUND /\
   error out.1.1.1 = VStr "Invalid format: HIBP requires an email address.") /\
  (PyStr.has_char "*" u = false -> HIBP.email_re u = true ->
   out.2 =
   [http_get c ("https://haveibeenpwned.com/api/v3/breachedaccount/" +:+ u) 15 sent;
    http_get c ("https://haveibeenpwned.com/api/v3/pasteaccount/" +:+ u) 15 sent]) /\
  sent !! "hibp-api-key" = Some k /\
  sent !! "user-agent" = Some "Social-Hunt" /\
  (forall name, name <> "hibp-api-key" -> name <> "user-agent" ->
     sent !! name = hd !! name).
Proof.
  intros Hkey.
  destruct (io_post_run h _ _ _ w (answers_any h)
              (hibp_requests key k u c hd Hkey)) as (H1 & H2 & H3 & H4).
  cbv zeta.
  split; [exact H1 |]. split; [exact H2 |]. split; [exact H3 |].
  split; [exact H4 |]. split; [| split].
  - rewrite lookup_insert_ne by done. apply lookup_insert_eq.
  - apply lookup_insert_eq.
  - intros name Hn1 Hn2. by rewrite !lookup_insert_ne.
Qed.

Lemma hibp_validates_then_asks_twice_witness :
  let out :=
    Sample.probe (Sample.page 404 "") None
      (HIBP.check (Some "k") "a@b.co" ClientDirect ∅) in
  map req_url out.2 =
  ["https://haveibeenpwned.com/api/v3/breachedaccount/a@b.co";
   "https://haveibeenpwned.com/api/v3/pasteaccount/a@b.co"] /\
  status out.1.1 = NOT_FOUND.
Proof.
  destruct (hibp_validates_then_asks_twice
              (Sample.quiet_world (Sample.page 404 "") None) tt (Some "k") "k"
              "a@b.co" ClientDirect ∅ eq_refl)
    as (_ & _ & _ & Hlog & _).
  cbv zeta. unfold Sample.probe. cbn [fst snd].
  rewrite (Hlog eq_refl eq_refl). split; [reflexivity |].
  vm_compute. reflexivity.
Defined.

Lemma filter_idem p s : PyStr.filter p (PyStr.filter p s) = PyStr.filter p s.
Proof.
  induction s as [| a s IH]; [reflexivity |]. simpl.
  destruct (p a) eqn:Hp; [| exact IH]. simpl. rewrite Hp. by rewrite IH.
Qed.

Lemma stackoverflow_requests u c hd :
  io_post any_answer
    (fun log out =>
       (PyStr.filter PyStr.isdigit u = "" ->
        log = [] /\ status out.1 = NOT_FOUND /\ username out.1 = u /\
        url out.1 = "https://stackoverflow.com/" /\
        error out.1
        = VStr "Invalid format. Stack Overflow requires a numeric user ID.") /\
       (PyStr.filter PyStr.isdigit u <> "" ->
        log = [http_get c ("https://stackoverflow.com/users/"
                           +:+ PyStr.filter PyStr.isdigit u) 10 hd]) /\
       (status out.1 = FOUND -> http_status out.1 = Some 200) /\
       (status out.1 = ERROR -> http_status out.1 = None /\ error out.1 <> VNone))
    (StackOverflow.check u c hd).
Proof.
  unfold StackOverflow.check, StackOverflow.build_url.
  destruct (PyStr.filter PyStr.isdigit u) as [| d ds] eqn:Hd.
  - io_go; try (simpl in *; discriminate); cbn; intuition congruence.
  - io_go; try (simpl in *; discriminate); cbn;
      repeat split; try congruence; try done;
      destruct (status_code a =? 200) eqn:H200; cbn; try done;
      try (apply Z.eqb_eq in H200; by rewrite H200);
      intros; repeat case_match; congruence.
Qed.

(** StackOverflow looks at the digits of the identifier only.  Without a
    digit it sends nothing and returns NOT_FOUND with a format error; with
    one it sends a single GET for the user page of those digits.  FOUND is
    reported for a 200 only, and the URL built for an identifier is the one
    built for its digits. *)
Theorem stackoverflow_asks_for_the_digits {W} (h : handler W) (w : W)
    (u : string) (c : client) (hd : headers) :
  let out := run h (StackOverflow.check u c hd) w in
  let digits := PyStr.filter PyStr.isdigit u in
  (digits = "" ->
   out.2 = [] /\ status out.1.1.1 = NOT_FOUND /\ username out.1.1.1 = u /\
   url out.1.1.1 = "https://stackoverflow.com/" /\
   error out.1.1.1
   = VStr "Invalid format. Stack Overflow requires a numeric user ID.") /\
  (digits <> "" ->
   out.2 = [http_get c ("https://stackoverflow.com/users/" +:+ digits) 10 hd]) /\
  (status out.1.1.1 = FOUND -> http_status out.1.1.1 = Some 200) /\
  (status out.1.1.1 = ERROR ->
   http_status out.1.1.1 = None /\ error out.1.1.1 <> VNone) /\
  StackOverflow.build_url u = StackOverflow.build_url digits.
Proof.
  destruct (io_post_run h _ _ _ w (answers_any h)
              (stackoverflow_requests u c hd)) as (H1 & H2 & H3 & H4).
  cbv zeta.
  split; [exact H1 |]. split; [exact H2 |]. split; [exact H3 |].
  split; [exact H4 |].
  unfold StackOverflow.build_url. by rewrite filter_idem.
Qed.

(** A superscript two is a digit for [str.isdigit]: it is kept, and asked
    for. *)
Lemma stackoverflow_asks_for_the_digits_witness :
  let two := String (ascii_of_N 178) "" in
  let out :=
    Sample.probe (Sample.page 404 "") None
      (StackOverflow.check ("x" +:+ two) ClientDirect ∅) in
  PyStr.filter PyStr.isdigit ("x" +:+ two) = two /\
  out.2
  = [http_get ClientDirect ("https://stackoverflow.com/users/" +:+ two) 10 ∅].
Proof.
  cbv zeta. split; [reflexivity |].
  refine (proj1 (proj2 (stackoverflow_asks_for_the_digits
                          (Sample.quiet_world (Sample.page 404 "") None) tt
                          ("x" +:+ String (ascii_of_N 178) "") ClientDirect ∅))
            _).
  vm_compute. discriminate.
Defined.

Lemma goyimtv_requests u c hd :
  io_post any_answer
    (fun log out =>
       (1 <= length log <= 2)%nat /\
       Forall (fun r => r = http_get c (GoyimTV.build_url u) 25
                              (GoyimTV.browser_headers hd)) log /\
       url out.1 = GoyimTV.build_url u /\
       (status out.1 = FOUND \/ status out.1 = NOT_FOUND \/ status out.1 = ERROR) /\
       (status out.1 = ERROR <-> error out.1 <> VNone) /\
       (status out.1 = ERROR <-> http_status out.1 = None))
    (GoyimTV.check u c hd).
Proof.
  unfold GoyimTV.check, GoyimTV.on_exception. io_go; cbn.
  all: try match goal with
           | H : GoyimTV.verdict _ _ = Ok _ |- _ =>
               apply goyimtv_verdict_status in H as [-> | ->]
           end.
  all: split; [lia |]; split; [repeat constructor |]; split; [done |];
    split; [auto |]; split; split; intros; (done || congruence).
Qed.

(** GoyimTV sends its GET once, or twice when it retries, always the same
    request: the search URL of the identifier, through the client it was
    given, with the browser headers.  Its verdict is FOUND, NOT_FOUND or
    ERROR, never UNKNOWN; ERROR is the one that carries an error and no
    HTTP status. *)
Theorem goyimtv_asks_once_or_twice {W} (h : handler W) (w : W)
    (u : string) (c : client) (hd : headers) :
  let out := run h (GoyimTV.check u c hd) w in
  (1 <= length out.2 <= 2)%nat /\
  Forall (fun r => r = http_get c (GoyimTV.build_url u) 25
                         (GoyimTV.browser_headers hd)) out.2 /\
  url out.1.1.1 = GoyimTV.build_url u /\
  (status out.1.1.1 = FOUND \/ status out.1.1.1 = NOT_FOUND
   \/ status out.1.1.1 = ERROR) /\
  (status out.1.1.1 = ERROR <-> error out.1.1.1 <> VNone) /\
  (status out.1.1.1 = ERROR <-> http_status out.1.1.1 = None).
Proof.
  exact (io_post_run h _ _ _ w (answers_any h) (goyimtv_requests u c hd)).
Qed.

(** *** Which client a probe uses *)

Lemma private_client_leakcheck key u c hd :
  io_post any_answer
    (fun log _ => (length log <= 1)%nat /\
                  Forall (fun r => req_client r = ClientPrivate) log)
    (LeakCheck.check key u c hd).
Proof.
  unfold LeakCheck.check, LeakCheck.respond, LeakCheck.get_api_key.
  io_go; cbn; (split; [lia | repeat constructor]).
Qed.

Lemma private_client_snusbase key u c hd :
  io_post any_answer
    (fun log _ => (length log <= 1)%nat /\
                  Forall (fun r => req_client r = ClientPrivate) log)
    (Snusbase.check key u c hd).
Proof.
  unfold Snusbase.check, Snusbase.respond, Snusbase.get_api_key.
  io_go; cbn; (split; [lia | repeat constructor]).
Qed.

Lemma private_client_breachvip u c hd :
  io_post any_answer
    (fun log _ => (length log <= 1)%nat /\
                  Forall (fun r => req_client r = ClientPrivate) log)
    (BreachVIP.check u c hd).
Proof.
  unfold BreachVIP.check, BreachVIP.respond.
  io_go; cbn; (split; [lia | repeat constructor]).
Qed.

Lemma given_client_hibp key u c hd :
  io_post any_answer
    (fun log _ => Forall (fun r => req_client r = c /\ req_method r = GET
                                   /\ req_follow_redirects r = true) log)
    (HIBP.check key u c hd).
Proof.
  unfold HIBP.check. cbn [io_post mbind io_mbind io_bind perform].
  intros start _ ts _.
  destruct (nonempty key) as [k |]; [| cbn; constructor].
  destruct (PyStr.has_char "*" u); [cbn; constructor |].
  destruct (negb (HIBP.email_re u)); [cbn; constructor |].
  cbn [io_post requests_of]. intros both _.
  match goal with
  | |- io_post _ _ (match ?x with _ => _ end) => destruct x as [[[b p] [pr ev]] | e]
  end; io_go; cbn; repeat constructor.
Qed.

Lemma given_client_stackoverflow u c hd :
  io_post any_answer
    (fun log _ => Forall (fun r => req_client r = c /\ req_method r = GET
                                   /\ req_follow_redirects r = true) log)
    (StackOverflow.check u c hd).
Proof. unfold StackOverflow.check. io_go; cbn; repeat constructor. Qed.

Lemma given_client_goodreads u c hd :
  io_post any_answer
    (fun log _ => Forall (fun r => req_client r = c /\ req_method r = GET
                                   /\ req_follow_redirects r = true) log)
    (Goodreads.check u c hd).
Proof. unfold Goodreads.check. io_go; cbn; repeat constructor. Qed.

(** The three breach-database probes do not use the client the engine
    selected for them: each sends at most one request, through a private
    client of its own.  HIBP, StackOverflow and Goodreads send their GETs,
    with redirects followed, through the client they were given. *)
Theorem breach_probes_bypass_the_given_client {W} (h : handler W) (w : W)
    (key : option string) (u : string) (c : client) (hd : headers) :
  Forall
    (fun p : io (result (ProviderResult * headers)) =>
       (length (run h p w).2 <= 1)%nat /\
       Forall (fun r => req_client r = ClientPrivate) (run h p w).2)
    [LeakCheck.check key u c hd; Snusbase.check key u c hd;
     BreachVIP.check u c hd] /\
  Forall
    (fun p : io (ProviderResult * headers) =>
       Forall (fun r => req_client r = c /\ req_method r = GET
                        /\ req_follow_redirects r = true) (run h p w).2)
    [HIBP.check key u c hd; StackOverflow.check u c hd; Goodreads.check u c hd].
Proof.
  split.
  - constructor; [| constructor; [| constructor; [| constructor]]].
    + exact (io_post_run h _ _ _ w (answers_any h) (private_client_leakcheck key u c hd)).
    + exact (io_post_run h _ _ _ w (answers_any h) (private_client_snusbase key u c hd)).
    + exact (io_post_run h _ _ _ w (answers_any h) (private_client_breachvip u c hd)).
  - constructor; [| constructor; [| constructor; [| constructor]]].
    + exact (io_post_run h _ _ _ w (answers_any h) (given_client_hibp key u c hd)).
    + exact (io_post_run h _ _ _ w (answers_any h) (given_client_stackoverflow u c hd)).
    + exact (io_post_run h _ _ _ w (answers_any h) (given_client_goodreads u c hd)).
Qed.

(** ** The probes: URLs and search fields *)

Lemma percent_is_safe c : PyStr.forallb query_safe (PyStr.percent c) = true.
Proof. destruct c as [[] [] [] [] [] [] [] []]; reflexivity. Qed.

Lemma forallb_app p s t :
  PyStr.forallb p (s ++ t) = PyStr.forallb p s && PyStr.forallb p t.
Proof.
  induction s as [| a s IH]; [reflexivity |]. simpl. rewrite IH.
  by rewrite andb_assoc.
Qed.

Lemma quote_plus_safe s : PyStr.forallb query_safe (PyStr.quote_plus s) = true.
Proof.
  induction s as [| a s IH]; [reflexivity |]. simpl.
  destruct (PyStr.unreserved a) eqn:Ha.
  - simpl. unfold query_safe at 1. by rewrite Ha, IH.
  - destruct (PyStr.code a =? 32)%N.
    + simpl. by rewrite IH.
    + by rewrite forallb_app, percent_is_safe, IH.
Qed.

Lemma quote_safe s :
  PyStr.forallb (fun c => PyStr.unreserved c || Ascii.eqb c "%") (PyStr.quote s)
  = true.
Proof.
  induction s as [| a s IH]; [reflexivity |]. simpl.
  destruct (PyStr.unreserved a) eqn:Ha.
  - simpl. by rewrite Ha, IH.
  - rewrite forallb_app, IH, andb_true_r.
    clear. destruct a as [[] [] [] [] [] [] [] []]; reflexivity.
Qed.

Lemma quote_plus_plain s :
  PyStr.forallb PyStr.unreserved s = true -> PyStr.quote_plus s = s.
Proof.
  induction s as [| a s IH]; [reflexivity |]. simpl.
  intros [Ha Hs]%andb_prop. rewrite Ha. by rewrite IH.
Qed.

Lemma forallb_has_char p c s :
  PyStr.forallb p s = true -> p c = false -> PyStr.has_char c s = false.
Proof.
  intros Hs Hc. induction s as [| a s IH]; [reflexivity |]. simpl in *.
  apply andb_prop in Hs as [Ha Hs]. rewrite (IH Hs), orb_false_r.
  destruct (Ascii.eqb_spec c a) as [-> | ?]; [congruence | reflexivity].
Qed.

(** A code point above 127 is escaped as the two bytes of its UTF-8 form:
    the letter e with acute accent, U+00E9, and the no-break space. *)
Lemma quote_plus_encodes_utf8 :
  PyStr.quote_plus (String (ascii_of_N 233) (String (ascii_of_N 160) " /~"))
  = "%C3%A9%C2%A0+%2F~" /\
  PyStr.quote (String (ascii_of_N 233) (String (ascii_of_N 160) " /~"))
  = "%C3%A9%C2%A0%20%2F~".
Proof. split; reflexivity. Qed.

(** The search URL GoyimTV builds: the fixed prefix followed by the
    identifier percent-encoded.  The encoded part holds letters, digits,
    [_ . - ~], plus signs and percent escapes only (no space, ampersand,
    equals sign, hash or slash of the identifier gets through), and an
    identifier made of unreserved characters is left as it is. *)
Theorem goyimtv_url_is_encoded (u : string) :
  let q := PyStr.quote_plus u in
  GoyimTV.build_url u = "https://goyimtv.st/search?tf=6&q=" +:+ q /\
  PyStr.forallb query_safe q = true /\
  Forall (fun c => PyStr.has_char c q = false)
    [" "; "&"; "="; "#"; "/"; "?"]%char /\
  (PyStr.forallb PyStr.unreserved u = true -> q = u).
Proof.
  cbv zeta. split; [reflexivity |]. split; [apply quote_plus_safe |].
  split; [| apply quote_plus_plain].
  repeat constructor;
    (eapply forallb_has_char; [apply quote_plus_safe | reflexivity]).
Qed.

(** ** The probes: reading the response *)

Lemma assoc_app_None k (d d' : pydict) :
  Py.assoc k d = None -> Py.assoc k (d ++ d')%list = Py.assoc k d'.
Proof.
  induction d as [| [k' v] d IH]; [done |]. simpl.
  destruct (String.eqb k k'); [done | exact IH].
Qed.

Lemma setdefault_lookup k v d :
  Py.assoc k (Py.setdefault k v d)
  = Some (match Py.assoc k d with Some x => x | None => v end).
Proof.
  unfold Py.setdefault. destruct (Py.assoc k d) eqn:Hd; [done |].
  rewrite assoc_app_None by done. simpl. by rewrite String.eqb_refl.
Qed.

Lemma setdefault_other k k' v d :
  k' <> k -> Py.assoc k' (Py.setdefault k v d) = Py.assoc k' d.
Proof.
  intros Hne. unfold Py.setdefault. destruct (Py.assoc k d); [done |].
  induction d as [| [k0 v0] d IH]; simpl.
  - apply String.eqb_neq in Hne. by rewrite Hne.
  - destruct (String.eqb k' k0); [done | exact IH].
Qed.

(** What Snusbase makes of the [results] object: every record it keeps is a
    dict record of a list-valued database, carries a [_db] entry (its own
    if it had one, else the name of the database) and keeps its other
    entries; values that are not lists, and list items that are not dicts,
    yield nothing. *)
Theorem snusbase_flatten_tags_records (results_by_db : pydict) :
  Forall
    (fun r =>
       exists db records record,
         (db, VList records) ∈ results_by_db /\ VDict record ∈ records /\
         r = tagged db record /\
         Py.assoc "_db" (Py.setdefault "_db" (VStr db) record)
         = Some (match Py.assoc "_db" record with
                 | Some own => own
                 | None => VStr db
                 end) /\
         forall k, k <> "_db" ->
           Py.assoc k (Py.setdefault "_db" (VStr db) record) = Py.assoc k record)
    (Snusbase.flatten results_by_db) /\
  (Forall (fun entry => Py.is_list entry.2 = false) results_by_db ->
   Snusbase.flatten results_by_db = []).
Proof.
  split.
  - apply Forall_forall. intros r Hr. unfold Snusbase.flatten in Hr.
    apply list_elem_of_In, in_flat_map in Hr as ([db v] & Hentry & Hr).
    simpl in Hr. destruct v as [| | | | records |]; try done.
    apply list_elem_of_In, list_elem_of_omap in Hr as (rec & Hrec & Hsome).
    destruct rec as [| | | | | record]; try done. injection Hsome as <-.
    exists db, records, record.
    split; [by apply list_elem_of_In |]. split; [done |]. split; [done |].
    split; [apply setdefault_lookup |]. intros k Hk. by apply setdefault_other.
  - intros Hall. unfold Snusbase.flatten.
    induction Hall as [| [db v] rest Hv _ IH]; [done |]. simpl.
    rewrite IH. by destruct v.
Qed.

Lemma truthy_nonempty s : PyStr.truthy s = true <-> s <> "".
Proof. destruct s; simpl; split; congruence. Qed.

Ltac io_facts :=
  repeat match goal with
    | H : replies _ _ _ _ _ _ |- _ => simpl in H
    | H : exists _, _ |- _ => destruct H
    | H : _ /\ _ |- _ => destruct H
    end;
  simplify_eq;
  repeat match goal with
    | H : (_ =? _) = true |- _ => apply Z.eqb_eq in H
    | H : (_ =? _) = false |- _ => apply Z.eqb_neq in H
    | H : PyStr.truthy _ = true |- _ => apply truthy_nonempty in H
    | H : PyStr.truthy ?s = false |- _ =>
        assert (s = "") by (by destruct s); clear H
    end.

Lemma leakcheck_empty_body key u c hd :
  io_post
    (replies (fun x => exists r, x = Ok r /\ status_code r = 200 /\ text r = "")
       anything anything)
    (fun log out =>
       log <> [] ->
       returns out
         (fun out =>
            status out.1 = ERROR /\ http_status out.1 = Some 200 /\
            error out.1 = VStr "LeakCheck returned success=false."))
    (LeakCheck.check key u c hd).
Proof.
  unfold LeakCheck.check, LeakCheck.respond, LeakCheck.get_api_key.
  io_go; cbn; try done; io_facts; try done; try congruence;
    try (repeat split; congruence);
    cbn in *; simplify_eq; cbn in *; simplify_eq.
Qed.

Lemma snusbase_empty_body key u c hd :
  io_post
    (replies (fun x => exists r, x = Ok r /\ status_code r = 200 /\ text r = "")
       anything anything)
    (fun log out =>
       log <> [] ->
       returns out
         (fun out =>
            status out.1 = NOT_FOUND /\ http_status out.1 = Some 200 /\
            error out.1 = VNone))
    (Snusbase.check key u c hd).
Proof.
  unfold Snusbase.check, Snusbase.respond, Snusbase.get_api_key.
  io_go; cbn; try done; io_facts; try done; try congruence;
    try (repeat split; congruence);
    cbn in *; simplify_eq; cbn in *; simplify_eq.
Qed.

Lemma breachvip_empty_body u c hd :
  io_post
    (replies (fun x => exists r, x = Ok r /\ status_code r = 200 /\ text r = "")
       anything anything)
    (fun log out =>
       log <> [] ->
       returns out
         (fun out =>
            status out.1 = NOT_FOUND /\ http_status out.1 = Some 200 /\
            error out.1 = VNone))
    (BreachVIP.check u c hd).
Proof.
  unfold BreachVIP.check, BreachVIP.respond.
  io_go; cbn; try done; io_facts; try done; try congruence;
    try (repeat split; congruence);
    cbn in *; simplify_eq; cbn in *; simplify_eq.
Qed.

(** A 200 with an empty body is not decoded.  Snusbase and BreachVIP take it
    for no records and report NOT_FOUND; LeakCheck takes it for an empty
    object, whose [success] is missing, and reports ERROR with
    "LeakCheck returned success=false.". *)
Theorem empty_200_body {W} (h : handler W) (w : W) (key : option string)
    (u : string) (c : client) (hd : headers) :
  answers h
    (replies (fun x => exists r, x = Ok r /\ status_code r = 200 /\ text r = "")
       anything anything) ->
  let lc := run h (LeakCheck.check key u c hd) w in
  let sb := run h (Snusbase.check key u c hd) w in
  let bv := run h (BreachVIP.check u c hd) w in
  (lc.2 <> [] ->
   returns lc.1.1
     (fun out =>
        status out.1 = ERROR /\ http_status out.1 = Some 200 /\
        error out.1 = VStr "LeakCheck returned success=false.")) /\
  (sb.2 <> [] ->
   returns sb.1.1
     (fun out =>
        status out.1 = NOT_FOUND /\ http_status out.1 = Some 200 /\
        error out.1 = VNone)) /\
  (bv.2 <> [] ->
   returns bv.1.1
     (fun out =>
        status out.1 = NOT_FOUND /\ http_status out.1 = Some 200 /\
        error out.1 = VNone)).
Proof.
  intros Hh. cbv zeta. split; [| split].
  - exact (io_post_run h _ _ _ w Hh (leakcheck_empty_body key u c hd)).
  - exact (io_post_run h _ _ _ w Hh (snusbase_empty_body key u c hd)).
  - exact (io_post_run h _ _ _ w Hh (breachvip_empty_body u c hd)).
Qed.

Lemma empty_200_body_witness :
  let out :=
    Sample.probe (Sample.page 200 "") None
      (LeakCheck.check (Some "k") "alice" ClientDirect ∅) in
  out.2 <> [] /\
  returns out.1
    (fun out =>
       status out.1 = ERROR /\ http_status out.1 = Some 200 /\
       error out.1 = VStr "LeakCheck returned success=false.").
Proof.
  assert (Hsent : (Sample.probe (Sample.page 200 "") None
                     (LeakCheck.check (Some "k") "alice" ClientDirect ∅)).2 <> [])
    by (vm_compute; discriminate).
  split; [exact Hsent |].
  refine (proj1 (empty_200_body
                   (Sample.quiet_world (Sample.page 200 "") None) tt
                   (Some "k") "alice" ClientDirect ∅ _) Hsent).
  intros X e w. destruct e; simpl; try done. eexists. repeat split.
Defined.

Lemma leakcheck_undecodable e0 key u c hd :
  io_post
    (replies (fun x => exists r, x = Ok r /\ status_code r = 200 /\ text r <> ""
                                 /\ json r = Raise e0)
       anything anything)
    (fun log out =>
       log <> [] ->
       returns out
         (fun out =>
            status out.1 = ERROR /\ http_status out.1 = None /\
            error out.1 = VStr (str_exn e0)))
    (LeakCheck.check key u c hd).
Proof.
  unfold LeakCheck.check, LeakCheck.respond, LeakCheck.get_api_key.
  io_go; cbn; try done; io_facts; try done; try congruence;
    try (repeat split; congruence);
    cbn in *; simplify_eq; cbn in *; simplify_eq.
Qed.

Lemma snusbase_undecodable e0 key u c hd :
  io_post
    (replies (fun x => exists r, x = Ok r /\ status_code r = 200 /\ text r <> ""
                                 /\ json r = Raise e0)
       anything anything)
    (fun log out =>
       log <> [] ->
       returns out
         (fun out =>
            status out.1 = ERROR /\ http_status out.1 = None /\
            error out.1 = VStr (str_exn e0)))
    (Snusbase.check key u c hd).
Proof.
  unfold Snusbase.check, Snusbase.respond, Snusbase.get_api_key.
  io_go; cbn; try done; io_facts; try done; try congruence;
    try (repeat split; congruence);
    cbn in *; simplify_eq; cbn in *; simplify_eq.
Qed.

Lemma breachvip_undecodable e0 u c hd :
  io_post
    (replies (fun x => exists r, x = Ok r /\ status_code r = 200 /\ text r <> ""
                                 /\ json r = Raise e0)
       anything anything)
    (fun log out =>
       log <> [] ->
       returns out
         (fun out =>
            status out.1 = ERROR /\ http_status out.1 = None /\
            error out.1 = VStr (str_exn e0)))
    (BreachVIP.check u c hd).
Proof.
  unfold BreachVIP.check, BreachVIP.respond.
  io_go; cbn; try done; io_facts; try done; try congruence;
    try (repeat split; congruence);
    cbn in *; simplify_eq; cbn in *; simplify_eq.
Qed.

(** A 200 whose body cannot be decoded as JSON: the three breach probes
    report ERROR with the text of the decoding exception, and drop the HTTP
    status although a response did arrive. *)
Theorem undecodable_200_body {W} (h : handler W) (w : W) (e0 : exn)
    (key : option string) (u : string) (c : client) (hd : headers) :
  answers h
    (replies (fun x => exists r, x = Ok r /\ status_code r = 200 /\ text r <> ""
                                 /\ json r = Raise e0)
       anything anything) ->
  Forall
    (fun p : io (result (ProviderResult * headers)) =>
       let out := run h p w in
       out.2 <> [] ->
       returns out.1.1
         (fun out =>
            status out.1 = ERROR /\ http_status out.1 = None /\
            error out.1 = VStr (str_exn e0)))
    [LeakCheck.check key u c hd; Snusbase.check key u c hd;
     BreachVIP.check u c hd].
Proof.
  intros Hh. constructor; [| constructor; [| constructor; [| constructor]]].
  - exact (io_post_run h _ _ _ w Hh (leakcheck_undecodable e0 key u c hd)).
  - exact (io_post_run h _ _ _ w Hh (snusbase_undecodable e0 key u c hd)).
  - exact (io_post_run h _ _ _ w Hh (breachvip_undecodable e0 u c hd)).
Qed.

Lemma undecodable_200_body_witness :
  let out :=
    Sample.probe (Sample.page 200 "<html>") None
      (BreachVIP.check "alice" ClientDirect ∅) in
  out.2 <> [] /\
  returns out.1
    (fun out =>
       status out.1 = ERROR /\ http_status out.1 = None /\
       error out.1 = VStr "Expecting value: line 1 column 1 (char 0)").
Proof.
  assert (Hsent : (Sample.probe (Sample.page 200 "<html>") None
                     (BreachVIP.check "alice" ClientDirect ∅)).2 <> [])
    by (vm_compute; discriminate).
  split; [exact Hsent |].
  pose proof (undecodable_200_body
                (Sample.quiet_world (Sample.page 200 "<html>") None) tt
                (Exception "JSONDecodeError"
                   "Expecting value: line 1 column 1 (char 0)")
                None "alice" ClientDirect ∅) as H.
  apply Forall_cons in H as [_ H].
  - apply Forall_cons in H as [_ H]. apply Forall_cons in H as [H _].
    exact (H Hsent).
  - intros X e w. destruct e; simpl; try done. eexists. repeat split. done.
Defined.

(** ** hibp.py: the verdict *)

Lemma process_breach_flags b st pr ev :
  HIBP.process_breach b st = Ok (pr, ev) ->
  ev = if status_code b =? 200
       then Py.setitem "breaches_found" (VBool true) st.2 else st.2.
Proof.
  destruct st as [profile evidence]. unfold HIBP.process_breach.
  destruct (status_code b =? 200).
  - cbn. destruct (json b); cbn; [| done].
    destruct (PyOp.len _); cbn; [| done].
    destruct (PyOp.iter _); cbn; [| done].
    destruct (PyOp.mapM _ _); cbn; [| done]. by intros [= _ <-].
  - destruct (status_code b =? 429); [by intros [= _ <-] |].
    destruct (negb _); by intros [= _ <-].
Qed.

Lemma process_breach_raises b st e :
  HIBP.process_breach b st = Raise e -> status_code b = 200.
Proof.
  destruct st as [profile evidence]. unfold HIBP.process_breach.
  destruct (Z.eqb_spec (status_code b) 200); [done |].
  destruct (status_code b =? 429); [done |]. by destruct (negb _).
Qed.

Lemma process_paste_flags p st pr ev :
  HIBP.process_paste p st = Ok (pr, ev) ->
  ev = if status_code p =? 200
       then Py.setitem "pastes_found" (VBool true) st.2 else st.2.
Proof.
  destruct st as [profile evidence]. unfold HIBP.process_paste.
  destruct (status_code p =? 200).
  - cbn. destruct (json p); cbn; [| done].
    destruct (PyOp.len _); cbn; [| done]. by intros [= _ <-].
  - destruct (status_code p =? 429); [by intros [= _ <-] |].
    destruct (negb _); by intros [= _ <-].
Qed.

Lemma process_paste_raises p st e :
  HIBP.process_paste p st = Raise e -> status_code p = 200.
Proof.
  destruct st as [profile evidence]. unfold HIBP.process_paste.
  destruct (Z.eqb_spec (status_code p) 200); [done |].
  destruct (status_code p =? 429); [done |]. by destruct (negb _).
Qed.

Lemma hibp_verdict b p key u c hd :
  io_post (replies anything (fun x => x = Ok (b, p)) anything)
    (fun log out =>
       log <> [] ->
       (status out.1 = FOUND <->
        (status_code b = 200 \/ status_code p = 200) /\
        http_status out.1 = Some (status_code b)) /\
       (status out.1 = NOT_FOUND <->
        status_code b = 404 /\ status_code p = 404) /\
       (status out.1 = BLOCKED <->
        status_code b <> 200 /\ status_code p <> 200 /\
        (status_code b = 429 \/ status_code p = 429)))
    (HIBP.check key u c hd).
Proof.
  unfold HIBP.check. cbn [io_post mbind io_mbind io_bind perform].
  intros start _ ts _.
  destruct (nonempty key) as [k |]; [| by cbn].
  destruct (PyStr.has_char "*" u); [by cbn |].
  destruct (negb (HIBP.email_re u)); [by cbn |].
  cbn [io_post]. intros both ->.
  cbn [mbind result_mbind rbind].
  destruct (HIBP.process_breach b ([], [])) as [[pr ev] | e] eqn:Hb;
    cbn [mbind result_mbind rbind].
  - apply process_breach_flags in Hb. cbn in Hb.
    destruct (HIBP.process_paste p (pr, ev)) as [[pr' ev'] | e] eqn:Hp;
      cbn [mbind result_mbind rbind].
    + apply process_paste_flags in Hp. cbn in Hp. cbn. intros el _ _.
      unfold HIBP.overall_status. subst ev' ev.
      destruct (Z.eqb_spec (status_code b) 200) as [Hb2 | Hb2],
        (Z.eqb_spec (status_code p) 200) as [Hp2 | Hp2]; cbn;
        try (repeat split; intros; try done; intuition (try done; lia)).
      destruct (Z.eqb_spec (status_code b) 429),
        (Z.eqb_spec (status_code p) 429),
        (Z.eqb_spec (status_code b) 404),
        (Z.eqb_spec (status_code p) 404),
        (Z.leb_spec 500 (status_code b)),
        (Z.leb_spec 500 (status_code p)); cbn;
        repeat split; intros; try done; intuition (try done; lia).
    + apply process_paste_raises in Hp. cbn. intros _.
      repeat split; intros; try done; intuition (try done; lia).
  - apply process_breach_raises in Hb. cbn. intros _.
    repeat split; intros; try done; intuition (try done; lia).
Qed.

(** HIBP after its two lookups came back: the status is FOUND exactly when
    one of them answered 200 and every 200 body could be read (an empty list
    of breaches counts), NOT_FOUND exactly when both answered 404, and
    BLOCKED exactly when neither answered 200 and one answered 429. *)
Theorem hibp_found_means_a_200 {W} (h : handler W) (w : W)
    (b p : response) (key : option string) (u : string) (c : client)
    (hd : headers) :
  answers h (replies anything (fun x => x = Ok (b, p)) anything) ->
  let out := run h (HIBP.check key u c hd) w in
  let r := out.1.1.1 in
  out.2 <> [] ->
  (status r = FOUND <->
   (status_code b = 200 \/ status_code p = 200) /\
   http_status r = Some (status_code b)) /\
  (status r = NOT_FOUND <-> status_code b = 404 /\ status_code p = 404) /\
  (status r = BLOCKED <->
   status_code b <> 200 /\ status_code p <> 200 /\
   (status_code b = 429 \/ status_code p = 429)).
Proof.
  intros Hh. cbv zeta.
  exact (io_post_run h _ _ _ w Hh (hibp_verdict b p key u c hd)).
Qed.

Lemma hibp_found_means_a_200_witness :
  let out :=
    Sample.probe (Fixture.json_page 200 (VList [])) None
      (HIBP.check (Some "k") "a@b.io" ClientDirect ∅) in
  out.2 <> [] /\ status out.1.1 = FOUND /\
  Py.assoc "breach_count" (profile out.1.1) = Some (VInt 0).
Proof.
  assert (Hsent : (Sample.probe (Fixture.json_page 200 (VList [])) None
                     (HIBP.check (Some "k") "a@b.io" ClientDirect ∅)).2 <> [])
    by (vm_compute; discriminate).
  split; [exact Hsent |]. split; [| vm_compute; reflexivity].
  refine (proj2 (proj1 (hibp_found_means_a_200
                   (Sample.quiet_world (Fixture.json_page 200 (VList [])) None)
                   tt (Fixture.json_page 200 (VList []))
                   (Fixture.json_page 200 (VList [])) (Some "k") "a@b.io"
                   ClientDirect ∅ _ Hsent)) _).
  - intros X e w. destruct e; simpl; done.
  - split; [by left | vm_compute; reflexivity].
Defined.

(** ** discord.py: the link *)

Lemma discord_patterns_disjoint s :
  Discord.invite_re s && Discord.user_id_re s = false.
Proof.
  unfold Discord.invite_re, Discord.user_id_re, PyStr.re_match_class.
  set (body := if PyStr.ends_with_lf s then PyStr.drop_last s else s).
  destruct (Z.leb_spec (PyStr.len body) 10), (Z.leb_spec 17 (PyStr.len body));
    try lia; rewrite ?andb_false_r; reflexivity.
Qed.

(** The link Discord puts in its result goes with the kind it reports: an
    invite link under [discord.gg] exactly for the kind Invite, a user link
    under [discord.com/users] for the kinds User ID and Unknown; the link
    holds the identifier as given, blanks included.  No identifier matches
    both patterns, and the kind is Unknown exactly when the status is
    NOT_FOUND. *)
Theorem discord_link_matches_kind {W} (h : handler W) (w : W)
    (username : string) (c : client) (hd : headers) :
  let r := (run h (Discord.check username c hd) w).1.1.1 in
  let kind := Py.assoc "type" (evidence r) in
  url r = Discord.build_url username /\
  (kind = Some (VStr "Invite") <-> url r = "https://discord.gg/" +:+ username) /\
  (kind = Some (VStr "User ID") \/ kind = Some (VStr "Unknown")
   <-> url r = "https://discord.com/users/" +:+ username) /\
  (kind = Some (VStr "Unknown") <-> status r = NOT_FOUND) /\
  Discord.invite_re (PyStr.strip username)
  && Discord.user_id_re (PyStr.strip username) = false.
Proof.
  cbv zeta. pose proof (discord_patterns_disjoint (PyStr.strip username)) as Hd.
  split; [| split; [| split; [| split; [| exact Hd]]]];
    unfold Discord.check, Discord.build_url; simpl;
    destruct (h string UtcNowIso w) as [ts w']; simpl;
    destruct (Discord.invite_re (PyStr.strip username)),
      (Discord.user_id_re (PyStr.strip username));
    simpl in *; try discriminate; try reflexivity;
    split; intros; try done; intuition (try done; try discriminate).
Qed.

(** ** goodreads.py: the profile link *)

Lemma append_cons a s t : String a s +:+ t = String a (s +:+ t).
Proof. reflexivity. Qed.

Lemma append_nil t : "" +:+ t = t.
Proof. reflexivity. Qed.

Lemma prefixb_drop p s :
  PyStr.prefixb p s = true -> s = p +:+ PyStr.drop (String.length p) s.
Proof.
  revert s. induction p as [| a p IH]; intros s; [reflexivity |].
  destruct s as [| b s]; simpl; [discriminate |].
  destruct (Ascii.eqb_spec a b) as [-> | ?]; [| discriminate].
  intros H. rewrite append_cons. f_equal. by apply IH.
Qed.

Lemma prefixb_app p s : PyStr.prefixb p (p +:+ s) = true.
Proof.
  induction p as [| a p IH]; [reflexivity |].
  rewrite append_cons. simpl. by rewrite Ascii.eqb_refl.
Qed.

Lemma drop_app p s : PyStr.drop (String.length p) (p +:+ s) = s.
Proof.
  induction p as [| a p IH]; [reflexivity |]. rewrite append_cons. exact IH.
Qed.

Lemma span_app p s a b :
  PyStr.span p s = (a, b) -> s = a +:+ b /\ PyStr.forallb p a = true.
Proof.
  revert a b. induction s as [| c s IH]; intros a b; simpl.
  - by intros [= <- <-].
  - destruct (p c) eqn:Hc; [| by intros [= <- <-]].
    destruct (PyStr.span p s) as [a' b']. intros [= <- <-].
    destruct (IH a' b' eq_refl) as [-> Ha].
    rewrite append_cons. simpl. by rewrite Hc, Ha.
Qed.

Lemma span_stop p a c s :
  PyStr.forallb p a = true -> p c = false ->
  PyStr.span p (a +:+ String c s) = (a, String c s).
Proof.
  intros Ha Hc. induction a as [| d a IH].
  - rewrite append_nil. simpl. by rewrite Hc.
  - simpl in Ha. apply andb_prop in Ha as [Hd Ha].
    rewrite append_cons. simpl. by rewrite Hd, (IH Ha).
Qed.

Lemma link_here_sound s g :
  Goodreads.link_here s = Some g ->
  exists body post,
    s = Goodreads.link_head +:+ body +:+ String PyStr.dquote post /\
    g = "/user/show/" +:+ body /\ body <> "" /\
    PyStr.forallb Goodreads.not_dquote body = true.
Proof.
  unfold Goodreads.link_here.
  destruct (PyStr.prefixb Goodreads.link_head s) eqn:Hpre; [| done].
  apply prefixb_drop in Hpre.
  destruct (PyStr.span _ _) as [body rest] eqn:Hspan.
  apply span_app in Hspan as [Hrest Hbody].
  destruct (PyStr.truthy body) eqn:Ht; [| done]. rewrite andb_true_l.
  destruct rest as [| q post]; cbn [PyStr.prefixb]; [done |].
  destruct (Ascii.eqb_spec PyStr.dquote q) as [<- | ?]; [| done].
  intros [= <-]. exists body, post.
  split; [rewrite Hpre at 1; by rewrite Hrest |].
  split; [reflexivity |]. split; [by destruct body | exact Hbody].
Qed.

Lemma link_here_complete body post :
  body <> "" -> PyStr.forallb Goodreads.not_dquote body = true ->
  Goodreads.link_here
    (Goodreads.link_head +:+ body +:+ String PyStr.dquote post)
  = Some ("/user/show/" +:+ body).
Proof.
  intros Hne Hbody. unfold Goodreads.link_here.
  rewrite prefixb_app, drop_app, span_stop by done.
  destruct body; [done |]. reflexivity.
Qed.

Lemma search_link_skips pre s g :
  Goodreads.search_link s = Some g ->
  exists g', Goodreads.search_link (pre +:+ s) = Some g'.
Proof.
  intros Hs. induction pre as [| a pre [g' IH]]; [eauto |].
  rewrite append_cons. simpl. destruct (Goodreads.link_here _); eauto.
Qed.

(** The pattern Goodreads looks for.  A link that [search_link] finds is in
    the text: it stands between [href=], a double quote, and the next
    double quote, begins with [/user/show/] and goes on with at least one
    character; and a text that holds such a link anywhere makes
    [search_link] find one. *)
Theorem goodreads_link_is_in_the_page (s : string) :
  (forall g,
     Goodreads.search_link s = Some g ->
     exists pre body post,
       s = pre +:+ Goodreads.link_head +:+ body +:+ String PyStr.dquote post /\
       g = "/user/show/" +:+ body /\ body <> "" /\
       PyStr.forallb Goodreads.not_dquote body = true) /\
  (forall pre body post,
     s = pre +:+ Goodreads.link_head +:+ body +:+ String PyStr.dquote post ->
     body <> "" -> PyStr.forallb Goodreads.not_dquote body = true ->
     exists g, Goodreads.search_link s = Some g).
Proof.
  split.
  - induction s as [| a s IH]; intros g.
    + simpl. intros [=].
    + cbn [Goodreads.search_link].
      destruct (Goodreads.link_here (String a s)) eqn:Hh.
      * intros [= <-]. apply link_here_sound in Hh as (body & post & ? & ?).
        exists "", body, post. done.
      * intros Hs. destruct (IH g Hs) as (pre & body & post & -> & ?).
        exists (String a pre), body, post. by rewrite append_cons.
  - intros pre body post -> Hne Hbody.
    apply (search_link_skips pre _ ("/user/show/" +:+ body)).
    pose proof (link_here_complete body post Hne Hbody) as Hh.
    destruct (Goodreads.link_head +:+ body +:+ String PyStr.dquote post)
      eqn:Hs; [simpl in Hh; discriminate |].
    cbn [Goodreads.search_link]. by rewrite Hh.
Qed.

Lemma goodreads_link_is_in_the_page_witness :
  exists g,
    Goodreads.search_link
      ("<a " +:+ Goodreads.link_head +:+ "1-alice" +:+ String PyStr.dquote ">")
    = Some g.
Proof.
  apply (proj2 (goodreads_link_is_in_the_page _) "<a " "1-alice" ">");
    [reflexivity | discriminate | reflexivity].
Defined.

(** ** goyimtv.py: a title tag without text *)

Lemma goyimtv_title (r : response) u c hd :
  existsb (fun x => PyStr.contains x (PyStr.lower (text r)))
    GoyimTV.not_found_indicators = false ->
  existsb
    (fun link : string * string =>
       PyStr.contains "/channel/" (PyStr.lower link.1)
       && String.eqb (PyStr.lower u) (PyStr.lower (PyStr.strip link.2))
       || PyStr.contains ("/channel/" +:+ PyStr.lower u) (PyStr.lower link.1))
    (anchors (html r)) = true ->
  title (html r) = Some None ->
  io_post (replies (fun x => x = Ok r) anything anything)
    (fun log out =>
       status out.1 = ERROR /\ http_status out.1 = None /\
       error out.1 = VStr "'NoneType' object has no attribute 'strip'")
    (GoyimTV.check u c hd).
Proof.
  intros Hnf Hlink Htitle.
  assert (Hv : GoyimTV.verdict u r = Raise (PyOp.AttributeError VNone "strip")).
  { unfold GoyimTV.verdict. cbv zeta. by rewrite Hnf, Hlink, Htitle. }
  unfold GoyimTV.check, GoyimTV.on_exception.
  io_go; cbn in *; simplify_eq; try done;
    rewrite Hv in *; simplify_eq; done.
Qed.

(** GoyimTV found the channel, and the page has a title tag without text
    (an empty tag, or one with nested markup): reading the title raises, and
    the probe reports ERROR with the text of the AttributeError and without
    HTTP status, although the match was made. *)
Theorem goyimtv_title_without_text {W} (h : handler W) (w : W) (r : response)
    (u : string) (c : client) (hd : headers) :
  answers h (replies (fun x => x = Ok r) anything anything) ->
  existsb (fun x => PyStr.contains x (PyStr.lower (text r)))
    GoyimTV.not_found_indicators = false ->
  existsb
    (fun link : string * string =>
       PyStr.contains "/channel/" (PyStr.lower link.1)
       && String.eqb (PyStr.lower u) (PyStr.lower (PyStr.strip link.2))
       || PyStr.contains ("/channel/" +:+ PyStr.lower u) (PyStr.lower link.1))
    (anchors (html r)) = true ->
  title (html r) = Some None ->
  let out := (run h (GoyimTV.check u c hd) w).1.1.1 in
  status out = ERROR /\ http_status out = None /\
  error out = VStr "'NoneType' object has no attribute 'strip'".
Proof.
  intros Hh Hnf Hlink Htitle. cbv zeta.
  exact (io_post_run h _ _ _ w Hh (goyimtv_title r u c hd Hnf Hlink Htitle)).
Qed.

Lemma goyimtv_title_without_text_witness :
  let out :=
    (Sample.probe Fixture.untitled None
       (GoyimTV.check "alice" ClientDirect ∅)).1.1 in
  status out = ERROR /\ http_status out = None /\
  error out = VStr "'NoneType' object has no attribute 'strip'".
Proof.
  cbv zeta.
  apply (goyimtv_title_without_text
           (Sample.quiet_world Fixture.untitled None) tt Fixture.untitled).
  - intros X e w. destruct e; simpl; done.
  - vm_compute. reflexivity.
  - vm_compute. reflexivity.
  - reflexivity.
Defined.

(** ** breach_vip.py: what counts as a record *)

Lemma records_of_object d :
  BreachVIP.listed d = None -> BreachVIP.records_of (VDict d) = [VDict d].
Proof. intros H. unfold BreachVIP.records_of. by rewrite !H. Qed.

Lemma records_of_wrapped d l :
  BreachVIP.listed d = Some l ->
  (forall inner, l = [VDict inner] -> BreachVIP.listed inner = None) ->
  BreachVIP.records_of (VDict d) = l /\ BreachVIP.records_of (VList [VDict d]) = l.
Proof.
  intros H Hin. unfold BreachVIP.records_of. rewrite !H.
  split; [| reflexivity].
  destruct l as [| [| | | | | inner] [| ? ?]]; try reflexivity.
  by rewrite (Hin inner eq_refl).
Qed.

Lemma breachvip_plain_object d r u c hd :
  status_code r = 200 -> text r <> "" -> json r = Ok (VDict d) ->
  BreachVIP.listed d = None ->
  io_post (replies (fun x => x = Ok r) anything anything)
    (fun log out =>
       log <> [] ->
       returns out
         (fun out =>
            status out.1 = FOUND \/
            status out.1 = ERROR /\ http_status out.1 = None))
    (BreachVIP.check u c hd).
Proof.
  intros Hcode Htext Hjson Hlist.
  pose proof (records_of_object d Hlist) as Hrec.
  unfold BreachVIP.check, BreachVIP.respond.
  io_go; cbn; try done; io_facts; try done; try congruence; try tauto;
    cbn in *; simplify_eq; try congruence; tauto.
Qed.

(** What BreachVIP takes for records.  A decoded object with a list under
    [results] (else under [data]) stands for that list, also when it comes
    wrapped in a one-element list; an object with neither is itself taken
    for the one record found, so a 200 that carries such an object (an
    error note, or the empty object) is never reported NOT_FOUND: the status
    is FOUND unless reading the record raises. *)
Theorem breachvip_object_is_a_record {W} (h : handler W) (w : W)
    (d : pydict) (r : response) (u : string) (c : client) (hd : headers) :
  (forall l,
     BreachVIP.listed d = Some l ->
     (forall inner, l = [VDict inner] -> BreachVIP.listed inner = None) ->
     BreachVIP.records_of (VDict d) = l /\
     BreachVIP.records_of (VList [VDict d]) = l) /\
  (BreachVIP.listed d = None ->
   BreachVIP.records_of (VDict d) = [VDict d] /\
   (answers h (replies (fun x => x = Ok r) anything anything) ->
    status_code r = 200 -> text r <> "" -> json r = Ok (VDict d) ->
    let out := run h (BreachVIP.check u c hd) w in
    out.2 <> [] ->
    returns out.1.1
      (fun out =>
         status out.1 = FOUND \/
         status out.1 = ERROR /\ http_status out.1 = None))).
Proof.
  split; [intros l; apply records_of_wrapped |].
  intros Hlist. split; [by apply records_of_object |].
  intros Hh Hcode Htext Hjson. cbv zeta.
  exact (io_post_run h _ _ _ w Hh
           (breachvip_plain_object d r u c hd Hcode Htext Hjson Hlist)).
Qed.

Lemma breachvip_object_is_a_record_witness :
  let out :=
    Sample.probe (Fixture.json_page 200 (VDict [("error", VStr "bad term")]))
      None (BreachVIP.check "alice" ClientDirect ∅) in
  out.2 <> [] /\
  returns out.1
    (fun out =>
       status out.1 = FOUND \/
       status out.1 = ERROR /\ http_status out.1 = None).
Proof.
  assert (Hsent :
    (Sample.probe (Fixture.json_page 200 (VDict [("error", VStr "bad term")]))
       None (BreachVIP.check "alice" ClientDirect ∅)).2 <> [])
    by (vm_compute; discriminate).
  split; [exact Hsent |].
  refine (proj2 (proj2 (breachvip_object_is_a_record
                   (Sample.quiet_world
                      (Fixture.json_page 200 (VDict [("error", VStr "bad term")]))
                      None) tt [("error", VStr "bad term")]
                   (Fixture.json_page 200 (VDict [("error", VStr "bad term")]))
                   "alice" ClientDirect ∅) eq_refl) _ eq_refl _ eq_refl Hsent).
  - intros X e w. destruct e; simpl; done.
  - discriminate.
Defined.

(** ** goyimtv.py: the retry *)

(** GoyimTV retries once, and only once, and only when the first answer is
    a response with status 403, 503 or 429.  Whatever comes back the second
    time is taken as the answer: a response, blocked again or not, is read
    as a page, and an exception is reported as ERROR.  A first answer of
    another status, and a first request that fails, are taken as they are,
    after one request.  The status is never BLOCKED.  Here [first] is what
    the world answers to the first GET and [second] what it answers to the
    GET sent after the two seconds of sleep. *)
Theorem goyimtv_retries_soft_blocks {W} (h : handler W) (w : W)
    (u : string) (c : client) (hd : headers) :
  let get :=
    Request (http_get c (GoyimTV.build_url u) 25 (GoyimTV.browser_headers hd)) in
  let w0 := (h _ UtcNowIso (h _ Monotonic w).2).2 in
  let first := h _ get w0 in
  let second := h _ get (h _ (Sleep 2000) first.2).2 in
  let retried :=
    match first.1 with
    | Ok r => GoyimTV.soft_block (status_code r)
    | Raise _ => false
    end in
  let taken := if retried then second.1 else first.1 in
  let out := run h (GoyimTV.check u c hd) w in
  length out.2 = (if retried then 2 else 1)%nat /\
  status out.1.1.1 <> BLOCKED /\
  match taken with
  | Ok r =>
      match GoyimTV.verdict u r with
      | Ok (st, _) =>
          status out.1.1.1 = st /\ http_status out.1.1.1 = Some (status_code r)
      | Raise e =>
          status out.1.1.1 = ERROR /\ error out.1.1.1 = VStr (str_exn e)
      end
  | Raise e => status out.1.1.1 = ERROR /\ error out.1.1.1 = VStr (str_exn e)
  end.
Proof.
  cbv zeta.
  unfold GoyimTV.check, GoyimTV.on_exception, elapsed_since, GoyimTV.timeout.
  set (get := http_get c (GoyimTV.build_url u) 25 (GoyimTV.browser_headers hd)).
  cbn [run mbind mret io_mbind io_ret io_bind perform].
  destruct (h Z Monotonic w) as [start w1]. cbn [fst snd].
  destruct (h string UtcNowIso w1) as [ts w2]. cbn [fst snd].
  destruct (h _ (Request get) w2) as [[r1 | e1] w3]; cbn [fst snd].
  - destruct (GoyimTV.soft_block (status_code r1)).
    + cbn [run mbind mret io_mbind io_ret io_bind perform].
      destruct (h unit (Sleep 2000) w3) as [[] w4]. cbn [fst snd].
      destruct (h _ (Request get) w4) as [[r2 | e2] w5]; cbn [fst snd].
      * destruct (GoyimTV.verdict u r2) as [[st pr] | e] eqn:Hv;
          cbn [run mbind mret io_mbind io_ret io_bind perform];
          destruct (h Z Monotonic w5) as [now w6]; cbn;
          [apply goyimtv_verdict_status in Hv as [-> | ->] |]; done.
      * cbn [run mbind mret io_mbind io_ret io_bind perform].
        destruct (h Z Monotonic w5) as [now w6]; cbn; done.
    + cbn [run mbind mret io_mbind io_ret io_bind perform].
      destruct (GoyimTV.verdict u r1) as [[st pr] | e] eqn:Hv;
        cbn [run mbind mret io_mbind io_ret io_bind perform];
        destruct (h Z Monotonic w3) as [now w4]; cbn;
        [apply goyimtv_verdict_status in Hv as [-> | ->] |]; done.
  - cbn [run mbind mret io_mbind io_ret io_bind perform].
    destruct (h Z Monotonic w3) as [now w4]; cbn; done.
Qed.

(** Blocked at first, then answered: two requests, and the page of the
    second answer decides. *)
Lemma goyimtv_retries_soft_blocks_witness :
  let out :=
    Sample.probe (Sample.page 503 "") None (GoyimTV.check "alice" ClientDirect ∅) in
  length out.2 = 2%nat /\ status out.1.1 <> BLOCKED.
Proof.
  pose proof (goyimtv_retries_soft_blocks
                (Sample.quiet_world (Sample.page 503 "") None) tt
                "alice" ClientDirect ∅) as H.
  cbv zeta in H. destruct H as (Hlen & Hst & _).
  split; [exact Hlen | exact Hst].
Defined.

(** ** The search term *)

Lemma has_char_filter p c s :
  p c = true -> PyStr.has_char c (PyStr.filter p s) = PyStr.has_char c s.
Proof.
  intros Hc. induction s as [| a s IH]; [reflexivity |]. simpl.
  destruct (p a) eqn:Ha; simpl; rewrite IH; [reflexivity |].
  destruct (Ascii.eqb_spec c a) as [-> | ?]; [congruence | reflexivity].
Qed.

(** A character that is neither a digit nor one of the five that [clean]
    removes keeps a term from being a phone number. *)
Lemma phone_has_no (c : ascii) term :
  PyStr.isdigit c = false ->
  PyStr.has_char c "+- ()" = false ->
  PyStr.has_char c term = true -> Term.phone_like term = false.
Proof.
  intros Hd Hc Hin. unfold Term.phone_like, PyStr.all_digits.
  destruct (PyStr.forallb PyStr.isdigit (Term.clean term)) eqn:Hall;
    [| by rewrite andb_false_r].
  exfalso. apply (forallb_has_char _ c) in Hall; [| exact Hd].
  simpl in Hc. repeat (apply orb_false_elim in Hc as [? Hc]).
  unfold Term.clean, PyStr.remove_char in Hall.
  rewrite !has_char_filter in Hall
    by (cbv beta; rewrite Ascii.eqb_sym; apply negb_true_iff; assumption).
  congruence.
Qed.

Lemma split_char_cons c s : exists p ps, PyStr.split_char c s = p :: ps.
Proof.
  destruct s as [| a s]; simpl; [eauto |].
  destruct (PyStr.split_char c s); [eauto |].
  destruct (Ascii.eqb c a); eauto.
Qed.

(** The parts of [s.split(c)] are made of characters of [s], and none is
    longer than [s]. *)
Lemma split_char_parts c s :
  Forall (fun p => (String.length p <= String.length s)%nat /\
                   forall q, PyStr.forallb q s = true -> PyStr.forallb q p = true)
    (PyStr.split_char c s).
Proof.
  induction s as [| a s IH]; simpl; [repeat constructor |].
  destruct (split_char_cons c s) as (p & ps & Hs). rewrite Hs in *.
  apply Forall_cons in IH as [[Hlen Hp] Hps].
  assert (Hps' : Forall
            (fun p => (String.length p <= S (String.length s))%nat /\
               forall q, q a && PyStr.forallb q s = true
                         -> PyStr.forallb q p = true) ps).
  { eapply Forall_impl; [exact Hps |]. intros x [Hx1 Hx2].
    split; [lia |]. intros q [_ Hq]%andb_prop. by apply Hx2. }
  destruct (Ascii.eqb c a).
  - constructor; [split; [simpl; lia | done] |].
    constructor; [| exact Hps'].
    split; [lia |]. intros q [_ Hq]%andb_prop. by apply Hp.
  - constructor; [| exact Hps']. split; [simpl; lia |].
    intros q [Ha Hq]%andb_prop. simpl. by rewrite Ha, (Hp q Hq).
Qed.

Lemma split_class (cls : ascii -> bool) c s :
  forallb (PyStr.forallb cls) (PyStr.split_char c s) = true ->
  forall d, PyStr.has_char d s = true -> d = c \/ cls d = true.
Proof.
  induction s as [| a s IH]; simpl; [discriminate |].
  destruct (split_char_cons c s) as (p & ps & Hs). rewrite Hs in *.
  intros Hall d Hd.
  destruct (Ascii.eqb_spec c a) as [<- | Hne]; simpl in Hall.
  - apply orb_prop in Hd as [Hd | Hd]; [left; by apply Ascii.eqb_eq |].
    by apply IH.
  - apply andb_prop in Hall as [Hap Hps]. apply andb_prop in Hap as [Ha Hp].
    apply orb_prop in Hd as [Hd | Hd].
    + apply Ascii.eqb_eq in Hd as ->. by right.
    + apply IH; [| exact Hd]. simpl. by rewrite Hp, Hps.
Qed.

Lemma append_empty s : s +:+ "" = s.
Proof. induction s as [| a s IH]; [reflexivity |]. by rewrite append_cons, IH. Qed.

Lemma span_all p s : PyStr.forallb p s = true -> PyStr.span p s = (s, "").
Proof.
  induction s as [| a s IH]; [reflexivity |]. simpl.
  intros [Ha Hs]%andb_prop. by rewrite Ha, (IH Hs).
Qed.

(** [int] returns exactly on the non-empty strings of at most 4300 decimal
    digits. *)
Lemma int_returns s :
  (exists n, PyOp.int s = Ok n) <->
  s <> "" /\ PyStr.forallb PyStr.isdecimal s = true /\ PyStr.len s <= 4300.
Proof.
  unfold PyOp.int.
  destruct (PyStr.span PyStr.isdecimal s) as [lead rest] eqn:Hspan.
  split.
  - intros [n Hn]. apply span_app in Hspan as [-> Hlead].
    destruct (Z.ltb_spec 4300 (PyStr.len lead)); [done |].
    destruct rest; [| done]. rewrite append_empty in *.
    destruct lead; [done |]. done.
  - intros (Hne & Hall & Hlen). rewrite (span_all _ _ Hall) in Hspan.
    injection Hspan as <- <-.
    destruct (Z.ltb_spec 4300 (PyStr.len s)); [lia |].
    destruct s; [done |]. simpl. eauto.
Qed.

Lemma octets_true parts :
  Term.octets parts = Ok true ->
  forallb (PyStr.forallb PyStr.isdecimal) parts = true.
Proof.
  induction parts as [| p parts IH]; [done |]. simpl.
  destruct (PyStr.all_digits p); [| done].
  destruct (PyOp.int p) as [n |] eqn:Hn; [| done].
  cbn [mbind result_mbind rbind].
  destruct ((0 <=? n) && (n <=? 255)); [| done].
  intros H. rewrite (IH H), andb_true_r.
  by destruct (proj1 (int_returns p) (ex_intro _ n Hn)) as (_ & ? & _).
Qed.

Lemma octets_returns parts :
  Forall (fun p => PyStr.len p <= 4300 /\
                   PyStr.forallb (fun c => negb (PyStr.isdigit c)
                                           || PyStr.isdecimal c) p = true)
    parts ->
  exists b, Term.octets parts = Ok b.
Proof.
  induction 1 as [| p parts [Hlen Hplain] _ [b IH]]; simpl; [eauto |].
  destruct (PyStr.all_digits p) eqn:Hd; [| eauto].
  unfold PyStr.all_digits in Hd. apply andb_prop in Hd as [Hne Hdig].
  destruct (proj2 (int_returns p)) as [n ->].
  { split; [by destruct p |]. split; [| exact Hlen].
    clear -Hdig Hplain. induction p as [| a p IHp]; [done |]. simpl in *.
    apply andb_prop in Hdig as [Ha Hdig]. apply andb_prop in Hplain as [Hb Hplain].
    rewrite Ha in Hb. simpl in Hb. by rewrite Hb, IHp. }
  cbn [mbind result_mbind rbind]. destruct (_ && _); eauto.
Qed.

Lemma ipv4_returns term : int_safe term -> exists b, Term.ipv4_like term = Ok b.
Proof.
  intros [Hlen Hplain]. unfold Term.ipv4_like.
  destruct (_ && _); [| eauto]. apply octets_returns.
  eapply Forall_impl; [apply (split_char_parts "." term) |].
  intros p [Hp Hq]. split; [unfold PyStr.len in *; lia | by apply Hq].
Qed.

Lemma ipv4_has_no (c : ascii) term :
  PyStr.isdecimal c = false -> c <> "."%char ->
  Term.ipv4_like term = Ok true -> PyStr.has_char c term = false.
Proof.
  intros Hd Hc Hip. unfold Term.ipv4_like in Hip.
  destruct (_ && _); [| done]. apply octets_true in Hip.
  destruct (PyStr.has_char c term) eqn:Hin; [| reflexivity].
  destruct (split_class PyStr.isdecimal "." term Hip c Hin); congruence.
Qed.

Lemma ipv4_has_dot term :
  Term.ipv4_like term = Ok true -> PyStr.has_char "." term = true.
Proof.
  unfold Term.ipv4_like.
  destruct (PyStr.has_char "." term); [done |]. simpl. done.
Qed.

(** The three shapes the breach probes tell apart (an address, a phone
    number, an IPv4 address) exclude one another.  LeakCheck asks for the
    type [email] exactly for addresses and [phone] exactly for phone
    numbers, and Snusbase searches [lastip] exactly for IPv4 addresses.
    The IPv4 test is the one that can raise, and the two helpers reach it
    only for a term that is neither an address nor a phone number: they
    raise exactly then, with what the test raises.  The test returns on
    every term of at most 4300 characters without a superscript digit. *)
Theorem term_classes_are_disjoint (term : string) :
  Term.email_like term && Term.phone_like term = false /\
  (Term.ipv4_like term = Ok true ->
   Term.email_like term = false /\ Term.phone_like term = false) /\
  (LeakCheck.determine_query_type term = Ok "email"
   <-> Term.email_like term = true) /\
  (LeakCheck.determine_query_type term = Ok "phone"
   <-> Term.phone_like term = true) /\
  (Snusbase.determine_types term = Ok ["lastip"]
   <-> Term.ipv4_like term = Ok true) /\
  (forall e,
     LeakCheck.determine_query_type term = Raise e <->
     Term.email_like term = false /\ Term.phone_like term = false /\
     Term.ipv4_like term = Raise e) /\
  (forall e,
     Snusbase.determine_types term = Raise e <->
     Term.email_like term = false /\ Term.phone_like term = false /\
     Term.ipv4_like term = Raise e) /\
  (int_safe term -> exists b, Term.ipv4_like term = Ok b).
Proof.
  assert (Hep : Term.email_like term = true -> Term.phone_like term = false).
  { unfold Term.email_like. intros [Hat _]%andb_prop.
    by apply (phone_has_no "@"). }
  assert (Hei : Term.ipv4_like term = Ok true -> Term.email_like term = false).
  { intros Hip. unfold Term.email_like.
    by rewrite (ipv4_has_no "@" term). }
  assert (Hpi : Term.ipv4_like term = Ok true -> Term.phone_like term = false).
  { intros Hip. apply (phone_has_no "."); [done | done |].
    by apply ipv4_has_dot. }
  split; [| split; [| split; [| split; [| split; [| split; [| split]]]]]];
    try apply ipv4_returns;
    unfold LeakCheck.determine_query_type, Snusbase.determine_types;
    destruct (Term.email_like term), (Term.phone_like term),
      (Term.ipv4_like term) as [[|] | e0];
    cbn [mbind result_mbind rbind andb];
    try (specialize (Hep eq_refl)); try (specialize (Hei eq_refl));
    try (specialize (Hpi eq_refl));
    try done; try (split; intros; try done; intuition congruence);
    try (intros e; split; intros; try done; intuition congruence).
Qed.

(** An address, a phone number and an IPv4 address, each of its shape only;
    and a term on which the IPv4 test raises. *)
Lemma term_classes_are_disjoint_witness :
  LeakCheck.determine_query_type "a@b.io" = Ok "email" /\
  LeakCheck.determine_query_type "+1 (555) 010-9999" = Ok "phone" /\
  Snusbase.determine_types "10.0.0.1" = Ok ["lastip"] /\
  Term.email_like "10.0.0.1" = false /\
  exists b, Term.ipv4_like "user.name" = Ok b.
Proof.
  pose proof (term_classes_are_disjoint "a@b.io") as (_ & _ & He & _).
  pose proof (term_classes_are_disjoint "+1 (555) 010-9999") as (_ & _ & _ & Hp & _).
  pose proof (term_classes_are_disjoint "10.0.0.1") as (_ & Hd & _ & _ & Hi & _).
  pose proof (term_classes_are_disjoint "user.name") as (_ & _ & _ & _ & _ & _ & _ & Hr).
  split; [apply He; reflexivity |]. split; [apply Hp; reflexivity |].
  split; [apply Hi; reflexivity |]. split; [apply Hd; reflexivity |].
  apply Hr. split; [vm_compute; discriminate | reflexivity].
Defined.

(** The IPv4 test on a part of 4301 digits, and on a superscript two:
    [int] raises, and so do the helpers that call the test. *)
Lemma ipv4_test_raises :
  Term.ipv4_like ("1.2.3." +:+ Fixture.nines 4301)
  = Raise (PyOp.ValueError
             "Exceeds the limit (4300 digits) for integer string conversion: value has 4301 digits; use sys.set_int_max_str_digits() to increase the limit") /\
  Term.ipv4_like ("1.2.3." +:+ String (ascii_of_N 178) "")
  = Raise (PyOp.ValueError
             ("invalid literal for int() with base 10: '"
              +:+ String (ascii_of_N 178) "'")) /\
  (exists e, Snusbase.determine_types ("1.2.3." +:+ Fixture.nines 4301) = Raise e) /\
  (exists e,
     BreachVIP.determine_search_fields (Fixture.nines 4301 +:+ ".1.1.a@b")
     = Raise e) /\
  LeakCheck.determine_query_type (Fixture.nines 4301 +:+ ".1.1.a@b") = Ok "email".
Proof.
  split; [vm_compute; reflexivity |]. split; [vm_compute; reflexivity |].
  split; [eexists; vm_compute; reflexivity |].
  split; [eexists; vm_compute; reflexivity |]. vm_compute. reflexivity.
Qed.

(** The fields BreachVIP searches, when [_determine_search_fields] returns:
    never a field twice, always [username], [email] and [name], always
    [password] last, between four and nine of them (so the cut to ten never
    drops one); [email] comes first for an address, and [phone] and [ip]
    are in exactly for a term of that shape.  The function returns unless
    its IPv4 test raises, which it runs for every term, addresses included;
    then it raises what the test raises.  It returns on every term of at
    most 4300 characters without a superscript digit. *)
Theorem breachvip_search_fields (term : string) :
  (forall fields,
     BreachVIP.determine_search_fields term = Ok fields ->
     NoDup fields /\
     (4 <= length fields <= 9)%nat /\
     "username" ∈ fields /\ "email" ∈ fields /\ "name" ∈ fields /\
     last fields = Some "password" /\
     (Term.email_like term = true -> head fields = Some "email") /\
     (Term.phone_like term = true <-> "phone" ∈ fields) /\
     (Term.ipv4_like term = Ok true <-> "ip" ∈ fields)) /\
  (forall e,
     BreachVIP.determine_search_fields term = Raise e
     <-> Term.ipv4_like term = Raise e) /\
  (int_safe term ->
   exists fields, BreachVIP.determine_search_fields term = Ok fields).
Proof.
  split; [| split].
  - unfold BreachVIP.determine_search_fields.
    destruct (Term.ipv4_like term) as [ip | e]; [| done].
    cbn [mbind result_mbind rbind]. intros fields [= <-].
    destruct (Term.email_like term),
      (PyStr.has_char "." term && negb (PyStr.has_char "@" term)),
      (Term.phone_like term),
      (PyStr.all_digits term && (17 <=? PyStr.len term) && (PyStr.len term <=? 20)),
      ((PyStr.len term =? 36) && PyStr.has_char "-" term),
      ip;
      (split; [compute_done |]);
      (split; [vm_compute; lia |]);
      (split; [compute_done |]);
      (split; [compute_done |]);
      (split; [compute_done |]);
      (split; [reflexivity |]);
      (split; [first [reflexivity | discriminate] |]);
      split; split;
        first [ discriminate
              | intros _; reflexivity
              | intros _; compute_done
              | intros H; exfalso; revert H; compute_done ].
  - intros e. unfold BreachVIP.determine_search_fields.
    destruct (Term.ipv4_like term) as [ip | e0];
      cbn [mbind result_mbind rbind]; split; intros; congruence.
  - intros Hsafe. unfold BreachVIP.determine_search_fields.
    destruct (ipv4_returns term Hsafe) as [b ->].
    cbn [mbind result_mbind rbind]. eauto.
Qed.

Lemma breachvip_search_fields_witness :
  exists fields,
    BreachVIP.determine_search_fields "10.0.0.1" = Ok fields /\
    "ip" ∈ fields /\ last fields = Some "password".
Proof.
  destruct (proj2 (proj2 (breachvip_search_fields "10.0.0.1")))
    as [fields Hf]; [split; [vm_compute; discriminate | reflexivity] |].
  exists fields.
  destruct (proj1 (breachvip_search_fields "10.0.0.1") fields Hf)
    as (_ & _ & _ & _ & _ & Hlast & _ & _ & Hip).
  split; [exact Hf |]. split; [apply Hip; reflexivity | exact Hlast].
Defined.

(** ** The breach probes: what leaves [check] *)

Ltac not_blank :=
  match goal with
  | H : negb (PyStr.truthy _) = false |- _ =>
      apply negb_false_iff, truthy_nonempty in H; exact H
  end.

Lemma leakcheck_raises key u c hd :
  io_post any_answer
    (fun log out =>
       forall e, out = Raise e ->
         log = [] /\ PyStr.strip u <> "" /\
         LeakCheck.determine_query_type (PyStr.strip u) = Raise e)
    (LeakCheck.check key u c hd).
Proof.
  unfold LeakCheck.check, LeakCheck.respond, LeakCheck.get_api_key.
  io_go; cbn; try done;
    (split; [done | split; [not_blank | congruence]]).
Qed.

Lemma snusbase_raises key u c hd :
  io_post any_answer
    (fun log out =>
       forall e, out = Raise e ->
         log = [] /\ PyStr.strip u <> "" /\
         Snusbase.determine_types (PyStr.strip u) = Raise e)
    (Snusbase.check key u c hd).
Proof.
  unfold Snusbase.check, Snusbase.respond, Snusbase.get_api_key.
  io_go; cbn; try done;
    (split; [done | split; [not_blank | congruence]]).
Qed.

Lemma breachvip_raises u c hd :
  io_post any_answer
    (fun log out =>
       (forall e, out = Raise e ->
          log = [] /\ PyStr.strip u <> "" /\
          BreachVIP.determine_search_fields (PyStr.strip u) = Raise e) /\
       (forall e, PyStr.strip u <> "" ->
          BreachVIP.determine_search_fields (PyStr.strip u) = Raise e ->
          log = [] /\ out = Raise e))
    (BreachVIP.check u c hd).
Proof.
  unfold BreachVIP.check, BreachVIP.respond.
  io_go; cbn.
  all: split; [intros ? ? | intros ? Hne Hd]; try done; try congruence.
  all: try (split; [done | split; [not_blank | congruence]]).
  all: try (split; [done | congruence]).
  all: match goal with
       | H : negb (PyStr.truthy _) = true |- _ =>
           apply negb_true_iff in H; exfalso; apply Hne; revert H;
           by destruct (PyStr.strip u)
       end.
Qed.

(** The three breach probes classify the term before their [try].  When
    [check] raises, it is the classification that raised, on a term that is
    not blank, and nothing has been sent; BreachVIP, which needs no key,
    raises whenever the classification of its stripped, non-blank term
    does. *)
Theorem breach_checks_raise_before_sending {W} (h : handler W) (w : W)
    (key : option string) (u : string) (c : client) (hd : headers) (e : exn) :
  let lc := run h (LeakCheck.check key u c hd) w in
  let sb := run h (Snusbase.check key u c hd) w in
  let bv := run h (BreachVIP.check u c hd) w in
  (lc.1.1 = Raise e ->
   lc.2 = [] /\ PyStr.strip u <> "" /\
   LeakCheck.determine_query_type (PyStr.strip u) = Raise e) /\
  (sb.1.1 = Raise e ->
   sb.2 = [] /\ PyStr.strip u <> "" /\
   Snusbase.determine_types (PyStr.strip u) = Raise e) /\
  (bv.1.1 = Raise e ->
   bv.2 = [] /\ PyStr.strip u <> "" /\
   BreachVIP.determine_search_fields (PyStr.strip u) = Raise e) /\
  (PyStr.strip u <> "" ->
   BreachVIP.determine_search_fields (PyStr.strip u) = Raise e ->
   bv.2 = [] /\ bv.1.1 = Raise e).
Proof.
  cbv zeta.
  pose proof (io_post_run h _ _ _ w (answers_any h) (leakcheck_raises key u c hd)) as Hlc.
  pose proof (io_post_run h _ _ _ w (answers_any h) (snusbase_raises key u c hd)) as Hsb.
  pose proof (io_post_run h _ _ _ w (answers_any h) (breachvip_raises u c hd)) as [Hbv Hbv'].
  split; [apply Hlc |]. split; [apply Hsb |]. split; [apply Hbv |]. apply Hbv'.
Qed.

(** BreachVIP, asked for an address that starts with 4301 digits: the
    call raises, and no request has gone out. *)
Lemma breach_checks_raise_before_sending_witness :
  let out :=
    Sample.probe (Sample.page 200 "") None
      (BreachVIP.check (Fixture.nines 4301 +:+ ".1.1.a@b") ClientDirect ∅) in
  out.2 = [] /\
  out.1 = Raise (PyOp.ValueError
                   "Exceeds the limit (4300 digits) for integer string conversion: value has 4301 digits; use sys.set_int_max_str_digits() to increase the limit").
Proof.
  apply (proj2 (proj2 (proj2 (breach_checks_raise_before_sending
                  (Sample.quiet_world (Sample.page 200 "") None) tt None
                  (Fixture.nines 4301 +:+ ".1.1.a@b") ClientDirect ∅ _)))).
  - vm_compute. discriminate.
  - vm_compute. reflexivity.
Defined.
